(** * Chemical.py: substances, mixtures and streams

    A shallow embedding of [src/Chemical.py] and the properties of its
    lazily derived quantities.

    Conventions of the embedding.
    - Python's numbers are a parameter, the class [Number]: the program is
      embedded once and read in two number systems, [exact] (rationals, for
      the algebraic laws) and [binary64] (the interpreter's floats, for what
      is claimed to hold exactly).  An int of the source is the number of the
      same value.
    - An attribute holds a [value]: [None], a number, a string, or a bound
      method (what [self.Density] is inside [Mixture], where [Density] is a
      method and not a property).
    - An operation that raises returns [Raise e]; evaluation order is the
      interpreter's, so the exception reported is the first one raised.
    - [fuel] is the number of nested property calls the interpreter still
      allows: a property on a cycle of calls raises [RecursionError] when it
      is entered with none left.
    - [x ** y] on numbers is a parameter [pow] of the functions that use
      it: it returns a number or raises, as the interpreter's power does.
    - [Stream.Velocity], which needs the module [Geometry], is left out. *)

From Stdlib Require Import String List ZArith QArith Qcanon Lia Field Bool.
From Stdlib Require Import Floats.
Import ListNotations.

Open Scope string_scope.
Open Scope list_scope.
Open Scope Qc_scope.

(** ** Numbers *)

Class Number : Type := {
  num : Type;
  n_lit : Q -> num;
  n_add : num -> num -> num;
  n_mul : num -> num -> num;
  n_div : num -> num -> num;
  n_is_zero : num -> bool
}.

(** Exact arithmetic on rationals. *)
Definition exact : Number :=
  {| num := Qc;
     n_lit := Q2Qc;
     n_add := Qcplus;
     n_mul := Qcmult;
     n_div := Qcdiv;
     n_is_zero := fun x => Qc_eq_bool x 0 |}.

(** IEEE 754 binary64.  A literal is the quotient of two integers, rounded
    once: the float nearest to the decimal for the literals of this
    program. *)
Definition float_of_Z (z : Z) : float :=
  match z with
  | Zneg p => PrimFloat.opp (PrimFloat.of_uint63 (Uint63.of_Z (Zpos p)))
  | _ => PrimFloat.of_uint63 (Uint63.of_Z z)
  end.

Definition binary64 : Number :=
  {| num := float;
     n_lit := fun q =>
       PrimFloat.div (float_of_Z (Qnum q)) (float_of_Z (Zpos (Qden q)));
     n_add := PrimFloat.add;
     n_mul := PrimFloat.mul;
     n_div := PrimFloat.div;
     n_is_zero := fun x => PrimFloat.eqb x PrimFloat.zero |}.

(** ** Exceptions and results *)

Inductive exn : Type :=
| TypeError
| ZeroDivisionError
| OverflowError
| IndexError
| RecursionError.

Inductive result (A : Type) : Type :=
| Ok (a : A)
| Raise (e : exn).

Arguments Ok {A} a.
Arguments Raise {A} e.

Definition bind {A B : Type} (r : result A) (k : A -> result B) : result B :=
  match r with
  | Ok a => k a
  | Raise e => Raise e
  end.

Notation "x <- e ;; k" := (bind e (fun x => k))
  (at level 61, e at next level, right associativity).

(** ** Python values and operators *)

Inductive value {Nb : Number} : Type :=
| VNone
| VNum (x : num)
| VStr (s : string)
| VBound.

(** [a + b]: numbers add, strings concatenate, anything else is a
    [TypeError]. *)
Definition py_add {Nb : Number} (a b : value) : result value :=
  match a, b with
  | VNum x, VNum y => Ok (VNum (n_add x y))
  | VStr s, VStr t => Ok (VStr (String.append s t))
  | _, _ => Raise TypeError
  end.

(** [a * b] on numbers.  A float times a string is a [TypeError]; an int
    times a string would be the repeated string, and the one place of the
    program where that can happen adds it to a number in the same statement,
    which is a [TypeError] as well. *)
Definition py_mul {Nb : Number} (a b : value) : result value :=
  match a, b with
  | VNum x, VNum y => Ok (VNum (n_mul x y))
  | _, _ => Raise TypeError
  end.

(** [a / b], true division. *)
Definition py_div {Nb : Number} (a b : value) : result value :=
  match a, b with
  | VNum x, VNum y =>
      if n_is_zero y then Raise ZeroDivisionError else Ok (VNum (n_div x y))
  | _, _ => Raise TypeError
  end.

(** [a ** b].  The power of two numbers is a parameter: [pow x y] is what
    the interpreter's [x ** y] gives, a number or the exception it raises
    ([ZeroDivisionError] for zero to a negative power, [OverflowError] for a
    result out of range).  A negative base with a fractional exponent gives
    a complex number, which is no [value]: a statement that reads a power
    says what that power gives. *)
Definition py_pow {Nb : Number} (pow : num -> num -> result num)
    (a b : value) : result value :=
  match a, b with
  | VNum x, VNum y => p <- pow x y ;; Ok (VNum p)
  | _, _ => Raise TypeError
  end.

(** [l[i]] for an index that [enumerate] produced (never negative). *)
Definition py_index {Nb : Number} (l : list value) (i : nat) : result value :=
  match nth_error l i with
  | Some v => Ok v
  | None => Raise IndexError
  end.

(** [for i, x in enumerate(l): s = body(s, i, x)], counting from [i]. *)
Fixpoint for_enumerate_from {A St : Type} (i : nat) (l : list A) (s : St)
    (body : St -> nat -> A -> result St) : result St :=
  match l with
  | [] => Ok s
  | x :: l' => s' <- body s i x ;; for_enumerate_from (S i) l' s' body
  end.

Definition for_enumerate {A St : Type} (l : list A) (s : St)
    (body : St -> nat -> A -> result St) : result St :=
  for_enumerate_from 0 l s body.

(** [[f(x) for x in l]]. *)
Fixpoint comprehension {A B : Type} (f : A -> result B) (l : list A)
    : result (list B) :=
  match l with
  | [] => Ok []
  | x :: l' => y <- f x ;; ys <- comprehension f l' ;; Ok (y :: ys)
  end.

(** The builtin [sum(l)]. *)
Definition py_sum {Nb : Number} (l : list value) : result value :=
  fold_left (fun acc x => a <- acc ;; py_add a x) l (Ok (VNum (n_lit 0))).

(** ** OrderedDict

    Built from a list of pairs: a key seen again keeps its first position
    and takes the later value. *)

Module OrderedDict.

Definition t {Nb : Number} : Type := list (string * value).

Fixpoint set {Nb : Number} (d : t) (k : string) (v : value) : t :=
  match d with
  | [] => [(k, v)]
  | (k', v') :: d' =>
      if String.eqb k' k then (k', v) :: d' else (k', v') :: set d' k v
  end.

Definition of_pairs {Nb : Number} (kvs : list (string * value)) : t :=
  fold_left (fun d kv => set d (fst kv) (snd kv)) kvs [].

Definition keys {Nb : Number} (d : t) : list string := map fst d.
Definition values {Nb : Number} (d : t) : list value := map snd d.

End OrderedDict.

(** ** Substance *)

Module Substance.

Record t {Nb : Number} : Type := {
  Name : string;
  Temperature : value;
  Pressure : value;
  MolarMass : value;
  Density0 : value;
  Viscosity0 : value;
  SpecificHeat0 : value;
  Diffusivity0 : value
}.

Definition init {Nb : Number} (name : string) : t :=
  {| Name := name;
     Temperature := VNum (n_lit 298.15);
     Pressure := VNum (n_lit 101325);
     MolarMass := VNone;
     Density0 := VNone;
     Viscosity0 := VNone;
     SpecificHeat0 := VNone;
     Diffusivity0 := VNone |}.

Definition Density {Nb : Number} (self : t) (T : value) : value :=
  Density0 self.
Definition Viscosity {Nb : Number} (self : t) (T : value) : value :=
  Viscosity0 self.
Definition SpecificHeat {Nb : Number} (self : t) (T : value) : value :=
  SpecificHeat0 self.
Definition Diffusivity {Nb : Number} (self : t) (T : value) : value :=
  Diffusivity0 self.

End Substance.

(** ** Mixture *)

Module Mixture.

Record t {Nb : Number} : Type := {
  Components : list Substance.t;
  ComponentNames : list string;
  wi : option (list value);
  zi : option (list value);
  V : value;
  M : value;
  N : value;
  Temperature : value;
  Pressure : value;
  _To : value;
  _Po : value
}.

Definition init {Nb : Number} (components : list Substance.t) : t :=
  {| Components := components;
     ComponentNames := map Substance.Name components;
     wi := None;
     zi := None;
     V := VNone;
     M := VNone;
     N := VNone;
     Temperature := VNum (n_lit 298.15);
     Pressure := VNum (n_lit 101325);
     _To := VNum (n_lit 273.15);
     _Po := VNum (n_lit 101325) |}.

(** [self.wi = w] and [self.zi = z] *)
Definition set_wi {Nb : Number} (self : t) (w : option (list value)) : t :=
  {| Components := Components self;
     ComponentNames := ComponentNames self;
     wi := w;
     zi := zi self;
     V := V self;
     M := M self;
     N := N self;
     Temperature := Temperature self;
     Pressure := Pressure self;
     _To := _To self;
     _Po := _Po self |}.

Definition set_zi {Nb : Number} (self : t) (z : option (list value)) : t :=
  {| Components := Components self;
     ComponentNames := ComponentNames self;
     wi := wi self;
     zi := z;
     V := V self;
     M := M self;
     N := N self;
     Temperature := Temperature self;
     Pressure := Pressure self;
     _To := _To self;
     _Po := _Po self |}.

Definition MolarMasses {Nb : Number} (self : t) : OrderedDict.t :=
  OrderedDict.of_pairs
    (combine (ComponentNames self) (map Substance.MolarMass (Components self))).

Fixpoint MassFractions {Nb : Number} (fuel : nat) (self : t) {struct fuel}
    : result (list value) :=
  match fuel with
  | O => Raise RecursionError
  | S n =>
      match wi self with
      | None =>
          for_enumerate (OrderedDict.values (MolarMasses self)) []
            (fun wi i MMi =>
               zs <- MolarFractions n self ;;
               z <- py_index zs i ;;
               num <- py_mul z MMi ;;
               den <- for_enumerate (OrderedDict.values (MolarMasses self))
                        (VNum (n_lit 0))
                        (fun den j MMj =>
                           zs <- MolarFractions n self ;;
                           z <- py_index zs j ;;
                           p <- py_mul z MMj ;;
                           py_add den p) ;;
               q <- py_div num den ;;
               Ok (wi ++ [q]))
      | Some w => Ok w
      end
  end
with MolarFractions {Nb : Number} (fuel : nat) (self : t) {struct fuel}
    : result (list value) :=
  match fuel with
  | O => Raise RecursionError
  | S n =>
      match zi self with
      | None =>
          for_enumerate (OrderedDict.values (MolarMasses self)) []
            (fun zi i MMi =>
               ws <- MassFractions n self ;;
               w <- py_index ws i ;;
               num <- py_div w MMi ;;
               den <- for_enumerate (OrderedDict.values (MolarMasses self))
                        (VNum (n_lit 0))
                        (fun den j MMj =>
                           ws <- MassFractions n self ;;
                           w <- py_index ws j ;;
                           p <- py_div w MMj ;;
                           py_add den p) ;;
               q <- py_div num den ;;
               Ok (zi ++ [q]))
      | Some z => Ok z
      end
  end.

(** Iterating an [OrderedDict] yields its keys: [MMi] is a component
    name here. *)
Definition MolarMass {Nb : Number} (fuel : nat) (self : t) : result value :=
  for_enumerate (OrderedDict.keys (MolarMasses self)) (VNum (n_lit 0))
    (fun MM i MMi =>
       zs <- MolarFractions fuel self ;;
       z <- py_index zs i ;;
       p <- py_mul z (VStr MMi) ;;
       py_add MM p).

(** [self.Density] is the bound method, not a number: [Density] is
    declared without [@property]. *)
Definition Mass {Nb : Number} (fuel : nat) (self : t) : result value :=
  match M self with
  | VNone =>
      match N self with
      | VNone => py_mul (V self) VBound
      | n => mm <- MolarMass fuel self ;; py_mul n mm
      end
  | m => Ok m
  end.

Definition Volume {Nb : Number} (self : t) : result value :=
  match V self with
  | VNone =>
      match N self with
      | VNone => py_div (M self) VBound
      | n =>
          a <- py_mul n (VNum (n_lit 8.314)) ;;
          b <- py_mul a (Temperature self) ;;
          py_div b (Pressure self)
      end
  | v => Ok v
  end.

Definition Moles {Nb : Number} (fuel : nat) (self : t) : result value :=
  match N self with
  | VNone =>
      match V self with
      | VNone => mm <- MolarMass fuel self ;; py_div (M self) mm
      | v =>
          a <- py_mul (Pressure self) v ;;
          b <- py_mul (VNum (n_lit 8.314)) (Temperature self) ;;
          py_div a b
      end
  | n => Ok n
  end.

Definition Density {Nb : Number} (fuel : nat) (self : t) (T : value)
    : result value :=
  rho <- for_enumerate (Components self) (VNum (n_lit 0))
           (fun rho i c =>
              ws <- MassFractions fuel self ;;
              w <- py_index ws i ;;
              q <- py_div w (Substance.Density c T) ;;
              py_add rho q) ;;
  py_div (VNum (n_lit 1)) rho.

Definition Viscosity {Nb : Number} (pow : num -> num -> result num)
    (fuel : nat) (self : t) (T : value) : result value :=
  for_enumerate (Components self) (VNum (n_lit 1))
    (fun mu i c =>
       ws <- MassFractions fuel self ;;
       w <- py_index ws i ;;
       p <- py_pow pow (Substance.Viscosity c T) w ;;
       py_mul mu p).

Definition SpecificHeat {Nb : Number} (fuel : nat) (self : t) (T : value)
    : result value :=
  for_enumerate (Components self) (VNum (n_lit 0))
    (fun Cp i c =>
       ws <- MassFractions fuel self ;;
       w <- py_index ws i ;;
       p <- py_mul w (Substance.SpecificHeat c T) ;;
       py_add Cp p).

End Mixture.

(** ** Stream *)

Module Stream.

Record t {Nb : Number} : Type := {
  Components : list Substance.t;
  ComponentNames : list string;
  Temperature : value;
  Pressure : value;
  Density : value;
  Viscosity : value;
  SpecificHeat : value;
  MolarMass : value;
  MolarMasses : OrderedDict.t;
  MassFractions : list value;
  MolarFractions : list value;
  Tag : value;
  From : value;
  To : value;
  Mf : value;
  Vf : value;
  Vfo : value;
  Nf : value;
  ParticleSize : value;
  ParticleCharge : value;
  _To : value;
  _Po : value
}.

Definition init {Nb : Number} (pow : num -> num -> result num)
    (fuel : nat) (mixture : Mixture.t) : result t :=
  let T := Mixture.Temperature mixture in
  density <- Mixture.Density fuel mixture T ;;
  viscosity <- Mixture.Viscosity pow fuel mixture T ;;
  specific_heat <- Mixture.SpecificHeat fuel mixture T ;;
  molar_mass <- Mixture.MolarMass fuel mixture ;;
  mass_fractions <- Mixture.MassFractions fuel mixture ;;
  molar_fractions <- Mixture.MolarFractions fuel mixture ;;
  Ok {| Components := Mixture.Components mixture;
        ComponentNames := Mixture.ComponentNames mixture;
        Temperature := T;
        Pressure := Mixture.Pressure mixture;
        Density := density;
        Viscosity := viscosity;
        SpecificHeat := specific_heat;
        MolarMass := molar_mass;
        MolarMasses := Mixture.MolarMasses mixture;
        MassFractions := mass_fractions;
        MolarFractions := molar_fractions;
        Tag := VNone;
        From := VNone;
        To := VNone;
        Mf := VNone;
        Vf := VNone;
        Vfo := VNone;
        Nf := VNone;
        ParticleSize := VNone;
        ParticleCharge := VNone;
        _To := VNum (n_lit 273.15);
        _Po := VNum (n_lit 101325) |}.

Fixpoint VolumeFlow {Nb : Number} (fuel : nat) (self : t) {struct fuel}
    : result value :=
  match fuel with
  | O => Raise RecursionError
  | S n =>
      match Vf self with
      | VNone =>
          match Vfo self with
          | VNone => py_div (Mf self) (Density self)
          | _ =>
              nvf <- NormalVolumeFlow n self ;;
              a <- py_div (_Po self) (_To self) ;;
              b <- py_mul nvf a ;;
              c <- py_div (Temperature self) (Pressure self) ;;
              py_mul b c
          end
      | vf => Ok vf
      end
  end
with NormalVolumeFlow {Nb : Number} (fuel : nat) (self : t) {struct fuel}
    : result value :=
  match fuel with
  | O => Raise RecursionError
  | S n =>
      match Vfo self with
      | VNone =>
          vf <- VolumeFlow n self ;;
          a <- py_div (_To self) (_Po self) ;;
          b <- py_mul vf a ;;
          c <- py_div (Pressure self) (Temperature self) ;;
          py_mul b c
      | vfo => Ok vfo
      end
  end.

Definition MassFlow {Nb : Number} (fuel : nat) (self : t) : result value :=
  match Mf self with
  | VNone =>
      match Nf self with
      | VNone => vf <- VolumeFlow fuel self ;; py_mul vf (Density self)
      | nf => py_mul nf (MolarMass self)
      end
  | mf => Ok mf
  end.

Definition MolarFlow {Nb : Number} (fuel : nat) (self : t) : result value :=
  match Nf self with
  | VNone => mf <- MassFlow fuel self ;; py_div mf (MolarMass self)
  | nf => Ok nf
  end.

Definition MassFlows {Nb : Number} (fuel : nat) (self : t)
    : result (list value) :=
  comprehension (fun wi => mf <- MassFlow fuel self ;; py_mul wi mf)
    (MassFractions self).

Definition VolumeFlows {Nb : Number} (fuel : nat) (self : t)
    : result (list value) :=
  comprehension (fun zi => vf <- VolumeFlow fuel self ;; py_mul zi vf)
    (MolarFractions self).

Definition MolarFlows {Nb : Number} (fuel : nat) (self : t)
    : result (list value) :=
  comprehension (fun zi => nf <- MolarFlow fuel self ;; py_mul zi nf)
    (MolarFractions self).

End Stream.

(** ** Vocabulary of the statements *)

(** Sum and product of a list of numbers, from the left as the loops of the
    program take them. *)
Definition n_sum {Nb : Number} (l : list num) : num :=
  fold_left n_add l (n_lit 0).
Definition n_prod {Nb : Number} (l : list num) : num :=
  fold_left n_mul l (n_lit 1).

(** Element-wise combination of two lists. *)
Definition zip_with {A : Type} (f : A -> A -> A) (xs ys : list A) : list A :=
  map (fun p => f (fst p) (snd p)) (combine xs ys).

(** Each entry over the sum of all entries. *)
Definition normalise {Nb : Number} (xs : list num) : list num :=
  map (fun x => n_div x (n_sum xs)) xs.

(** None of the numbers is zero. *)
Definition nonzero {Nb : Number} (xs : list num) : Prop :=
  Forall (fun x => n_is_zero x = false) xs.

(** The component names are those of the components and no two are the
    same (section 3 of the specification: a name is unique within a
    mixture). *)
Definition named_apart {Nb : Number} (m : Mixture.t) : Prop :=
  Mixture.ComponentNames m = map Substance.Name (Mixture.Components m)
  /\ NoDup (Mixture.ComponentNames m).

(** The molar masses of the components are the numbers [mms]. *)
Definition molar_masses {Nb : Number} (m : Mixture.t) (mms : list num) : Prop :=
  map Substance.MolarMass (Mixture.Components m) = map VNum mms.

(** The powers [mu_i ** w_i] of the viscosities [mus] to the fractions
    [ws] are the numbers [ps]: each is what [**] gives for that pair. *)
Definition powers {Nb : Number} (pow : num -> num -> result num)
    (ws mus ps : list num) : Prop :=
  Forall2 (fun wm p => pow (snd wm) (fst wm) = Ok p) (combine ws mus) ps.

(** Sum and product on rationals, as the mathematics has them. *)
Definition Qcsum (l : list Qc) : Qc := fold_right Qcplus 0 l.
Definition Qcprod (l : list Qc) : Qc := fold_right Qcmult 1 l.

(** ** Objects used in the examples *)

Definition substance {Nb : Number} (name : string) (MM rho mu cp : Q)
    : Substance.t :=
  {| Substance.Name := name;
     Substance.Temperature := VNum (n_lit 298.15);
     Substance.Pressure := VNum (n_lit 101325);
     Substance.MolarMass := VNum (n_lit MM);
     Substance.Density0 := VNum (n_lit rho);
     Substance.Viscosity0 := VNum (n_lit mu);
     Substance.SpecificHeat0 := VNum (n_lit cp);
     Substance.Diffusivity0 := VNone |}.

Definition water {Nb : Number} : Substance.t :=
  substance "water" 0.018 1000 0.001 4180.

Definition ethanol {Nb : Number} : Substance.t :=
  substance "ethanol" 0.046 789 0.0012 2440.

(** [Mixture(components)] followed by assignments to [wi], [zi], [V], [M]
    and [N]. *)
Definition mixture_of {Nb : Number} (components : list Substance.t)
    (w z : option (list value)) (v m n : value) : Mixture.t :=
  {| Mixture.Components := components;
     Mixture.ComponentNames := map Substance.Name components;
     Mixture.wi := w;
     Mixture.zi := z;
     Mixture.V := v;
     Mixture.M := m;
     Mixture.N := n;
     Mixture.Temperature := VNum (n_lit 298.15);
     Mixture.Pressure := VNum (n_lit 101325);
     Mixture._To := VNum (n_lit 273.15);
     Mixture._Po := VNum (n_lit 101325) |}.

(** The numbers of a list of literals. *)
Definition numbers {Nb : Number} (qs : list Q) : list value :=
  map (fun q => VNum (n_lit q)) qs.

(** Water and ethanol, half and half by mass. *)
Definition half_half_by_mass {Nb : Number} : Mixture.t :=
  mixture_of [water; ethanol] (Some (numbers [0.5; 0.5]%Q)) None
    VNone VNone VNone.

(** Water and ethanol, three to one by moles. *)
Definition three_to_one_by_moles {Nb : Number} : Mixture.t :=
  mixture_of [water; ethanol] None (Some (numbers [0.75; 0.25]%Q))
    VNone VNone VNone.

(** Water alone, by mass and by moles. *)
Definition pure_water {Nb : Number} : Mixture.t :=
  mixture_of [water] (Some (numbers [1%Q])) None VNone VNone VNone.

Definition pure_water_by_moles {Nb : Number} : Mixture.t :=
  mixture_of [water] None (Some (numbers [1%Q])) VNone VNone VNone.

(** Water and ethanol with no ethanol in it. *)
Definition water_no_ethanol {Nb : Number} : Mixture.t :=
  mixture_of [water; ethanol] (Some (numbers [1; 0]%Q)) None VNone VNone VNone.

(** [x ** y] on rationals for a whole exponent [y] (its numerator, the
    denominator being one): zero to a negative power raises.  The examples
    in exact arithmetic raise to whole exponents only. *)
Definition whole_pow (x y : Qc) : result Qc :=
  if Qc_eq_bool x 0 && (Qnum y <? 0)%Z
  then Raise ZeroDivisionError
  else Ok (Q2Qc (Qpower x (Qnum y))).

(** [x ** y] for the exponent one, where it is [x]: the examples in
    binary64 raise to the exponent 1.0 only. *)
Definition first_power {Nb : Number} (x y : num) : result num := Ok x.

(** Two litres of water, given by volume, and two kilograms, given by
    mass. *)
Definition two_litres_of_water {Nb : Number} : Mixture.t :=
  mixture_of [water] (Some (numbers [1%Q])) None (VNum (n_lit 0.002))
    VNone VNone.

Definition two_kilograms_of_water {Nb : Number} : Mixture.t :=
  mixture_of [water] (Some (numbers [1%Q])) None VNone (VNum (n_lit 2))
    VNone.

(** A stream by its attributes: density, molar mass and the two fraction
    lists of the snapshot, then [Mf], [Vf], [Vfo] and [Nf]. *)
Definition stream_of {Nb : Number} (density molar_mass : Q) (ws zs : list Q)
    (mf vf vfo nf : value) : Stream.t :=
  {| Stream.Components := [];
     Stream.ComponentNames := [];
     Stream.Temperature := VNum (n_lit 298.15);
     Stream.Pressure := VNum (n_lit 101325);
     Stream.Density := VNum (n_lit density);
     Stream.Viscosity := VNone;
     Stream.SpecificHeat := VNone;
     Stream.MolarMass := VNum (n_lit molar_mass);
     Stream.MolarMasses := [];
     Stream.MassFractions := numbers ws;
     Stream.MolarFractions := numbers zs;
     Stream.Tag := VNone;
     Stream.From := VNone;
     Stream.To := VNone;
     Stream.Mf := mf;
     Stream.Vf := vf;
     Stream.Vfo := vfo;
     Stream.Nf := nf;
     Stream.ParticleSize := VNone;
     Stream.ParticleCharge := VNone;
     Stream._To := VNum (n_lit 273.15);
     Stream._Po := VNum (n_lit 101325) |}.

(** Ten kilograms a second of a fluid of molar mass 0.02. *)
Definition ten_kg_per_s {Nb : Number} : Stream.t :=
  stream_of 1000 0.02 [0.25; 0.75]%Q [0.5; 0.5]%Q (VNum (n_lit 10))
    VNone VNone VNone.

(** The same fluid with the molar flow as the only flow stored. *)
Definition molar_flow_only {Nb : Number} : Stream.t :=
  stream_of 1000 0.02 [0.25; 0.75]%Q [0.5; 0.5]%Q VNone VNone VNone
    (VNum (n_lit 500)).

(** No flow stored. *)
Definition no_flow {Nb : Number} : Stream.t :=
  stream_of 1000 0.02 [0.25; 0.75]%Q [0.5; 0.5]%Q VNone VNone VNone VNone.

(** A single component of density 49. *)
Definition dense_49 {Nb : Number} : Substance.t :=
  substance "dense_49" 0.018 49 0.001 4180.

Definition pure_dense_49 {Nb : Number} : Mixture.t :=
  mixture_of [dense_49] (Some (numbers [1%Q])) None VNone VNone VNone.

(** The default temperature of the accessors. *)
Definition T_default {Nb : Number} : value := VNum (n_lit 298.15).

(** Two components under one name. *)
Definition water_twice {Nb : Number} : Mixture.t :=
  mixture_of [water; substance "water" 0.020 1100 0.001 4200] None
    (Some (numbers [0.5; 0.5]%Q)) VNone VNone VNone.

(** [Substance(name)] with a molar mass assigned. *)
Definition substance_of_molar_mass {Nb : Number} (name : string) (MM : num)
    : Substance.t :=
  {| Substance.Name := name;
     Substance.Temperature := VNum (n_lit 298.15);
     Substance.Pressure := VNum (n_lit 101325);
     Substance.MolarMass := VNum MM;
     Substance.Density0 := VNone;
     Substance.Viscosity0 := VNone;
     Substance.SpecificHeat0 := VNone;
     Substance.Diffusivity0 := VNone |}.

(** Two components of molar masses [2 ** -1000] and [2 ** 1000], half and
    half by mass, in binary64. *)
Definition light_and_heavy : @Mixture.t binary64 :=
  mixture_of
    [@substance_of_molar_mass binary64 "light" (0x1p-1000)%float;
     @substance_of_molar_mass binary64 "heavy" (0x1p+1000)%float]
    (Some (numbers [0.5; 0.5]%Q)) None VNone VNone VNone.

(** Mass fractions 2 and -1, which add up to one, on molar masses 2
    and 1. *)
Definition two_minus_one {Nb : Number} : Mixture.t :=
  mixture_of [substance "a" 2 1 1 1; substance "b" 1 1 1 1]
    (Some (numbers [2; -1]%Q)) None VNone VNone VNone.

(** Three kilograms a second, three tenths of it one component. *)
Definition three_kg_per_s {Nb : Number} : Stream.t :=
  stream_of 1000 0.02 [0.3; 0.7]%Q [0.5; 0.5]%Q (VNum (n_lit 3))
    VNone VNone VNone.

(** A component that does not flow, with a negative mass fraction. *)
Definition rigid {Nb : Number} : Substance.t :=
  substance "rigid" 0.018 1000 0 4180.

Definition water_less_rigid {Nb : Number} : Mixture.t :=
  mixture_of [water; rigid] (Some (numbers [2; -1]%Q)) None
    VNone VNone VNone.

(** ** Tactics *)

(** Closed equalities and disequalities of rationals. *)
Ltac qc_eq := apply Qc_is_canon; vm_compute; reflexivity.
Ltac qc_neq :=
  let H := fresh in
  intro H; apply (f_equal this) in H; vm_compute in H; discriminate H.

(** An equation between numbers of [exact], read as one of rationals. *)
Ltac as_Qc :=
  cbn beta;
  match goal with
  | |- @eq _ ?a ?b => change (@eq Qc a b)
  | |- not (@eq _ ?a ?b) => change (not (@eq Qc a b))
  end;
  cbn [n_add n_mul n_div n_lit exact].

(** Sums, products and element-wise combinations of explicit lists. *)
Ltac list_ops :=
  unfold zip_with, Qcsum, Qcprod; cbn [combine map fst snd fold_right].

(** * Properties in every number system *)

Section Generic.

Context {Nb : Number}.

(** ** Operators *)

Lemma py_div_num (x y : num) :
  n_is_zero y = false -> py_div (VNum x) (VNum y) = Ok (VNum (n_div x y)).
Proof. intro H. unfold py_div. now rewrite H. Qed.

Lemma py_div_by_zero (x y : num) :
  n_is_zero y = true -> py_div (VNum x) (VNum y) = Raise ZeroDivisionError.
Proof. intro H. unfold py_div. now rewrite H. Qed.

Lemma py_div_nonzero (ys : list num) :
  nonzero ys ->
  forall x y, In y ys -> py_div (VNum x) (VNum y) = Ok (VNum (n_div x y)).
Proof.
  intros H x y Hin. apply py_div_num.
  unfold nonzero in H. rewrite Forall_forall in H. now apply H.
Qed.

Lemma py_mul_str_r (a : value) (s : string) :
  py_mul a (VStr s) = Raise TypeError.
Proof. now destruct a. Qed.

Lemma py_mul_bound_r (a : value) : py_mul a VBound = Raise TypeError.
Proof. now destruct a. Qed.

Lemma py_div_bound_r (a : value) : py_div a VBound = Raise TypeError.
Proof. now destruct a. Qed.

Lemma py_index_map (xs : list num) (i : nat) (x : num) :
  nth_error xs i = Some x -> py_index (map VNum xs) i = Ok (VNum x).
Proof.
  intro H. unfold py_index. rewrite nth_error_map, H. reflexivity.
Qed.

Lemma zip_with_length {A : Type} (f : A -> A -> A) (xs ys : list A) :
  length xs = length ys -> length (zip_with f xs ys) = length ys.
Proof.
  intro H. unfold zip_with. rewrite length_map, length_combine. lia.
Qed.

(** ** OrderedDict with distinct keys *)

Lemma OrderedDict_set_fresh (d : OrderedDict.t) (k : string) (v : value) :
  ~ In k (OrderedDict.keys d) -> OrderedDict.set d k v = d ++ [(k, v)].
Proof.
  induction d as [|[k' v'] d IH]; simpl; intro H.
  - reflexivity.
  - destruct (String.eqb_spec k' k) as [->|_].
    + exfalso. apply H. now left.
    + rewrite IH; [reflexivity|]. intro. apply H. now right.
Qed.

Lemma OrderedDict_set_nonempty (d : OrderedDict.t) (k : string) (v : value) :
  OrderedDict.set d k v <> [].
Proof.
  destruct d as [|[k' v'] d]; simpl; [discriminate|].
  now destruct (String.eqb k' k).
Qed.

Lemma OrderedDict_fold_fresh (kvs : list (string * value))
    (d : OrderedDict.t) :
  NoDup (OrderedDict.keys d ++ map fst kvs) ->
  fold_left (fun d kv => OrderedDict.set d (fst kv) (snd kv)) kvs d
  = d ++ kvs.
Proof.
  revert d. induction kvs as [|[k v] kvs IH]; intros d H; simpl.
  - now rewrite app_nil_r.
  - simpl in H. pose proof (NoDup_remove_2 _ _ _ H) as Hk.
    rewrite OrderedDict_set_fresh.
    + rewrite IH.
      * now rewrite <- app_assoc.
      * unfold OrderedDict.keys. rewrite map_app. simpl.
        rewrite <- app_assoc. exact H.
    + intro Hin. apply Hk. apply in_or_app. now left.
Qed.

Lemma OrderedDict_of_pairs_NoDup (kvs : list (string * value)) :
  NoDup (map fst kvs) -> OrderedDict.of_pairs kvs = kvs.
Proof.
  intro H. unfold OrderedDict.of_pairs.
  now rewrite OrderedDict_fold_fresh.
Qed.

Lemma OrderedDict_fold_nonempty (kvs : list (string * value))
    (d : OrderedDict.t) :
  d <> [] ->
  fold_left (fun d kv => OrderedDict.set d (fst kv) (snd kv)) kvs d <> [].
Proof.
  revert d. induction kvs as [|kv kvs IH]; intros d H; simpl.
  - exact H.
  - apply IH. apply OrderedDict_set_nonempty.
Qed.

Lemma OrderedDict_of_pairs_nonempty (kvs : list (string * value)) :
  kvs <> [] -> OrderedDict.of_pairs kvs <> [].
Proof.
  destruct kvs as [|kv kvs]; [congruence|]. intros _.
  unfold OrderedDict.of_pairs. simpl.
  apply OrderedDict_fold_nonempty. discriminate.
Qed.

Lemma map_fst_combine {A B : Type} (l : list A) (l' : list B) :
  length l = length l' -> map fst (combine l l') = l.
Proof.
  revert l'. induction l as [|a l IH]; intros [|b l'] H; simpl in *;
    try discriminate; [reflexivity|].
  f_equal. apply IH. now injection H.
Qed.

Lemma map_snd_combine {A B : Type} (l : list A) (l' : list B) :
  length l = length l' -> map snd (combine l l') = l'.
Proof.
  revert l'. induction l as [|a l IH]; intros [|b l'] H; simpl in *;
    try discriminate; [reflexivity|].
  f_equal. apply IH. now injection H.
Qed.

Lemma MolarMasses_named_apart (m : Mixture.t) :
  named_apart m ->
  Mixture.MolarMasses m
  = combine (Mixture.ComponentNames m)
      (map Substance.MolarMass (Mixture.Components m)).
Proof.
  intros [Hn Hd]. unfold Mixture.MolarMasses.
  apply OrderedDict_of_pairs_NoDup.
  rewrite map_fst_combine; [exact Hd|].
  rewrite Hn. now rewrite !length_map.
Qed.

Lemma MolarMasses_values (m : Mixture.t) :
  named_apart m ->
  OrderedDict.values (Mixture.MolarMasses m)
  = map Substance.MolarMass (Mixture.Components m).
Proof.
  intro H. rewrite (MolarMasses_named_apart m H).
  destruct H as [Hn _]. unfold OrderedDict.values.
  apply map_snd_combine. rewrite Hn. now rewrite !length_map.
Qed.

(** ** The loops of the accessors

    Every loop of [Mixture] reads a list property again on each pass,
    picks the entry of the running index, combines it with a
    per-component number and accumulates.  [get] is the property read,
    [proj] the per-component number, [op] the combination. *)

Section Loops.

Context {A : Type}.
Variable get : result (list value).
Variable proj : A -> value.
Variable op : value -> value -> result value.
Variable f : num -> num -> num.

Lemma for_enumerate_fold_from (comb : value -> value -> result value)
    (g : num -> num -> num) (full : list num) :
  (forall a b, comb (VNum a) (VNum b) = Ok (VNum (g a b))) ->
  get = Ok (map VNum full) ->
  forall (cs : list A) (ys xs pre : list num) (acc : num),
    full = pre ++ xs ->
    map proj cs = map VNum ys ->
    length xs = length ys ->
    (forall x y, In y ys -> op (VNum x) (VNum y) = Ok (VNum (f x y))) ->
    for_enumerate_from (length pre) cs (VNum acc)
      (fun s i c =>
         l <- get ;; x <- py_index l i ;; p <- op x (proj c) ;; comb s p)
    = Ok (VNum (fold_left g (zip_with f xs ys) acc)).
Proof.
  intros Hcomb Hget. rewrite Hget. cbn [bind].
  induction cs as [|c cs IH]; intros ys xs pre acc Hfull Hp Hlen Hop.
  - destruct ys; [|discriminate]. destruct xs; [|discriminate].
    reflexivity.
  - destruct ys as [|y ys]; [discriminate|].
    destruct xs as [|x xs]; [discriminate|].
    injection Hp as Hc Hp. injection Hlen as Hlen.
    cbn [for_enumerate_from bind].
    rewrite (py_index_map _ _ x).
    2:{ rewrite Hfull, nth_error_app2 by lia. now rewrite Nat.sub_diag. }
    cbn [bind]. rewrite Hc, Hop by now left. cbn [bind]. rewrite Hcomb.
    cbn [bind].
    replace (S (length pre)) with (length (pre ++ [x]))
      by (rewrite length_app; simpl; lia).
    rewrite (IH ys xs (pre ++ [x]) (g acc (f x y))); try assumption.
    + reflexivity.
    + now rewrite <- app_assoc.
    + intros x' y' Hin. apply Hop. now right.
Qed.

Lemma for_enumerate_fold (comb : value -> value -> result value)
    (g : num -> num -> num) (cs : list A) (xs ys : list num) (acc : num) :
  (forall a b, comb (VNum a) (VNum b) = Ok (VNum (g a b))) ->
  get = Ok (map VNum xs) ->
  map proj cs = map VNum ys ->
  length xs = length ys ->
  (forall x y, In y ys -> op (VNum x) (VNum y) = Ok (VNum (f x y))) ->
  for_enumerate cs (VNum acc)
    (fun s i c =>
       l <- get ;; x <- py_index l i ;; p <- op x (proj c) ;; comb s p)
  = Ok (VNum (fold_left g (zip_with f xs ys) acc)).
Proof.
  intros Hcomb Hget Hp Hlen Hop.
  now apply (for_enumerate_fold_from comb g xs Hcomb Hget cs ys xs []).
Qed.

End Loops.

Section Normalise.

Variable get : result (list value).
Variable op : value -> value -> result value.
Variable f : num -> num -> num.
Variable den_loop : result value.
Variable D : num.

Lemma for_enumerate_normalise_from (full : list num) :
  den_loop = Ok (VNum D) ->
  n_is_zero D = false ->
  get = Ok (map VNum full) ->
  forall (ys xs pre : list num) (out : list value),
    full = pre ++ xs ->
    length xs = length ys ->
    (forall x y, In y ys -> op (VNum x) (VNum y) = Ok (VNum (f x y))) ->
    for_enumerate_from (length pre) (map VNum ys) out
      (fun out i MMi =>
         l <- get ;; x <- py_index l i ;; num <- op x MMi ;;
         den <- den_loop ;; q <- py_div num den ;; Ok (out ++ [q]))
    = Ok (out ++ map VNum (map (fun t => n_div t D) (zip_with f xs ys))).
Proof.
  intros Hden HD Hget. rewrite Hget, Hden. cbn [bind].
  induction ys as [|y ys IH]; intros xs pre out Hfull Hlen Hop.
  - destruct xs; [|discriminate]. cbn. now rewrite app_nil_r.
  - destruct xs as [|x xs]; [discriminate|]. injection Hlen as Hlen.
    cbn [map for_enumerate_from bind].
    rewrite (py_index_map _ _ x).
    2:{ rewrite Hfull, nth_error_app2 by lia. now rewrite Nat.sub_diag. }
    cbn [bind]. rewrite Hop by now left. cbn [bind].
    rewrite py_div_num by exact HD. cbn [bind].
    replace (S (length pre)) with (length (pre ++ [x]))
      by (rewrite length_app; simpl; lia).
    rewrite (IH xs (pre ++ [x])); try assumption.
    + cbn. now rewrite <- app_assoc.
    + now rewrite <- app_assoc.
    + intros x' y' Hin. apply Hop. now right.
Qed.

Lemma for_enumerate_normalise (xs ys : list num) :
  den_loop = Ok (VNum D) ->
  n_is_zero D = false ->
  get = Ok (map VNum xs) ->
  length xs = length ys ->
  (forall x y, In y ys -> op (VNum x) (VNum y) = Ok (VNum (f x y))) ->
  for_enumerate (map VNum ys) []
    (fun out i MMi =>
       l <- get ;; x <- py_index l i ;; num <- op x MMi ;;
       den <- den_loop ;; q <- py_div num den ;; Ok (out ++ [q]))
  = Ok (map VNum (map (fun t => n_div t D) (zip_with f xs ys))).
Proof.
  intros Hden HD Hget Hlen Hop.
  now apply (for_enumerate_normalise_from xs Hden HD Hget ys xs [] []).
Qed.

End Normalise.

(** The same loop when the operation is known pair by pair: [ps] lists
    what it gives for each entry and its component. *)
Section Pairs.

Context {A : Type}.
Variable get : result (list value).
Variable proj : A -> value.
Variable op : value -> value -> result value.
Variable comb : value -> value -> result value.
Variable g : num -> num -> num.

Hypothesis comb_num : forall a b, comb (VNum a) (VNum b) = Ok (VNum (g a b)).

Lemma for_enumerate_pairs_from (full : list num) :
  get = Ok (map VNum full) ->
  forall (cs : list A) (ys xs pre ps : list num) (acc : num),
    full = pre ++ xs ->
    map proj cs = map VNum ys ->
    (length ys <= length xs)%nat ->
    Forall2 (fun xy p => op (VNum (fst xy)) (VNum (snd xy)) = Ok (VNum p))
      (combine xs ys) ps ->
    for_enumerate_from (length pre) cs (VNum acc)
      (fun s i c =>
         l <- get ;; x <- py_index l i ;; p <- op x (proj c) ;; comb s p)
    = Ok (VNum (fold_left g ps acc)).
Proof.
  intros Hget. rewrite Hget. cbn [bind].
  induction cs as [|c cs IH]; intros ys xs pre ps acc Hfull Hp Hlen Hop.
  - destruct ys; [|discriminate]. rewrite combine_nil in Hop.
    inversion Hop. reflexivity.
  - destruct ys as [|y ys]; [discriminate|].
    destruct xs as [|x xs]; [cbn in Hlen; lia|].
    injection Hp as Hc Hp. cbn [length] in Hlen.
    cbn [combine] in Hop. inversion Hop as [|? p ? ps' Hxy Hrest]; subst.
    cbn [fst snd] in Hxy.
    cbn [for_enumerate_from bind].
    rewrite (py_index_map _ _ x).
    2:{ rewrite nth_error_app2 by lia. now rewrite Nat.sub_diag. }
    cbn [bind]. rewrite Hc, Hxy. cbn [bind]. rewrite comb_num.
    cbn [bind].
    replace (S (length pre)) with (length (pre ++ [x]))
      by (rewrite length_app; simpl; lia).
    rewrite (IH ys xs (pre ++ [x]) ps' (g acc p)); try assumption.
    + reflexivity.
    + now rewrite <- app_assoc.
    + lia.
Qed.

Lemma for_enumerate_pairs (cs : list A) (xs ys ps : list num) (acc : num) :
  get = Ok (map VNum xs) ->
  map proj cs = map VNum ys ->
  (length ys <= length xs)%nat ->
  Forall2 (fun xy p => op (VNum (fst xy)) (VNum (snd xy)) = Ok (VNum p))
    (combine xs ys) ps ->
  for_enumerate cs (VNum acc)
    (fun s i c =>
       l <- get ;; x <- py_index l i ;; p <- op x (proj c) ;; comb s p)
  = Ok (VNum (fold_left g ps acc)).
Proof.
  intros Hget Hp Hlen Hop.
  now apply (for_enumerate_pairs_from xs Hget cs ys xs []).
Qed.

End Pairs.

(** What [py_pow] gives on the pairs of [powers]. *)
Lemma powers_py_pow (pow : num -> num -> result num) (ws mus ps : list num) :
  powers pow ws mus ps ->
  Forall2 (fun wm p => py_pow pow (VNum (snd wm)) (VNum (fst wm))
                       = Ok (VNum p))
    (combine ws mus) ps.
Proof.
  unfold powers. apply Forall2_impl. intros wm p H. cbn [py_pow].
  now rewrite H.
Qed.

(** ** Unfolding the accessors *)

Lemma MassFractions_stored (fuel : nat) (m : Mixture.t) (w : list value) :
  Mixture.wi m = Some w -> Mixture.MassFractions (S fuel) m = Ok w.
Proof. intro H. cbn [Mixture.MassFractions]. now rewrite H. Qed.

Lemma MolarFractions_stored (fuel : nat) (m : Mixture.t) (z : list value) :
  Mixture.zi m = Some z -> Mixture.MolarFractions (S fuel) m = Ok z.
Proof. intro H. cbn [Mixture.MolarFractions]. now rewrite H. Qed.

Lemma MolarFractions_derived (fuel : nat) (m : Mixture.t)
    (ws mms : list num) :
  named_apart m ->
  molar_masses m mms ->
  Mixture.wi m = Some (map VNum ws) ->
  Mixture.zi m = None ->
  length ws = length mms ->
  nonzero mms ->
  n_is_zero (n_sum (zip_with n_div ws mms)) = false ->
  Mixture.MolarFractions (S (S fuel)) m
  = Ok (map VNum (normalise (zip_with n_div ws mms))).
Proof.
  intros Hn Hmm Hwi Hzi Hlen Hnz HD.
  cbn [Mixture.MolarFractions]. rewrite Hzi.
  rewrite (MolarMasses_values m Hn). unfold molar_masses in Hmm.
  rewrite Hmm.
  pose proof (MassFractions_stored fuel m _ Hwi) as Hget.
  pose proof (py_div_nonzero mms Hnz) as Hop.
  apply (for_enumerate_normalise _ py_div n_div _ _ ws mms);
    try assumption.
  rewrite (for_enumerate_fold _ (fun v : value => v) py_div n_div py_add
             n_add (map VNum mms) ws mms); try assumption.
  - reflexivity.
  - reflexivity.
  - now rewrite map_id.
Qed.

Lemma MassFractions_derived (fuel : nat) (m : Mixture.t)
    (zs mms : list num) :
  named_apart m ->
  molar_masses m mms ->
  Mixture.zi m = Some (map VNum zs) ->
  Mixture.wi m = None ->
  length zs = length mms ->
  n_is_zero (n_sum (zip_with n_mul zs mms)) = false ->
  Mixture.MassFractions (S (S fuel)) m
  = Ok (map VNum (normalise (zip_with n_mul zs mms))).
Proof.
  intros Hn Hmm Hzi Hwi Hlen HD.
  cbn [Mixture.MassFractions]. rewrite Hwi.
  rewrite (MolarMasses_values m Hn). unfold molar_masses in Hmm.
  rewrite Hmm.
  pose proof (MolarFractions_stored fuel m _ Hzi) as Hget.
  apply (for_enumerate_normalise _ py_mul n_mul _ _ zs mms);
    try assumption.
  - rewrite (for_enumerate_fold _ (fun v : value => v) py_mul n_mul py_add
               n_add (map VNum mms) zs mms); try assumption.
    + reflexivity.
    + reflexivity.
    + now rewrite map_id.
    + reflexivity.
  - reflexivity.
Qed.

End Generic.

(** ** Composition: the two conversions *)

(** C4. With the mass fractions stored and [zi] unset, [MolarFractions] is
    the list of [w_i / MM_i] over their sum; with the mole fractions stored
    and [wi] unset, [MassFractions] is the list of [z_i * MM_i] over their
    sum.  This holds in every number system. *)
Theorem fraction_conversions {Nb : Number} (fuel : nat) (m : Mixture.t)
    (xs mms : list num) :
  named_apart m ->
  molar_masses m mms ->
  length xs = length mms ->
  (Mixture.wi m = Some (map VNum xs) ->
   Mixture.zi m = None ->
   nonzero mms ->
   n_is_zero (n_sum (zip_with n_div xs mms)) = false ->
   Mixture.MolarFractions (S (S fuel)) m
   = Ok (map VNum (normalise (zip_with n_div xs mms))))
  /\ (Mixture.zi m = Some (map VNum xs) ->
      Mixture.wi m = None ->
      n_is_zero (n_sum (zip_with n_mul xs mms)) = false ->
      Mixture.MassFractions (S (S fuel)) m
      = Ok (map VNum (normalise (zip_with n_mul xs mms)))).
Proof.
  intros Hn Hmm Hlen. split.
  - intros. now apply MolarFractions_derived.
  - intros. now apply MassFractions_derived.
Qed.

Lemma named_apart_water_ethanol {Nb : Number} (w z : option (list value))
    (v m n : value) :
  named_apart (mixture_of [water; ethanol] w z v m n).
Proof.
  split; [reflexivity|]. cbn.
  repeat constructor; cbn; intuition discriminate.
Qed.

Lemma named_apart_water {Nb : Number} (w z : option (list value))
    (v m n : value) :
  named_apart (mixture_of [water] w z v m n).
Proof.
  split; [reflexivity|]. cbn. repeat constructor. intros [].
Qed.

Lemma fraction_conversions_witness :
  Mixture.MolarFractions (Nb := binary64) 2 half_half_by_mass
  = Ok (map VNum (normalise (zip_with n_div (map n_lit [0.5; 0.5]%Q)
                               (map n_lit [0.018; 0.046]%Q))))
  /\ Mixture.MassFractions (Nb := exact) 2 three_to_one_by_moles
     = Ok (map VNum (normalise (zip_with n_mul (map n_lit [0.75; 0.25]%Q)
                                  (map n_lit [0.018; 0.046]%Q)))).
Proof.
  split.
  - apply (fraction_conversions (Nb := binary64) 0 half_half_by_mass
             (map n_lit [0.5; 0.5]%Q) (map n_lit [0.018; 0.046]%Q)).
    + apply named_apart_water_ethanol.
    + reflexivity.
    + reflexivity.
    + reflexivity.
    + reflexivity.
    + repeat constructor.
    + vm_compute. reflexivity.
  - apply (fraction_conversions (Nb := exact) 0 three_to_one_by_moles
             (map n_lit [0.75; 0.25]%Q) (map n_lit [0.018; 0.046]%Q)).
    + apply named_apart_water_ethanol.
    + reflexivity.
    + reflexivity.
    + reflexivity.
    + reflexivity.
    + vm_compute. reflexivity.
Defined.

(** ** Bulk properties: the mixing rules *)

Lemma Density_rule {Nb : Number} (fuel : nat) (m : Mixture.t) (T : value)
    (ws rhos : list num) :
  Mixture.MassFractions fuel m = Ok (map VNum ws) ->
  length ws = length rhos ->
  map (fun c => Substance.Density c T) (Mixture.Components m) = map VNum rhos ->
  nonzero rhos ->
  n_is_zero (n_sum (zip_with n_div ws rhos)) = false ->
  Mixture.Density fuel m T
  = Ok (VNum (n_div (n_lit 1) (n_sum (zip_with n_div ws rhos)))).
Proof.
  intros Hget Hlen Hrho Hnz HD. unfold Mixture.Density.
  rewrite (for_enumerate_fold _ (fun c => Substance.Density c T) py_div n_div
             py_add n_add (Mixture.Components m) ws rhos); try assumption.
  - cbn [bind]. now apply py_div_num.
  - reflexivity.
  - now apply py_div_nonzero.
Qed.

Lemma Viscosity_rule {Nb : Number} (pow : num -> num -> result num)
    (fuel : nat) (m : Mixture.t) (T : value) (ws mus ps : list num) :
  Mixture.MassFractions fuel m = Ok (map VNum ws) ->
  length ws = length mus ->
  map (fun c => Substance.Viscosity c T) (Mixture.Components m) = map VNum mus ->
  powers pow ws mus ps ->
  Mixture.Viscosity pow fuel m T = Ok (VNum (n_prod ps)).
Proof.
  intros Hget Hlen Hmu Hps. unfold Mixture.Viscosity.
  apply (for_enumerate_pairs _ (fun c => Substance.Viscosity c T)
           (fun w mu => py_pow pow mu w) py_mul n_mul (fun a b => eq_refl)
           (Mixture.Components m) ws mus ps); try assumption.
  - lia.
  - now apply powers_py_pow.
Qed.

Lemma SpecificHeat_rule {Nb : Number} (fuel : nat) (m : Mixture.t) (T : value)
    (ws cps : list num) :
  Mixture.MassFractions fuel m = Ok (map VNum ws) ->
  length ws = length cps ->
  map (fun c => Substance.SpecificHeat c T) (Mixture.Components m)
  = map VNum cps ->
  Mixture.SpecificHeat fuel m T = Ok (VNum (n_sum (zip_with n_mul ws cps))).
Proof.
  intros Hget Hlen Hcp. unfold Mixture.SpecificHeat.
  rewrite (for_enumerate_fold _ (fun c => Substance.SpecificHeat c T) py_mul
             n_mul py_add n_add (Mixture.Components m) ws cps);
    try assumption; reflexivity.
Qed.

(** ** The composition left unset *)

Lemma for_enumerate_first_raises {A St : Type} (x : A) (l : list A) (s : St)
    (body : St -> nat -> A -> result St) (e : exn) :
  body s 0%nat x = Raise e -> for_enumerate (x :: l) s body = Raise e.
Proof. intro H. unfold for_enumerate. cbn. now rewrite H. Qed.

(** With [wi] and [zi] both unset and a component to convert, each accessor
    calls the other: whatever the recursion limit, it is exhausted. *)
Lemma fractions_unset_recursion {Nb : Number} (m : Mixture.t) :
  Mixture.wi m = None ->
  Mixture.zi m = None ->
  OrderedDict.values (Mixture.MolarMasses m) <> [] ->
  forall fuel,
    Mixture.MassFractions fuel m = Raise RecursionError
    /\ Mixture.MolarFractions fuel m = Raise RecursionError.
Proof.
  intros Hwi Hzi Hne. induction fuel as [|fuel [IHw IHz]].
  - split; reflexivity.
  - destruct (OrderedDict.values (Mixture.MolarMasses m)) as [|MM MMs] eqn:E;
      [congruence|].
    split.
    + cbn [Mixture.MassFractions]. rewrite Hwi, E.
      apply for_enumerate_first_raises. now rewrite IHz.
    + cbn [Mixture.MolarFractions]. rewrite Hzi, E.
      apply for_enumerate_first_raises. now rewrite IHw.
Qed.

(** With no component the loops do not run and the list is empty. *)
Lemma fractions_unset_no_component {Nb : Number} (fuel : nat) :
  Mixture.MassFractions (S fuel) (Mixture.init []) = Ok []
  /\ Mixture.MolarFractions (S fuel) (Mixture.init []) = Ok [].
Proof. split; reflexivity. Qed.

(** ** MolarMass *)

(** [MolarMass] multiplies a mole fraction by a component name: with a
    component in the mixture it raises, whatever is stored. *)
Lemma MolarMass_raises {Nb : Number} (fuel : nat) (m : Mixture.t) :
  OrderedDict.keys (Mixture.MolarMasses m) <> [] ->
  exists e, Mixture.MolarMass fuel m = Raise e.
Proof.
  intro Hne. unfold Mixture.MolarMass.
  destruct (OrderedDict.keys (Mixture.MolarMasses m)) as [|k ks];
    [congruence|].
  unfold for_enumerate. cbn [for_enumerate_from].
  destruct (Mixture.MolarFractions fuel m) as [zs|e]; cbn [bind];
    [|now exists e].
  destruct (py_index zs 0) as [z|e]; cbn [bind]; [|now exists e].
  rewrite py_mul_str_r. cbn [bind]. now exists TypeError.
Qed.

Lemma MolarMass_TypeError {Nb : Number} (fuel : nat) (m : Mixture.t)
    (z : value) (zs : list value) :
  OrderedDict.keys (Mixture.MolarMasses m) <> [] ->
  Mixture.MolarFractions fuel m = Ok (z :: zs) ->
  Mixture.MolarMass fuel m = Raise TypeError.
Proof.
  intros Hne Hz. unfold Mixture.MolarMass.
  destruct (OrderedDict.keys (Mixture.MolarMasses m)) as [|k ks];
    [congruence|].
  apply for_enumerate_first_raises. rewrite Hz. cbn [bind py_index nth_error].
  now rewrite py_mul_str_r.
Qed.

Lemma MolarMasses_keys_nonempty {Nb : Number} (m : Mixture.t) :
  length (Mixture.ComponentNames m) = length (Mixture.Components m) ->
  Mixture.Components m <> [] ->
  OrderedDict.keys (Mixture.MolarMasses m) <> [].
Proof.
  intros Hlen Hne. unfold Mixture.MolarMasses, OrderedDict.keys.
  intro E. apply map_eq_nil in E. revert E.
  apply OrderedDict_of_pairs_nonempty.
  destruct (Mixture.Components m) as [|c cs]; [congruence|].
  destruct (Mixture.ComponentNames m) as [|k ks]; [discriminate|].
  discriminate.
Qed.

(** ** Stream construction *)

(** No mixture makes a stream: without components the density divides by
    zero, with components [MolarMass] raises. *)
Lemma Stream_init_raises {Nb : Number} (pow : num -> num -> result num)
    (fuel : nat) (m : Mixture.t) :
  n_is_zero (n_lit 0) = true ->
  length (Mixture.ComponentNames m) = length (Mixture.Components m) ->
  exists e, Stream.init pow fuel m = Raise e.
Proof.
  intros Hzero Hlen. unfold Stream.init.
  destruct (Mixture.Components m) as [|c cs] eqn:Hc.
  - unfold Mixture.Density. rewrite Hc. cbn [for_enumerate for_enumerate_from bind].
    rewrite py_div_by_zero by exact Hzero. now exists ZeroDivisionError.
  - destruct (Mixture.Density fuel m _) as [d|e]; cbn [bind]; [|now exists e].
    destruct (Mixture.Viscosity pow fuel m _) as [v|e]; cbn [bind];
      [|now exists e].
    destruct (Mixture.SpecificHeat fuel m _) as [h|e]; cbn [bind];
      [|now exists e].
    destruct (MolarMass_raises fuel m) as [e He].
    + apply MolarMasses_keys_nonempty; rewrite Hc; [exact Hlen|discriminate].
    + rewrite He. now exists e.
Qed.

(** ** Quantities of a mixture *)

(** What is stored is returned, and moles and volume are converted by the
    ideal-gas law with [R = 8.314]. *)
Lemma quantity_stored_and_ideal_gas {Nb : Number} (fuel : nat) (m : Mixture.t) :
  (Mixture.M m <> VNone -> Mixture.Mass fuel m = Ok (Mixture.M m))
  /\ (Mixture.V m <> VNone -> Mixture.Volume m = Ok (Mixture.V m))
  /\ (Mixture.N m <> VNone -> Mixture.Moles fuel m = Ok (Mixture.N m))
  /\ (forall n T P : num,
        Mixture.V m = VNone ->
        Mixture.N m = VNum n ->
        Mixture.Temperature m = VNum T ->
        Mixture.Pressure m = VNum P ->
        n_is_zero P = false ->
        Mixture.Volume m
        = Ok (VNum (n_div (n_mul (n_mul n (n_lit 8.314)) T) P)))
  /\ (forall v T P : num,
        Mixture.N m = VNone ->
        Mixture.V m = VNum v ->
        Mixture.Temperature m = VNum T ->
        Mixture.Pressure m = VNum P ->
        n_is_zero (n_mul (n_lit 8.314) T) = false ->
        Mixture.Moles fuel m
        = Ok (VNum (n_div (n_mul P v) (n_mul (n_lit 8.314) T)))).
Proof.
  repeat split.
  - unfold Mixture.Mass. now destruct (Mixture.M m).
  - unfold Mixture.Volume. now destruct (Mixture.V m).
  - unfold Mixture.Moles. now destruct (Mixture.N m).
  - intros n T P HV HN HT HP Hz. unfold Mixture.Volume.
    rewrite HV, HN, HT, HP. cbn [py_mul bind]. now apply py_div_num.
  - intros v T P HN HV HT HP Hz. unfold Mixture.Moles.
    rewrite HN, HV, HT, HP. cbn [py_mul bind]. now apply py_div_num.
Qed.

(** Mass from volume and volume from mass multiply and divide by the bound
    method [self.Density]. *)
Lemma quantity_by_density_raises {Nb : Number} (fuel : nat) (m : Mixture.t) :
  Mixture.N m = VNone ->
  (Mixture.M m = VNone -> Mixture.Mass fuel m = Raise TypeError)
  /\ (Mixture.V m = VNone -> Mixture.Volume m = Raise TypeError).
Proof.
  intro HN. split; intro H.
  - unfold Mixture.Mass. rewrite H, HN. apply py_mul_bound_r.
  - unfold Mixture.Volume. rewrite H, HN. apply py_div_bound_r.
Qed.

(** ** Flows of a stream *)

Lemma VolumeFlow_unset {Nb : Number} (fuel : nat) (s : Stream.t) :
  Stream.Vf s = VNone ->
  Stream.Vfo s = VNone ->
  Stream.VolumeFlow (S fuel) s = py_div (Stream.Mf s) (Stream.Density s).
Proof. intros Hvf Hvfo. cbn [Stream.VolumeFlow]. now rewrite Hvf, Hvfo. Qed.

Lemma MassFlow_stored {Nb : Number} (fuel : nat) (s : Stream.t) :
  Stream.Mf s <> VNone -> Stream.MassFlow fuel s = Ok (Stream.Mf s).
Proof. intro H. unfold Stream.MassFlow. now destruct (Stream.Mf s). Qed.

Lemma MassFlow_from_Nf {Nb : Number} (fuel : nat) (s : Stream.t) :
  Stream.Mf s = VNone ->
  Stream.Nf s <> VNone ->
  Stream.MassFlow fuel s = py_mul (Stream.Nf s) (Stream.MolarMass s).
Proof.
  intros Hmf Hnf. unfold Stream.MassFlow. rewrite Hmf.
  now destruct (Stream.Nf s).
Qed.

Lemma MolarFlow_stored {Nb : Number} (fuel : nat) (s : Stream.t) :
  Stream.Nf s <> VNone -> Stream.MolarFlow fuel s = Ok (Stream.Nf s).
Proof. intro H. unfold Stream.MolarFlow. now destruct (Stream.Nf s). Qed.

Lemma MolarFlow_from_MassFlow {Nb : Number} (fuel : nat) (s : Stream.t) :
  Stream.Nf s = VNone ->
  Stream.MolarFlow fuel s
  = (mf <- Stream.MassFlow fuel s ;; py_div mf (Stream.MolarMass s)).
Proof. intro H. unfold Stream.MolarFlow. now rewrite H. Qed.

(** [[x * flow for x in fractions]] multiplies entry by entry. *)
Lemma comprehension_scale {Nb : Number} (get : result value) (F : num)
    (xs : list num) :
  get = Ok (VNum F) ->
  comprehension (fun x => v <- get ;; py_mul x v) (map VNum xs)
  = Ok (map (fun x => VNum (n_mul x F)) xs).
Proof.
  intro H. rewrite H. induction xs as [|x xs IH]; [reflexivity|].
  cbn [map comprehension bind py_mul]. cbn [bind] in IH. rewrite IH.
  reflexivity.
Qed.

(** ** Reading with nothing stored *)

(** C1, as the code has it.  With [M], [V] and [N] all unset, [Mass] and
    [Volume] raise [TypeError], the interpreter's exception for [None]
    combined with the bound method [Density]; [Moles] is [None / MolarMass]:
    it raises what reading [MolarMass] raises, and [TypeError] when
    [MolarMass] returns.  With [Mf], [Nf], [Vf] and [Vfo] all unset,
    [MassFlow], [VolumeFlow] and [MolarFlow] raise [TypeError]. *)
Theorem unset_quantity_and_flow {Nb : Number} (fuel : nat) :
  (forall m : Mixture.t,
      Mixture.M m = VNone -> Mixture.V m = VNone -> Mixture.N m = VNone ->
      Mixture.Mass fuel m = Raise TypeError
      /\ Mixture.Volume m = Raise TypeError
      /\ (forall e,
             Mixture.MolarMass fuel m = Raise e ->
             Mixture.Moles fuel m = Raise e)
      /\ (forall mm,
             Mixture.MolarMass fuel m = Ok mm ->
             Mixture.Moles fuel m = Raise TypeError))
  /\ (forall s : Stream.t,
        Stream.Mf s = VNone -> Stream.Nf s = VNone ->
        Stream.Vf s = VNone -> Stream.Vfo s = VNone ->
        Stream.MassFlow (S fuel) s = Raise TypeError
        /\ Stream.VolumeFlow (S fuel) s = Raise TypeError
        /\ Stream.MolarFlow (S fuel) s = Raise TypeError).
Proof.
  split.
  - intros m HM HV HN.
    destruct (quantity_by_density_raises fuel m HN) as [Hmass Hvol].
    split; [auto|split; [auto|]].
    unfold Mixture.Moles. rewrite HN, HV, HM.
    split; [intros e He|intros mm He]; rewrite He; reflexivity.
  - intros s Hmf Hnf Hvf Hvfo.
    assert (Hv : Stream.VolumeFlow (S fuel) s = Raise TypeError).
    { rewrite VolumeFlow_unset by assumption. now rewrite Hmf. }
    assert (Hm : Stream.MassFlow (S fuel) s = Raise TypeError).
    { unfold Stream.MassFlow. rewrite Hmf, Hnf, Hv. reflexivity. }
    repeat split; try assumption.
    rewrite MolarFlow_from_MassFlow by assumption. now rewrite Hm.
Qed.

(** ** The volume flow reads the stored mass flow *)

(** C10. With [Vf] and [Vfo] unset, [VolumeFlow] is [Mf / Density] on the
    stored field: a stream that stores only [Nf] has a mass flow and no
    volume flow. *)
Theorem VolumeFlow_reads_Mf {Nb : Number} (fuel : nat) (s : Stream.t) :
  Stream.Vf s = VNone ->
  Stream.Vfo s = VNone ->
  Stream.VolumeFlow (S fuel) s = py_div (Stream.Mf s) (Stream.Density s)
  /\ (forall n mm : num,
        Stream.Mf s = VNone ->
        Stream.Nf s = VNum n ->
        Stream.MolarMass s = VNum mm ->
        Stream.VolumeFlow (S fuel) s = Raise TypeError
        /\ Stream.MassFlow (S fuel) s = Ok (VNum (n_mul n mm))).
Proof.
  intros Hvf Hvfo. split; [now apply VolumeFlow_unset|].
  intros n mm Hmf Hnf Hmm. split.
  - rewrite VolumeFlow_unset by assumption. now rewrite Hmf.
  - unfold Stream.MassFlow. now rewrite Hmf, Hnf, Hmm.
Qed.

(** * The program on binary64 floats *)

Section Binary64.

Existing Instance binary64.

Lemma unset_quantity_and_flow_witness :
  (Mixture.Mass 1000 pure_water_by_moles = Raise TypeError
   /\ Mixture.Volume pure_water_by_moles = Raise TypeError
   /\ Mixture.Moles 1000 pure_water_by_moles = Raise TypeError
   /\ Mixture.Moles 1000 (Mixture.init []) = Raise TypeError)
  /\ (Stream.MassFlow 1000 no_flow = Raise TypeError
      /\ Stream.VolumeFlow 1000 no_flow = Raise TypeError
      /\ Stream.MolarFlow 1000 no_flow = Raise TypeError).
Proof.
  split.
  - destruct (proj1 (unset_quantity_and_flow 1000) pure_water_by_moles
                eq_refl eq_refl eq_refl) as [H1 [H2 [H3 _]]].
    destruct (proj1 (unset_quantity_and_flow 1000) (Mixture.init [])
                eq_refl eq_refl eq_refl) as [_ [_ [_ H4]]].
    split; [exact H1|split; [exact H2|split]].
    + apply H3. reflexivity.
    + apply (H4 (VNum (n_lit 0))). reflexivity.
  - apply (proj2 (unset_quantity_and_flow 999));
      reflexivity.
Defined.

(** C1, as stated, fails on a mixture of water with neither fraction list
    stored: whatever the recursion limit, [MassFractions] and
    [MolarFractions] use it up. *)
Lemma unset_composition_exhausts_stack :
  (forall fuel,
      Mixture.MassFractions fuel (Mixture.init [water])
      = Raise RecursionError)
  /\ (forall fuel,
        Mixture.MolarFractions fuel (Mixture.init [water])
        = Raise RecursionError).
Proof.
  assert (H : forall fuel,
             Mixture.MassFractions fuel (Mixture.init [water])
             = Raise RecursionError
             /\ Mixture.MolarFractions fuel
                  (Mixture.init [water])
                = Raise RecursionError).
  { apply fractions_unset_recursion; [reflexivity|reflexivity|].
    cbn. discriminate. }
  split; intro fuel; apply H.
Qed.

(** ** The defects *)

(** C2 at a failing input: the molar mass of water alone, given by moles,
    is not 0.018 but a [TypeError]. *)
Theorem MolarMass_of_water (fuel : nat) :
  Mixture.MolarMass (S fuel) pure_water_by_moles
  = Raise TypeError.
Proof.
  apply (MolarMass_TypeError (S fuel) pure_water_by_moles
           (VNum (n_lit 1)) []).
  - cbn. discriminate.
  - reflexivity.
Qed.

(** C3 at a failing input: the mass of two litres of water and the volume
    of two kilograms of water are a [TypeError]. *)
Theorem quantity_of_water_by_density (fuel : nat) :
  Mixture.Mass fuel two_litres_of_water = Raise TypeError
  /\ Mixture.Volume two_kilograms_of_water = Raise TypeError.
Proof. split; reflexivity. Qed.

(** C9 at a failing input: the constructor raises on water alone, whatever
    the recursion limit (with a limit under two the exception is
    [RecursionError]).  The one power it evaluates is [0.001 ** 1.0]: when
    that returns, as it does in the interpreter, the exception is the
    [TypeError] of [MolarMass]. *)
Theorem Stream_of_water (pow : num -> num -> result num) (fuel : nat) :
  Stream.init pow (S (S fuel)) pure_water
  = (p <- pow (n_lit 0.001) (n_lit 1) ;; Raise TypeError).
Proof.
  unfold Stream.init, Mixture.Viscosity.
  cbn [Mixture.Density Mixture.Components pure_water mixture_of
       for_enumerate for_enumerate_from].
  change (Mixture.Density (S (S fuel)) pure_water
            (Mixture.Temperature pure_water))
    with (@Ok (@value binary64) (VNum (n_lit 1000))).
  cbn [bind Mixture.MassFractions Mixture.wi pure_water mixture_of numbers
       map py_index nth_error Substance.Viscosity Substance.Viscosity0
       water substance py_pow].
  destruct (pow (n_lit 0.001) (n_lit 1)) as [p|e]; reflexivity.
Qed.

Lemma VolumeFlow_reads_Mf_witness :
  Stream.VolumeFlow 1000 molar_flow_only = Raise TypeError
  /\ Stream.MassFlow 1000 molar_flow_only = Ok (VNum (n_lit 10)).
Proof.
  exact (proj2 (VolumeFlow_reads_Mf 999 molar_flow_only eq_refl eq_refl)
           (n_lit 500) (n_lit 0.02) eq_refl eq_refl eq_refl).
Defined.

End Binary64.

(** * The program on exact rationals *)

Section Exact.

Existing Instance exact.

(** ** Sums and products *)

Lemma fold_left_Qcplus (l : list Qc) (acc : Qc) :
  fold_left Qcplus l acc = acc + Qcsum l.
Proof.
  revert acc. induction l as [|x l IH]; intro acc; simpl.
  - ring.
  - rewrite IH. ring.
Qed.

Lemma fold_left_Qcmult (l : list Qc) (acc : Qc) :
  fold_left Qcmult l acc = acc * Qcprod l.
Proof.
  revert acc. induction l as [|x l IH]; intro acc; simpl.
  - ring.
  - rewrite IH. ring.
Qed.

Lemma n_sum_Qcsum (l : list Qc) : n_sum l = Qcsum l.
Proof.
  change (fold_left Qcplus l 0 = Qcsum l). rewrite fold_left_Qcplus. ring.
Qed.

Lemma n_prod_Qcprod (l : list Qc) : n_prod l = Qcprod l.
Proof.
  change (fold_left Qcmult l 1 = Qcprod l). rewrite fold_left_Qcmult. ring.
Qed.

Lemma is_zero_false (x : Qc) : x <> 0 -> n_is_zero x = false.
Proof.
  intro H. change (Qc_eq_bool x 0 = false).
  destruct (Qc_eq_bool x 0) eqn:E; [|reflexivity].
  apply Qc_eq_bool_correct in E. contradiction.
Qed.

Lemma nonzero_exact (xs : list Qc) :
  Forall (fun x => x <> 0) xs -> nonzero xs.
Proof. apply Forall_impl. exact is_zero_false. Qed.

(** ** Arithmetic of the two conversions *)

Lemma Qcdiv_nonneg (w mm : Qc) : 0 <= w -> 0 < mm -> 0 <= w / mm.
Proof.
  intros Hw Hmm. apply (Qcmult_lt_0_le_reg_r _ _ mm Hmm).
  assert (Hnz : mm <> 0).
  { intro E. rewrite E in Hmm. exact (Qclt_not_le _ _ Hmm (Qcle_refl 0)). }
  replace (0 * mm) with 0 by ring.
  replace (w / mm * mm) with w by (field; exact Hnz).
  exact Hw.
Qed.

Lemma Qcplus_nonneg_zero (a b : Qc) :
  0 <= a -> 0 <= b -> a + b = 0 -> a = 0 /\ b = 0.
Proof.
  intros Ha Hb E.
  assert (Ha0 : a <= 0).
  { rewrite <- E. replace a with (a + 0) at 1 by ring.
    apply Qcplus_le_compat; [apply Qcle_refl|exact Hb]. }
  assert (Ea : a = 0) by (apply Qcle_antisym; assumption).
  split; [exact Ea|]. rewrite Ea in E. rewrite <- E. ring.
Qed.

Lemma Qclt_nonzero (x : Qc) : 0 < x -> x <> 0.
Proof.
  intros H E. rewrite E in H. exact (Qclt_not_le _ _ H (Qcle_refl 0)).
Qed.

Lemma positive_nonzero (mms : list Qc) :
  Forall (fun mm => 0 < mm) mms -> Forall (fun mm => mm <> 0) mms.
Proof. apply Forall_impl. exact Qclt_nonzero. Qed.

(** With fractions that are not negative and molar masses that are
    positive, the mole equivalents [w / MM] add up to zero only when the
    fractions do. *)
Lemma mole_equivalents_nonneg (ws mms : list Qc) :
  length ws = length mms ->
  Forall (fun w => 0 <= w) ws ->
  Forall (fun mm => 0 < mm) mms ->
  0 <= Qcsum (zip_with Qcdiv ws mms)
  /\ (Qcsum (zip_with Qcdiv ws mms) = 0 -> Qcsum ws = 0).
Proof.
  revert mms. induction ws as [|w ws IH]; intros [|mm mms] Hlen Hw Hmm;
    try discriminate.
  - split; [apply Qcle_refl|reflexivity].
  - injection Hlen as Hlen. inversion Hw as [|? ? Hw0 Hws]; subst.
    inversion Hmm as [|? ? Hmm0 Hmms]; subst.
    destruct (IH mms Hlen Hws Hmms) as [Hge Hz].
    pose proof (Qcdiv_nonneg w mm Hw0 Hmm0) as Hq.
    unfold zip_with in *. cbn [combine map Qcsum fold_right fst snd] in *.
    fold (Qcsum (map (fun p => fst p / snd p) (combine ws mms))) in *.
    fold (Qcsum ws) in *.
    split.
    + replace 0 with (0 + 0) by ring. now apply Qcplus_le_compat.
    + intro E. destruct (Qcplus_nonneg_zero _ _ Hq Hge E) as [E1 E2].
      rewrite (Hz E2).
      replace w with (w / mm * mm) by (field; now apply Qclt_nonzero).
      rewrite E1. ring.
Qed.

Lemma mole_equivalents_nonzero (ws mms : list Qc) :
  length ws = length mms ->
  Qcsum ws = 1 ->
  Forall (fun w => 0 <= w) ws ->
  Forall (fun mm => 0 < mm) mms ->
  Qcsum (zip_with Qcdiv ws mms) <> 0.
Proof.
  intros Hlen Hsum Hw Hmm E.
  destruct (mole_equivalents_nonneg ws mms Hlen Hw Hmm) as [_ Hz].
  rewrite (Hz E) in Hsum. revert Hsum. qc_neq.
Qed.

(** Mole fractions times molar masses are the mass fractions over [D]. *)
Lemma back_products (D : Qc) (ws mms : list Qc) :
  D <> 0 ->
  length ws = length mms ->
  Forall (fun mm => mm <> 0) mms ->
  zip_with Qcmult (map (fun t => t / D) (zip_with Qcdiv ws mms)) mms
  = map (fun w => w / D) ws.
Proof.
  intro HD. revert mms.
  induction ws as [|w ws IH]; intros [|mm mms] Hlen Hmm;
    try discriminate; [reflexivity|].
  injection Hlen as Hlen. inversion Hmm as [|? ? Hmm0 Hmms]; subst.
  specialize (IH mms Hlen Hmms). unfold zip_with in *.
  cbn [combine map fst snd]. rewrite IH. f_equal.
  field. now split.
Qed.

Lemma Qcsum_scaled (D : Qc) (ws : list Qc) :
  Qcsum (map (fun w => w / D) ws) = Qcsum ws / D.
Proof.
  induction ws as [|w ws IH]; cbn [map Qcsum fold_right].
  - unfold Qcdiv. ring.
  - fold (Qcsum (map (fun w => w / D) ws)). fold (Qcsum ws). rewrite IH.
    unfold Qcdiv. ring.
Qed.

Lemma Qcsum_times (F : Qc) (ws : list Qc) :
  Qcsum (map (fun w => w * F) ws) = Qcsum ws * F.
Proof.
  induction ws as [|w ws IH]; cbn [map Qcsum fold_right].
  - ring.
  - fold (Qcsum (map (fun w => w * F) ws)). fold (Qcsum ws). rewrite IH. ring.
Qed.

Lemma normalise_scaled (D : Qc) (ws : list Qc) :
  D <> 0 -> Qcsum ws = 1 -> normalise (map (fun w => w / D) ws) = ws.
Proof.
  intros HD Hsum. unfold normalise. rewrite n_sum_Qcsum, Qcsum_scaled, Hsum.
  rewrite map_map. rewrite <- (map_id ws) at 2. apply map_ext. intro w.
  cbn [n_div exact]. field. split; [exact HD|qc_neq].
Qed.

(** ** Composition: the round trip *)

(** C5, as the code has it.  Mass fractions that are not negative and add
    up to one, on positive molar masses, converted to mole fractions and
    back, are the mass fractions again, in exact arithmetic. *)
Theorem fractions_round_trip (fuel : nat) (m : Mixture.t) (ws mms : list Qc) :
  named_apart m ->
  molar_masses m mms ->
  Mixture.wi m = Some (map VNum ws) ->
  Mixture.zi m = None ->
  length ws = length mms ->
  n_sum ws = 1 ->
  Forall (fun w => 0 <= w) ws ->
  Forall (fun mm => 0 < mm) mms ->
  exists zs,
    Mixture.MolarFractions (S (S fuel)) m = Ok zs
    /\ Mixture.MassFractions (S (S fuel))
         (Mixture.set_zi (Mixture.set_wi m None) (Some zs))
       = Ok (map VNum ws).
Proof.
  intros Hn Hmm Hwi Hzi Hlen Hsum Hw Hpos. rewrite n_sum_Qcsum in Hsum.
  pose proof (positive_nonzero mms Hpos) as Hnz.
  pose proof (mole_equivalents_nonzero ws mms Hlen Hsum Hw Hpos) as HD.
  set (D := Qcsum (zip_with Qcdiv ws mms)) in *.
  assert (HDn : n_sum (zip_with n_div ws mms) = D) by apply n_sum_Qcsum.
  exists (map VNum (normalise (zip_with (@n_div exact) ws mms))). split.
  - apply MolarFractions_derived; try assumption.
    + now apply nonzero_exact.
    + rewrite HDn. now apply is_zero_false.
  - assert (Hback : zip_with (@n_mul exact)
                      (normalise (zip_with (@n_div exact) ws mms)) mms
                    = map (fun w => w / D) ws).
    { unfold normalise. rewrite HDn. now apply back_products. }
    rewrite (MassFractions_derived fuel _
               (normalise (zip_with (@n_div exact) ws mms)) mms).
    + rewrite Hback. now rewrite normalise_scaled.
    + exact Hn.
    + exact Hmm.
    + reflexivity.
    + reflexivity.
    + unfold normalise. rewrite length_map. now apply zip_with_length.
    + rewrite Hback, n_sum_Qcsum, Qcsum_scaled, Hsum.
      apply is_zero_false. intro E.
      apply HD. rewrite <- (Qcmult_1_l D).
      replace 1 with (1 / D * D) at 1 by (field; exact HD).
      rewrite E. ring.
Qed.

Lemma fractions_round_trip_witness :
  exists zs,
    Mixture.MolarFractions 2 half_half_by_mass = Ok zs
    /\ Mixture.MassFractions 2
         (Mixture.set_zi (Mixture.set_wi half_half_by_mass None) (Some zs))
       = Ok (numbers [0.5; 0.5]%Q).
Proof.
  apply (fractions_round_trip 0 half_half_by_mass
           (map Q2Qc [0.5; 0.5]%Q) (map Q2Qc [0.018; 0.046]%Q)).
  - apply named_apart_water_ethanol.
  - reflexivity.
  - reflexivity.
  - reflexivity.
  - reflexivity.
  - qc_eq.
  - repeat constructor; discriminate.
  - repeat constructor.
Defined.

End Exact.

(** C5, as stated, fails twice.  In binary64 the round trip of the mass
    fractions [0.5, 0.5] on molar masses [2 ** -1000] and [2 ** 1000]
    returns [1, 0]: the second mole fraction underflows to zero.  And mass
    fractions that add up to one need not convert at all: for [2, -1] on
    the molar masses 2 and 1 the mole equivalents add up to zero and the
    conversion divides by it. *)
Lemma round_trip_fails_as_stated :
  (@n_sum binary64 (map n_lit [0.5; 0.5]%Q) = n_lit 1
   /\ exists zs,
       @Mixture.MolarFractions binary64 2 light_and_heavy = Ok zs
       /\ @Mixture.MassFractions binary64 2
            (Mixture.set_zi (Mixture.set_wi light_and_heavy None) (Some zs))
          = Ok [@VNum binary64 1%float; @VNum binary64 0%float])
  /\ (@n_sum exact (map n_lit [2; -1]%Q) = n_lit 1
      /\ @Mixture.MolarFractions exact 2 two_minus_one
         = Raise ZeroDivisionError).
Proof.
  split; split.
  - reflexivity.
  - exists [@VNum binary64 1%float; @VNum binary64 0%float].
    split; reflexivity.
  - qc_eq.
  - reflexivity.
Qed.

(** * The claims that join the two readings *)

(** ** Binary64: one times a float, zero plus a float

    The product of 1.0 and a float is that float, and so is the sum of 0.0
    and a float other than -0.0. *)

Lemma digits_shift52 (m : positive) :
  Zpos (SpecFloat.digits2_pos (4503599627370496 * m))
  = (Zpos (SpecFloat.digits2_pos m) + 52)%Z.
Proof.
  cbn [Pos.mul SpecFloat.digits2_pos]. lia.
Qed.

Lemma shr_shift52 (m : positive) :
  SpecFloat.iter_pos SpecFloat.shr_1 52
    (SpecFloat.shr_record_of_loc (Zpos (4503599627370496 * m))
       SpecFloat.loc_Exact)
  = {| SpecFloat.shr_m := Zpos m;
       SpecFloat.shr_r := false;
       SpecFloat.shr_s := false |}.
Proof. reflexivity. Qed.

Lemma round_one_times (s : bool) (m : positive) (e : Z) :
  SpecFloat.bounded FloatOps.prec FloatOps.emax m e = true ->
  SpecFloat.binary_round_aux FloatOps.prec FloatOps.emax s
    (Zpos (4503599627370496 * m)) (-52 + e) SpecFloat.loc_Exact
  = SpecFloat.S754_finite s m e.
Proof.
  intro Hb. unfold SpecFloat.bounded in Hb. apply andb_prop in Hb.
  destruct Hb as [Hc He]. unfold SpecFloat.canonical_mantissa in Hc.
  apply Z.eqb_eq in Hc.
  unfold SpecFloat.binary_round_aux, SpecFloat.shr_fexp.
  unfold SpecFloat.Zdigits2 at 1. rewrite digits_shift52.
  replace (Zpos (SpecFloat.digits2_pos m) + 52 + (-52 + e))%Z
    with (Zpos (SpecFloat.digits2_pos m) + e)%Z by lia.
  rewrite Hc. replace (e - (-52 + e))%Z with 52%Z by lia.
  unfold SpecFloat.shr at 1. cbv iota beta. rewrite !shr_shift52.
  cbn [SpecFloat.shr_m SpecFloat.loc_of_shr_record
       SpecFloat.round_nearest_even].
  replace (-52 + e + 52)%Z with e by lia.
  unfold SpecFloat.Zdigits2. rewrite Hc. rewrite Z.sub_diag.
  cbn [SpecFloat.shr SpecFloat.shr_record_of_loc SpecFloat.shr_m].
  now rewrite He.
Qed.

Lemma binary64_mul_1_l (x : float) : @n_mul binary64 (n_lit 1) x = x.
Proof.
  change (PrimFloat.mul 1%float x = x).
  apply FloatAxioms.Prim2SF_inj. rewrite FloatAxioms.mul_spec.
  pose proof (FloatAxioms.Prim2SF_valid x) as Hv.
  change (FloatOps.Prim2SF 1%float)
    with (SpecFloat.S754_finite false 4503599627370496 (-52)).
  destruct (FloatOps.Prim2SF x) as [s|s| |s m e]; try reflexivity.
  unfold FloatAxioms.SF64mul, SpecFloat.SFmul. cbn [xorb].
  now apply round_one_times.
Qed.

Lemma binary64_add_0_l (x : float) :
  FloatOps.Prim2SF x <> SpecFloat.S754_zero true ->
  @n_add binary64 (n_lit 0) x = x.
Proof.
  intro H. change (PrimFloat.add 0%float x = x).
  apply FloatAxioms.Prim2SF_inj. rewrite FloatAxioms.add_spec.
  change (FloatOps.Prim2SF 0%float) with (SpecFloat.S754_zero false).
  destruct (FloatOps.Prim2SF x) as [[|]|s| |s m e]; try reflexivity.
  now destruct H.
Qed.

(** C6, as the code has it.  With mass fractions [ws] and the components'
    densities, viscosities and specific heats at [T], in every number
    system the density is one over the sum of [w_i / rho_i], the specific
    heat the sum of [w_i * cp_i], and the viscosity the product of the
    powers [mu_i ** w_i] where each of them is a number.  For a single
    component with mass fraction one, the viscosity and the specific heat
    are the component's own values in exact arithmetic and in binary64
    (given that [mu ** 1] is [mu], and for a specific heat other than
    -0.0); the density is the component's own in exact arithmetic. *)
Theorem mixing_rules :
  (forall (Nb : Number) (pow : num -> num -> result num) (fuel : nat)
          (m : Mixture.t) (T : value) (ws rhos mus cps : list num),
      Mixture.MassFractions fuel m = Ok (map VNum ws) ->
      length ws = length (Mixture.Components m) ->
      map (fun c => Substance.Density c T) (Mixture.Components m)
      = map VNum rhos ->
      map (fun c => Substance.Viscosity c T) (Mixture.Components m)
      = map VNum mus ->
      map (fun c => Substance.SpecificHeat c T) (Mixture.Components m)
      = map VNum cps ->
      (nonzero rhos ->
       n_is_zero (n_sum (zip_with n_div ws rhos)) = false ->
       Mixture.Density fuel m T
       = Ok (VNum (n_div (n_lit 1) (n_sum (zip_with n_div ws rhos)))))
      /\ (forall ps,
             powers pow ws mus ps ->
             Mixture.Viscosity pow fuel m T = Ok (VNum (n_prod ps)))
      /\ Mixture.SpecificHeat fuel m T
         = Ok (VNum (n_sum (zip_with n_mul ws cps))))
  /\ (forall (pow : Qc -> Qc -> result Qc) (fuel : nat)
             (m : @Mixture.t exact) (T : @value exact)
             (c : @Substance.t exact) (rho mu cp : Qc),
        Mixture.Components m = [c] ->
        Mixture.MassFractions fuel m = Ok [VNum (n_lit 1)] ->
        Substance.Density c T = @VNum exact rho ->
        rho <> 0 ->
        Substance.Viscosity c T = @VNum exact mu ->
        pow mu 1 = Ok mu ->
        Substance.SpecificHeat c T = @VNum exact cp ->
        Mixture.Density fuel m T = Ok (Substance.Density c T)
        /\ @Mixture.Viscosity exact pow fuel m T = Ok (Substance.Viscosity c T)
        /\ Mixture.SpecificHeat fuel m T = Ok (Substance.SpecificHeat c T))
  /\ (forall (pow : float -> float -> result float) (fuel : nat)
             (m : @Mixture.t binary64) (T : @value binary64)
             (c : @Substance.t binary64) (mu cp : float),
        Mixture.Components m = [c] ->
        Mixture.MassFractions fuel m = Ok [VNum (@n_lit binary64 1)] ->
        Substance.Viscosity c T = @VNum binary64 mu ->
        pow mu (@n_lit binary64 1) = Ok mu ->
        Substance.SpecificHeat c T = @VNum binary64 cp ->
        FloatOps.Prim2SF cp <> SpecFloat.S754_zero true ->
        @Mixture.Viscosity binary64 pow fuel m T
        = Ok (Substance.Viscosity c T)
        /\ Mixture.SpecificHeat fuel m T = Ok (Substance.SpecificHeat c T)).
Proof.
  split; [|split].
  - intros Nb pow fuel m T ws rhos mus cps Hget Hlen Hrho Hmu Hcp.
    assert (Lrho : length ws = length rhos).
    { rewrite Hlen, <- (length_map (fun c => Substance.Density c T)), Hrho.
      apply length_map. }
    assert (Lmu : length ws = length mus).
    { rewrite Hlen, <- (length_map (fun c => Substance.Viscosity c T)), Hmu.
      apply length_map. }
    assert (Lcp : length ws = length cps).
    { rewrite Hlen, <- (length_map (fun c => Substance.SpecificHeat c T)), Hcp.
      apply length_map. }
    split; [|split].
    + intros. now apply Density_rule.
    + intros ps Hps. now apply (Viscosity_rule pow fuel m T ws mus).
    + now apply SpecificHeat_rule.
  - intros pow fuel m T c rho mu cp Hc Hget Hrho Hnz Hmu Hpow Hcp.
    assert (Hone : 1 / rho <> 0).
    { intro E. apply Hnz. replace rho with (rho * rho * (1 / rho))
        by (field; exact Hnz). rewrite E. ring. }
    rewrite Hrho, Hmu, Hcp. split; [|split].
    + rewrite (Density_rule (Nb := exact) fuel m T [Q2Qc 1] [rho] Hget eq_refl).
      * do 2 f_equal. rewrite n_sum_Qcsum. list_ops. as_Qc.
        rewrite Qcplus_0_r. field. repeat split; try assumption; qc_neq.
      * rewrite Hc. cbn [map]. now rewrite Hrho.
      * apply nonzero_exact. now repeat constructor.
      * apply is_zero_false. rewrite n_sum_Qcsum. list_ops. as_Qc.
        now rewrite Qcplus_0_r.
    + rewrite (Viscosity_rule (Nb := exact) pow fuel m T [Q2Qc 1] [mu] [mu]
                 Hget eq_refl).
      * do 2 f_equal. rewrite n_prod_Qcprod. list_ops. as_Qc. ring.
      * rewrite Hc. cbn [map]. now rewrite Hmu.
      * repeat constructor. exact Hpow.
    + rewrite (SpecificHeat_rule (Nb := exact) fuel m T [Q2Qc 1] [cp] Hget
                 eq_refl).
      * do 2 f_equal. rewrite n_sum_Qcsum. list_ops. as_Qc. ring.
      * rewrite Hc. cbn [map]. now rewrite Hcp.
  - intros pow fuel m T c mu cp Hc Hget Hmu Hpow Hcp Hnz.
    rewrite Hmu, Hcp. split.
    + rewrite (Viscosity_rule (Nb := binary64) pow fuel m T
                 [@n_lit binary64 1] [mu] [mu] Hget eq_refl).
      * do 2 f_equal. unfold n_prod. cbn [fold_left].
        apply binary64_mul_1_l.
      * rewrite Hc. cbn [map]. now rewrite Hmu.
      * repeat constructor. exact Hpow.
    + rewrite (SpecificHeat_rule (Nb := binary64) fuel m T
                 [@n_lit binary64 1] [cp] Hget eq_refl).
      * do 2 f_equal. unfold n_sum, zip_with.
        cbn [combine map fst snd fold_left].
        rewrite binary64_mul_1_l. now apply binary64_add_0_l.
      * rewrite Hc. cbn [map]. now rewrite Hcp.
Qed.

Lemma mixing_rules_witness :
  (@Mixture.Density exact 1 water_no_ethanol T_default
   = Ok (VNum (n_lit 1000))
   /\ @Mixture.Viscosity exact whole_pow 1 water_no_ethanol T_default
      = Ok (VNum (n_lit 0.001))
   /\ @Mixture.SpecificHeat exact 1 water_no_ethanol T_default
      = Ok (VNum (n_lit 4180)))
  /\ (@Mixture.Density exact 1 pure_water T_default = Ok (VNum (n_lit 1000))
      /\ @Mixture.Viscosity exact whole_pow 1 pure_water T_default
         = Ok (VNum (n_lit 0.001))
      /\ @Mixture.SpecificHeat exact 1 pure_water T_default
         = Ok (VNum (n_lit 4180)))
  /\ (@Mixture.Viscosity binary64 first_power 1 pure_water T_default
      = Ok (VNum (n_lit 0.001))
      /\ @Mixture.SpecificHeat binary64 1 pure_water T_default
         = Ok (VNum (n_lit 4180))).
Proof.
  split; [|split].
  - destruct (proj1 mixing_rules exact whole_pow 1%nat water_no_ethanol
                T_default (map Q2Qc [1; 0]%Q) (map Q2Qc [1000; 789]%Q)
                (map Q2Qc [0.001; 0.0012]%Q) (map Q2Qc [4180; 2440]%Q)
                eq_refl eq_refl eq_refl eq_refl eq_refl) as [HD [HV HC]].
    split; [|split].
    + rewrite HD; [|repeat constructor|vm_compute; reflexivity].
      do 2 f_equal; try qc_eq.
    + rewrite (HV [Q2Qc (Qpower (Q2Qc 0.001) 1);
                   Q2Qc (Qpower (Q2Qc 0.0012) 0)]).
      * do 2 f_equal; try qc_eq.
      * repeat constructor.
    + rewrite HC. do 2 f_equal; try qc_eq.
  - apply (proj1 (proj2 mixing_rules) whole_pow 1%nat pure_water T_default
             water (Q2Qc 1000) (Q2Qc 0.001) (Q2Qc 4180)); try reflexivity.
    qc_neq.
  - apply (proj2 (proj2 mixing_rules) (@first_power binary64) 1%nat
             pure_water T_default water (@n_lit binary64 0.001)
             (@n_lit binary64 4180)); try reflexivity.
    vm_compute. discriminate.
Defined.

(** C6, as stated, fails in binary64 on a single component of density 49:
    the density of the mixture is [1 / (0 + 1 / 49)], which rounding leaves
    one unit in the last place above 49. *)
Lemma single_component_density_rounds :
  @Mixture.Density binary64 1000 pure_dense_49 T_default
  <> Ok (Substance.Density dense_49 T_default).
Proof.
  intro H.
  apply (f_equal (fun r : result (@value binary64) =>
                    match r with
                    | Ok (VNum x) => PrimFloat.eqb x (@n_lit binary64 49)
                    | _ => true
                    end)) in H.
  vm_compute in H. discriminate H.
Qed.

(** ** Mass flow and molar flow *)

(** C7. A stored [Mf] is the mass flow, whatever [Nf] holds; with [Mf]
    unset and [Nf] stored the mass flow is [Nf * MolarMass]; with [Nf]
    unset the molar flow is the mass flow over [MolarMass].  A mass flow of
    10 and a molar mass of 0.02 give the molar flow 500, in exact arithmetic
    and in binary64 alike. *)
Theorem mass_and_molar_flow :
  (forall (Nb : Number) (fuel : nat) (s : Stream.t),
      (Stream.Mf s <> VNone -> Stream.MassFlow fuel s = Ok (Stream.Mf s))
      /\ (forall n mm : num,
            Stream.Mf s = VNone ->
            Stream.Nf s = VNum n ->
            Stream.MolarMass s = VNum mm ->
            Stream.MolarFlow fuel s = Ok (VNum n)
            /\ Stream.MassFlow fuel s = Ok (VNum (n_mul n mm)))
      /\ (forall F mm : num,
            Stream.Nf s = VNone ->
            Stream.MassFlow fuel s = Ok (VNum F) ->
            Stream.MolarMass s = VNum mm ->
            n_is_zero mm = false ->
            Stream.MolarFlow fuel s = Ok (VNum (n_div F mm))))
  /\ (forall (fuel : nat) (s : @Stream.t exact),
        Stream.Nf s = VNone ->
        Stream.MassFlow fuel s = Ok (VNum (n_lit 10)) ->
        Stream.MolarMass s = VNum (n_lit 0.02) ->
        Stream.MolarFlow fuel s = Ok (VNum (n_lit 500)))
  /\ (forall (fuel : nat) (s : @Stream.t binary64),
        Stream.Nf s = VNone ->
        Stream.MassFlow fuel s = Ok (VNum (n_lit 10)) ->
        Stream.MolarMass s = VNum (n_lit 0.02) ->
        Stream.MolarFlow fuel s = Ok (VNum (n_lit 500))).
Proof.
  assert (G : forall (Nb : Number) (fuel : nat) (s : Stream.t) (F mm : num),
             Stream.Nf s = VNone ->
             Stream.MassFlow fuel s = Ok (VNum F) ->
             Stream.MolarMass s = VNum mm ->
             n_is_zero mm = false ->
             Stream.MolarFlow fuel s = Ok (VNum (n_div F mm))).
  { intros Nb fuel s F mm Hnf HF Hmm Hz.
    rewrite MolarFlow_from_MassFlow by exact Hnf. rewrite HF, Hmm.
    cbn [bind]. now apply py_div_num. }
  split; [|split].
  - intros Nb fuel s. split; [apply MassFlow_stored|split].
    + intros n mm Hmf Hnf Hmm. split.
      * rewrite MolarFlow_stored; rewrite Hnf; [reflexivity|discriminate].
      * rewrite MassFlow_from_Nf; try assumption.
        -- now rewrite Hnf, Hmm.
        -- rewrite Hnf. discriminate.
    + apply G.
  - intros fuel s Hnf HF Hmm.
    rewrite (G exact fuel s _ _ Hnf HF Hmm) by reflexivity.
    do 2 f_equal; try qc_eq.
  - intros fuel s Hnf HF Hmm.
    rewrite (G binary64 fuel s _ _ Hnf HF Hmm) by reflexivity.
    reflexivity.
Qed.

Lemma mass_and_molar_flow_witness :
  @Stream.MolarFlow binary64 1000 ten_kg_per_s = Ok (VNum (n_lit 500))
  /\ @Stream.MolarFlow exact 1000 ten_kg_per_s = Ok (VNum (n_lit 500))
  /\ @Stream.MassFlow binary64 1000 molar_flow_only = Ok (VNum (n_lit 10)).
Proof.
  split; [|split].
  - apply (proj2 (proj2 mass_and_molar_flow) 1000%nat ten_kg_per_s);
      reflexivity.
  - apply (proj1 (proj2 mass_and_molar_flow) 1000%nat ten_kg_per_s);
      reflexivity.
  - exact (proj2 (proj1 (proj2 (proj1 mass_and_molar_flow binary64 1000%nat
                                  molar_flow_only))
                    (n_lit 500) (n_lit 0.02) eq_refl eq_refl eq_refl)).
Defined.

(** ** Flows by component *)

Lemma py_sum_from {Nb : Number} (l : list num) (acc : num) :
  fold_left (fun acc x => a <- acc ;; py_add a x) (map VNum l)
    (Ok (VNum acc))
  = Ok (VNum (fold_left n_add l acc)).
Proof.
  revert acc. induction l as [|x l IH]; intro acc; [reflexivity|].
  cbn [map fold_left bind py_add]. apply IH.
Qed.

Lemma py_sum_numbers {Nb : Number} (l : list num) :
  py_sum (map VNum l) = Ok (VNum (n_sum l)).
Proof. apply py_sum_from. Qed.

(** C8, as the code has it.  Each list of flows by component is the
    fraction list times the scalar flow, entry by entry, in every number
    system: [MassFlows] from the mass fractions, [MolarFlows] and
    [VolumeFlows] from the mole fractions.  In exact arithmetic, when the
    fractions add up to one the entries add up to the scalar flow. *)
Theorem component_flows :
  (forall (Nb : Number) (fuel : nat) (s : Stream.t) (ws zs : list num),
      Stream.MassFractions s = map VNum ws ->
      Stream.MolarFractions s = map VNum zs ->
      (forall F : num,
          Stream.MassFlow fuel s = Ok (VNum F) ->
          Stream.MassFlows fuel s = Ok (map (fun w => VNum (n_mul w F)) ws))
      /\ (forall F : num,
            Stream.MolarFlow fuel s = Ok (VNum F) ->
            Stream.MolarFlows fuel s
            = Ok (map (fun z => VNum (n_mul z F)) zs))
      /\ (forall F : num,
            Stream.VolumeFlow fuel s = Ok (VNum F) ->
            Stream.VolumeFlows fuel s
            = Ok (map (fun z => VNum (n_mul z F)) zs)))
  /\ (forall (fuel : nat) (s : @Stream.t exact) (ws zs : list (@num exact)),
        Stream.MassFractions s = map VNum ws ->
        Stream.MolarFractions s = map VNum zs ->
        (forall F : @num exact,
            n_sum ws = n_lit 1 ->
            Stream.MassFlow fuel s = Ok (VNum F) ->
            (l <- Stream.MassFlows fuel s ;; py_sum l) = Ok (VNum F))
        /\ (forall F : @num exact,
              n_sum zs = n_lit 1 ->
              Stream.MolarFlow fuel s = Ok (VNum F) ->
              (l <- Stream.MolarFlows fuel s ;; py_sum l) = Ok (VNum F))
        /\ (forall F : @num exact,
              n_sum zs = n_lit 1 ->
              Stream.VolumeFlow fuel s = Ok (VNum F) ->
              (l <- Stream.VolumeFlows fuel s ;; py_sum l) = Ok (VNum F))).
Proof.
  assert (G : forall (Nb : Number) (fuel : nat) (s : Stream.t)
                     (ws zs : list num),
             Stream.MassFractions s = map VNum ws ->
             Stream.MolarFractions s = map VNum zs ->
             (forall F : num,
                 Stream.MassFlow fuel s = Ok (VNum F) ->
                 Stream.MassFlows fuel s
                 = Ok (map (fun w => VNum (n_mul w F)) ws))
             /\ (forall F : num,
                   Stream.MolarFlow fuel s = Ok (VNum F) ->
                   Stream.MolarFlows fuel s
                   = Ok (map (fun z => VNum (n_mul z F)) zs))
             /\ (forall F : num,
                   Stream.VolumeFlow fuel s = Ok (VNum F) ->
                   Stream.VolumeFlows fuel s
                   = Ok (map (fun z => VNum (n_mul z F)) zs))).
  { intros Nb fuel s ws zs Hw Hz. repeat split; intros F HF.
    - unfold Stream.MassFlows. rewrite Hw. now apply comprehension_scale.
    - unfold Stream.MolarFlows. rewrite Hz. now apply comprehension_scale.
    - unfold Stream.VolumeFlows. rewrite Hz. now apply comprehension_scale. }
  assert (Hsum : forall (xs : list (@num exact)) (F : @num exact),
             n_sum xs = n_lit 1 ->
             py_sum (map (fun x => VNum (n_mul x F)) xs) = Ok (VNum F)).
  { intros xs F H1. rewrite n_sum_Qcsum in H1.
    rewrite <- (map_map (fun x => n_mul x F) VNum), py_sum_numbers.
    do 2 f_equal. rewrite n_sum_Qcsum.
    change (Qcsum (map (fun x => x * F) xs) = F).
    rewrite Qcsum_times. change (Qcsum xs = 1) in H1. rewrite H1. ring. }
  split; [exact G|].
  intros fuel s ws zs Hw Hz.
  destruct (G exact fuel s ws zs Hw Hz) as [G1 [G2 G3]].
  repeat split; intros F H1 HF.
  - rewrite (G1 F HF). cbn [bind]. now apply Hsum.
  - rewrite (G2 F HF). cbn [bind]. now apply Hsum.
  - rewrite (G3 F HF). cbn [bind]. now apply Hsum.
Qed.

Lemma component_flows_witness :
  (@Stream.MassFlows binary64 1000 ten_kg_per_s
   = Ok (map (fun w => VNum (n_mul w (n_lit 10))) (map n_lit [0.25; 0.75]%Q))
   /\ @Stream.MolarFlows binary64 1000 ten_kg_per_s
      = Ok (map (fun z => VNum (n_mul z (n_lit 500)))
              (map n_lit [0.5; 0.5]%Q)))
  /\ (l <- @Stream.MassFlows exact 1000 ten_kg_per_s ;; py_sum l)
     = Ok (VNum (n_lit 10)).
Proof.
  split.
  - destruct (proj1 component_flows binary64 1000%nat ten_kg_per_s
                (map n_lit [0.25; 0.75]%Q) (map n_lit [0.5; 0.5]%Q)
                eq_refl eq_refl) as [H1 [H2 _]].
    split; [apply H1|apply H2]; reflexivity.
  - apply (proj1 (proj2 component_flows 1000%nat ten_kg_per_s
                    (map n_lit [0.25; 0.75]%Q) (map n_lit [0.5; 0.5]%Q)
                    eq_refl eq_refl)).
    + qc_eq.
    + reflexivity.
Defined.

(** C8, as stated, fails in binary64: the mass fractions 0.3 and 0.7 add
    up to 1.0, and at a mass flow of 3 the flows by component are
    0.8999999999999999 and 2.0999999999999996, whose sum is
    2.9999999999999996, the float [0x1.7ffffffffffffp+1]. *)
Lemma component_flows_sum_rounds :
  @n_sum binary64 (map n_lit [0.3; 0.7]%Q) = n_lit 1
  /\ @Stream.MassFlow binary64 1000 three_kg_per_s = Ok (VNum (n_lit 3))
  /\ (l <- @Stream.MassFlows binary64 1000 three_kg_per_s ;; py_sum l)
     = Ok (@VNum binary64 (0x1.7ffffffffffffp+1)%float)
  /\ PrimFloat.eqb (0x1.7ffffffffffffp+1)%float (@n_lit binary64 3) = false.
Proof. repeat split. Qed.

(** * Further properties *)

(** ** The flows of a stream never exhaust the stack *)

Lemma bind_no_RecursionError {A B : Type} (r : result A) (k : A -> result B) :
  r <> Raise RecursionError ->
  (forall a, k a <> Raise RecursionError) ->
  (x <- r ;; k x) <> Raise RecursionError.
Proof. intros Hr Hk. destruct r as [a|e]; cbn [bind]; [apply Hk|congruence]. Qed.

Lemma py_mul_no_RecursionError {Nb : Number} (a b : value) :
  py_mul a b <> Raise RecursionError.
Proof. destruct a, b; discriminate. Qed.

Lemma py_div_no_RecursionError {Nb : Number} (a b : value) :
  py_div a b <> Raise RecursionError.
Proof.
  destruct a, b; try discriminate. unfold py_div.
  destruct (n_is_zero x0); discriminate.
Qed.

(** [VolumeFlow] and [NormalVolumeFlow] call each other at most once: from
    two nested calls on the result does not depend on the recursion limit,
    and it is never a [RecursionError]. *)
Theorem flow_recursion_bounded {Nb : Number} (fuel : nat) (s : Stream.t) :
  (Stream.VolumeFlow (S (S fuel)) s = Stream.VolumeFlow 2 s
   /\ Stream.VolumeFlow 2 s <> Raise RecursionError)
  /\ (Stream.NormalVolumeFlow (S (S fuel)) s = Stream.NormalVolumeFlow 2 s
      /\ Stream.NormalVolumeFlow 2 s <> Raise RecursionError).
Proof.
  cbn [Stream.VolumeFlow Stream.NormalVolumeFlow].
  split; split.
  - destruct (Stream.Vf s); try reflexivity.
    destruct (Stream.Vfo s); reflexivity.
  - destruct (Stream.Vf s); try discriminate.
    destruct (Stream.Vfo s); cbn [bind];
      auto using py_div_no_RecursionError, py_mul_no_RecursionError,
        bind_no_RecursionError.
  - destruct (Stream.Vfo s); reflexivity.
  - destruct (Stream.Vfo s); try discriminate.
    destruct (Stream.Vf s); cbn [bind];
      repeat (apply bind_no_RecursionError; [|intro]);
      auto using py_div_no_RecursionError, py_mul_no_RecursionError;
      discriminate.
Qed.

(** ** Substance accessors *)

(** The accessors of a substance return the stored reference values,
    whatever the temperature. *)
Theorem Substance_accessors_ignore_T {Nb : Number} (c : Substance.t)
    (T T' : value) :
  Substance.Density c T = Substance.Density0 c
  /\ Substance.Viscosity c T = Substance.Viscosity0 c
  /\ Substance.SpecificHeat c T = Substance.SpecificHeat0 c
  /\ Substance.Diffusivity c T = Substance.Diffusivity0 c
  /\ Substance.Density c T = Substance.Density c T'.
Proof. repeat split. Qed.

(** ** Components under one name *)

(** [MolarMasses] is keyed by name: two components called "water" leave one
    entry, holding the molar mass of the second, and the derived mass
    fractions have one entry for the two components. *)
Theorem one_entry_per_name :
  @Mixture.MolarMasses exact water_twice = [("water", VNum (n_lit 0.020))]
  /\ @Mixture.MassFractions exact 2 water_twice = Ok [VNum (n_lit 1)].
Proof.
  split; [reflexivity|]. vm_compute. do 3 f_equal. qc_eq.
Qed.

(** ** Stream construction, in general *)

Lemma Stream_init_raises_witness :
  (exists e, @Stream.init binary64 first_power 1000 (Mixture.init [])
             = Raise e)
  /\ (exists e, @Stream.init exact whole_pow 1000 half_half_by_mass
                = Raise e).
Proof.
  split.
  - apply (Stream_init_raises (Nb := binary64)); reflexivity.
  - apply (Stream_init_raises (Nb := exact)); reflexivity.
Defined.

(** ** A mixture without components *)

(** With an empty component list the loops do not run: there is no molar
    mass entry, the derived fraction lists are empty, [MolarMass] and
    [SpecificHeat] are the empty sum 0, [Viscosity] is the empty product 1,
    and [Density] divides one by the empty sum. *)
Theorem empty_mixture {Nb : Number} (pow : num -> num -> result num)
    (fuel : nat) (m : Mixture.t) (T : value) :
  Mixture.Components m = [] ->
  Mixture.MolarMasses m = []
  /\ (Mixture.wi m = None -> Mixture.MassFractions (S fuel) m = Ok [])
  /\ (Mixture.zi m = None -> Mixture.MolarFractions (S fuel) m = Ok [])
  /\ Mixture.MolarMass fuel m = Ok (VNum (n_lit 0))
  /\ Mixture.SpecificHeat fuel m T = Ok (VNum (n_lit 0))
  /\ Mixture.Viscosity pow fuel m T = Ok (VNum (n_lit 1))
  /\ (n_is_zero (n_lit 0) = true ->
      Mixture.Density fuel m T = Raise ZeroDivisionError).
Proof.
  intro Hc.
  assert (HMM : Mixture.MolarMasses m = []).
  { unfold Mixture.MolarMasses. rewrite Hc. cbn [map].
    now destruct (Mixture.ComponentNames m). }
  split; [exact HMM|]. repeat split.
  - intro H. cbn [Mixture.MassFractions]. now rewrite H, HMM.
  - intro H. cbn [Mixture.MolarFractions]. now rewrite H, HMM.
  - unfold Mixture.MolarMass. now rewrite HMM.
  - unfold Mixture.SpecificHeat. now rewrite Hc.
  - unfold Mixture.Viscosity. now rewrite Hc.
  - intro Hz. unfold Mixture.Density. rewrite Hc.
    cbn [for_enumerate for_enumerate_from bind]. now apply py_div_by_zero.
Qed.

Lemma empty_mixture_witness :
  @Mixture.MolarMasses binary64 (Mixture.init []) = []
  /\ @Mixture.MolarMass binary64 1000 (Mixture.init []) = Ok (VNum (n_lit 0))
  /\ @Mixture.Density binary64 1000 (Mixture.init []) T_default
     = Raise ZeroDivisionError.
Proof.
  destruct (empty_mixture (Nb := binary64) first_power 1000
              (Mixture.init []) T_default eq_refl)
    as [H1 [_ [_ [H2 [_ [_ H3]]]]]].
  split; [exact H1|split; [exact H2|apply H3; reflexivity]].
Defined.

(** ** A mixture as constructed *)

(** [Mixture(components)] stores no composition and no quantity.  With a
    component in it, every derived reading fails until [wi] or [zi] is
    assigned: the two fraction lists and what is computed from them use up
    the recursion limit, [Mass] and [Volume] meet the bound method, and no
    stream can be made of it. *)
Theorem mixture_as_constructed {Nb : Number}
    (pow : num -> num -> result num)
    (fuel : nat) (c : Substance.t) (cs : list Substance.t) (T : value) :
  let m := Mixture.init (c :: cs) in
  Mixture.MassFractions fuel m = Raise RecursionError
  /\ Mixture.MolarFractions fuel m = Raise RecursionError
  /\ Mixture.MolarMass fuel m = Raise RecursionError
  /\ Mixture.Density fuel m T = Raise RecursionError
  /\ Mixture.Viscosity pow fuel m T = Raise RecursionError
  /\ Mixture.SpecificHeat fuel m T = Raise RecursionError
  /\ Mixture.Moles fuel m = Raise RecursionError
  /\ Mixture.Mass fuel m = Raise TypeError
  /\ Mixture.Volume m = Raise TypeError
  /\ Stream.init pow fuel m = Raise RecursionError.
Proof.
  intro m.
  assert (Hv : OrderedDict.values (Mixture.MolarMasses m) <> []).
  { unfold OrderedDict.values. intro E. apply map_eq_nil in E. revert E.
    unfold m, Mixture.MolarMasses. apply OrderedDict_of_pairs_nonempty.
    discriminate. }
  assert (Hk : OrderedDict.keys (Mixture.MolarMasses m) <> []).
  { unfold OrderedDict.keys. intro E. apply map_eq_nil in E. revert E.
    unfold m, Mixture.MolarMasses. apply OrderedDict_of_pairs_nonempty.
    discriminate. }
  destruct (fractions_unset_recursion m eq_refl eq_refl Hv fuel) as [Hw Hz].
  assert (HMM : Mixture.MolarMass fuel m = Raise RecursionError).
  { unfold Mixture.MolarMass.
    destruct (OrderedDict.keys (Mixture.MolarMasses m)) as [|k ks];
      [congruence|].
    apply for_enumerate_first_raises. now rewrite Hz. }
  assert (HD : forall T', Mixture.Density fuel m T' = Raise RecursionError).
  { intro T'. unfold Mixture.Density.
    rewrite (for_enumerate_first_raises c cs _ _ RecursionError);
      [reflexivity|]. now rewrite Hw. }
  repeat split; try assumption; try apply HD.
  - unfold Mixture.Viscosity. apply for_enumerate_first_raises. now rewrite Hw.
  - unfold Mixture.SpecificHeat. apply for_enumerate_first_raises.
    now rewrite Hw.
  - unfold Mixture.Moles. cbn [m Mixture.init Mixture.N Mixture.V].
    now rewrite HMM.
  - unfold Stream.init. now rewrite HD.
Qed.

(** ** What can be read of the quantities *)

(** For a mixture with a component, a quantity is read only where it is
    stored or the ideal-gas law gives it: [Mass] returns a value only if [M]
    is stored, [Volume] only if [V] or [N] is, [Moles] only if [N] or [V]
    is.  The derivations through the density and the molar mass always
    raise. *)
Theorem quantities_read_where_stored {Nb : Number} (fuel : nat)
    (m : Mixture.t) (v : value) :
  length (Mixture.ComponentNames m) = length (Mixture.Components m) ->
  Mixture.Components m <> [] ->
  (Mixture.Mass fuel m = Ok v -> Mixture.M m = v /\ v <> VNone)
  /\ (Mixture.Volume m = Ok v ->
      (Mixture.V m = v /\ v <> VNone)
      \/ (Mixture.V m = VNone /\ Mixture.N m <> VNone))
  /\ (Mixture.Moles fuel m = Ok v ->
      (Mixture.N m = v /\ v <> VNone)
      \/ (Mixture.N m = VNone /\ Mixture.V m <> VNone)).
Proof.
  intros Hlen Hne.
  destruct (MolarMass_raises fuel m (MolarMasses_keys_nonempty m Hlen Hne))
    as [e He].
  split; [|split].
  - intro H. unfold Mixture.Mass in H.
    destruct (Mixture.M m);
      try (split; [congruence|intro; subst; discriminate]).
    destruct (Mixture.N m); rewrite ?He, ?py_mul_bound_r in H;
      discriminate.
  - intro H. unfold Mixture.Volume in H.
    destruct (Mixture.V m) eqn:HV;
      try (left; split; [congruence|intro; subst; congruence]).
    destruct (Mixture.N m) eqn:HN; try (right; split; congruence).
    rewrite py_div_bound_r in H. discriminate.
  - intro H. unfold Mixture.Moles in H.
    destruct (Mixture.N m) eqn:HN;
      try (left; split; [congruence|intro; subst; congruence]).
    destruct (Mixture.V m) eqn:HV; try (right; split; congruence).
    rewrite He in H. discriminate.
Qed.

Lemma quantities_read_where_stored_witness :
  @Mixture.M binary64 two_kilograms_of_water = VNum (n_lit 2)
  /\ @VNum binary64 (n_lit 2) <> VNone.
Proof.
  apply (proj1 (quantities_read_where_stored (Nb := binary64) 1000
                  two_kilograms_of_water (VNum (n_lit 2)) eq_refl
                  ltac:(discriminate))).
  reflexivity.
Defined.

(** ** The molar masses by name *)

Lemma OrderedDict_keys_set {Nb : Number} (d : OrderedDict.t) (k : string)
    (v : value) :
  (In k (OrderedDict.keys d) ->
   OrderedDict.keys (OrderedDict.set d k v) = OrderedDict.keys d)
  /\ (~ In k (OrderedDict.keys d) ->
      OrderedDict.keys (OrderedDict.set d k v) = OrderedDict.keys d ++ [k]).
Proof.
  induction d as [|[k' v'] d [IH1 IH2]]; cbn [OrderedDict.set].
  - split; [intros []|reflexivity].
  - destruct (String.eqb_spec k' k) as [->|Hneq].
    + split; [reflexivity|]. intro H. exfalso. apply H. now left.
    + split; intro H; cbn.
      * f_equal. apply IH1. destruct H as [H|H]; [contradiction|exact H].
      * f_equal. apply IH2. intro Hin. apply H. now right.
Qed.

Lemma OrderedDict_set_NoDup {Nb : Number} (d : OrderedDict.t) (k : string)
    (v : value) :
  NoDup (OrderedDict.keys d) -> NoDup (OrderedDict.keys (OrderedDict.set d k v)).
Proof.
  intro H. destruct (in_dec string_dec k (OrderedDict.keys d)) as [Hin|Hout].
  - now rewrite (proj1 (OrderedDict_keys_set d k v) Hin).
  - rewrite (proj2 (OrderedDict_keys_set d k v) Hout).
    apply NoDup_app; [exact H|repeat constructor; intros []|].
    intros x Hx [<- | []]. contradiction.
Qed.

Lemma OrderedDict_set_keys_iff {Nb : Number} (d : OrderedDict.t)
    (k k' : string) (v : value) :
  In k' (OrderedDict.keys (OrderedDict.set d k v))
  <-> In k' (OrderedDict.keys d) \/ k' = k.
Proof.
  destruct (in_dec string_dec k (OrderedDict.keys d)) as [Hin|Hout].
  - rewrite (proj1 (OrderedDict_keys_set d k v) Hin). split; [now left|].
    intros [H | ->]; assumption.
  - rewrite (proj2 (OrderedDict_keys_set d k v) Hout), in_app_iff.
    cbn. intuition.
Qed.

Lemma OrderedDict_set_In_new {Nb : Number} (d : OrderedDict.t) (k : string)
    (v : value) :
  In (k, v) (OrderedDict.set d k v).
Proof.
  induction d as [|[k' v'] d IH]; cbn [OrderedDict.set]; [now left|].
  destruct (String.eqb_spec k' k) as [->|Hneq]; [now left|now right].
Qed.

Lemma OrderedDict_set_In_other {Nb : Number} (d : OrderedDict.t)
    (k k' : string) (v v' : value) :
  k' <> k ->
  (In (k', v') (OrderedDict.set d k v) <-> In (k', v') d).
Proof.
  intro Hneq. induction d as [|[k0 v0] d IH]; cbn [OrderedDict.set].
  - split; [|intros []]. intros [E|[]]. congruence.
  - destruct (String.eqb_spec k0 k) as [->|Hk]; cbn [In].
    + split; (intros [E|H]; [left|right; exact H]); congruence.
    + rewrite IH. reflexivity.
Qed.

Lemma OrderedDict_set_In {Nb : Number} (d : OrderedDict.t) (k k' : string)
    (v v' : value) :
  In (k', v') (OrderedDict.set d k v) -> In (k', v') d \/ (k', v') = (k, v).
Proof.
  induction d as [|[k0 v0] d IH]; cbn [OrderedDict.set].
  - intros [E|[]]. now right.
  - destruct (String.eqb_spec k0 k) as [->|Hk]; cbn [In].
    + intros [E|H]; [now right|left; now right].
    + intros [E|H]; [left; now left|]. destruct (IH H) as [H'|H'];
        [left; now right|now right].
Qed.

Lemma OrderedDict_set_length {Nb : Number} (d : OrderedDict.t) (k : string)
    (v : value) :
  (length (OrderedDict.set d k v) <= S (length d))%nat.
Proof.
  induction d as [|[k' v'] d IH]; cbn [OrderedDict.set length]; [lia|].
  destruct (String.eqb k' k); cbn [length]; lia.
Qed.

(** Folding [set] over a list of pairs, from any dictionary [d]. *)
Lemma OrderedDict_fold_facts {Nb : Number} (kvs : list (string * value))
    (d : OrderedDict.t) :
  let d' := fold_left (fun d kv => OrderedDict.set d (fst kv) (snd kv)) kvs d in
  (NoDup (OrderedDict.keys d) -> NoDup (OrderedDict.keys d'))
  /\ (forall k, In k (OrderedDict.keys d')
                <-> In k (OrderedDict.keys d) \/ In k (map fst kvs))
  /\ (forall k v, In (k, v) d' -> In (k, v) d \/ In (k, v) kvs)
  /\ (length d' <= length d + length kvs)%nat
  /\ (forall k v pre post,
         kvs = pre ++ (k, v) :: post -> ~ In k (map fst post) -> In (k, v) d').
Proof.
  revert d. induction kvs as [|[k0 v0] kvs IH]; intro d; cbn [fold_left].
  - cbn zeta. split; [|split; [|split; [|split]]].
    + auto.
    + intro k. cbn. tauto.
    + intros k v H. now left.
    + cbn [length]. lia.
    + intros k v pre post E. destruct pre; discriminate.
  - destruct (IH (OrderedDict.set d k0 v0)) as [I1 [I2 [I3 [I4 I5]]]].
    cbn zeta in *. cbn [fst snd] in *.
    split; [|split; [|split; [|split]]]; [| intro k; split | | |].
    + intro H. apply I1. now apply OrderedDict_set_NoDup.
    + intro H. apply I2 in H. rewrite OrderedDict_set_keys_iff in H.
      cbn [map In fst]. intuition.
    + intro H. apply I2. rewrite OrderedDict_set_keys_iff.
      cbn [map In fst] in H. intuition.
    + intros k v H. destruct (I3 k v H) as [H'|H']; [|right; now right].
      destruct (OrderedDict_set_In _ _ _ _ _ H') as [H''|H''];
        [now left|right; left; congruence].
    + pose proof (OrderedDict_set_length d k0 v0). cbn [length]. lia.
    + intros k v pre post E Hpost. destruct pre as [|p pre]; cbn in E.
      * injection E as -> -> ->.
        clear I1 I3 I4 I5.
        assert (G : forall (l : list (string * value)) (d0 : OrderedDict.t),
                   In (k, v) d0 -> ~ In k (map fst l) ->
                   In (k, v)
                     (fold_left
                        (fun d kv => OrderedDict.set d (fst kv) (snd kv))
                        l d0)).
        { induction l as [|[k1 v1] l IHl]; intros d0 Hin Hl; [exact Hin|].
          cbn [fold_left fst snd]. apply IHl.
          - apply OrderedDict_set_In_other; [|exact Hin].
            intro E. apply Hl. left. now rewrite E.
          - intro H. apply Hl. now right. }
        apply G; [apply OrderedDict_set_In_new|exact Hpost].
      * injection E as _ E. now apply (I5 k v pre post).
Qed.

Lemma combine_app_same {A B : Type} (l1 l2 : list A) (l1' l2' : list B) :
  length l1 = length l1' ->
  combine (l1 ++ l2) (l1' ++ l2') = combine l1 l1' ++ combine l2 l2'.
Proof.
  revert l1'. induction l1 as [|a l1 IH]; intros [|b l1'] H;
    try discriminate; [reflexivity|].
  cbn. f_equal. apply IH. now injection H.
Qed.

(** [MolarMasses] holds one entry per component name: no name twice, every
    entry the name and molar mass of a component, and under a name the molar
    mass of the last component so called.  With two components under one
    name it is shorter than the component list. *)
Theorem MolarMasses_one_entry_per_name {Nb : Number} (m : Mixture.t) :
  NoDup (OrderedDict.keys (Mixture.MolarMasses m))
  /\ (length (Mixture.MolarMasses m) <= length (Mixture.Components m))%nat
  /\ (forall k v,
         In (k, v) (Mixture.MolarMasses m) ->
         In k (Mixture.ComponentNames m)
         /\ exists c, In c (Mixture.Components m) /\ Substance.MolarMass c = v)
  /\ (Mixture.ComponentNames m = map Substance.Name (Mixture.Components m) ->
      (forall k, In k (OrderedDict.keys (Mixture.MolarMasses m))
                 <-> In k (Mixture.ComponentNames m))
      /\ (forall pre c post,
             Mixture.Components m = pre ++ c :: post ->
             ~ In (Substance.Name c) (map Substance.Name post) ->
             In (Substance.Name c, Substance.MolarMass c)
               (Mixture.MolarMasses m))).
Proof.
  unfold Mixture.MolarMasses, OrderedDict.of_pairs.
  set (kvs := combine (Mixture.ComponentNames m)
                (map Substance.MolarMass (Mixture.Components m))).
  destruct (OrderedDict_fold_facts kvs []) as [F1 [F2 [F3 [F4 F5]]]].
  cbn zeta in *. split; [|split; [|split]].
  - apply F1. constructor.
  - etransitivity; [exact F4|]. cbn [length]. unfold kvs.
    rewrite length_combine, length_map. lia.
  - intros k v H. destruct (F3 k v H) as [[]|Hin]. unfold kvs in Hin. split.
    + now apply in_combine_l in Hin.
    + apply in_combine_r in Hin. apply in_map_iff in Hin.
      destruct Hin as [c [E Hc]]. now exists c.
  - intro Hn.
    assert (Hfst : map fst kvs = Mixture.ComponentNames m).
    { unfold kvs. apply map_fst_combine. rewrite Hn. now rewrite !length_map. }
    split.
    + intro k. rewrite F2, Hfst. cbn. tauto.
    + intros pre c post Hc Hpost.
      apply (F5 _ _ (combine (map Substance.Name pre)
                       (map Substance.MolarMass pre))
               (combine (map Substance.Name post)
                  (map Substance.MolarMass post))).
      * unfold kvs. rewrite Hn, Hc, !map_app. cbn [map].
        rewrite combine_app_same by now rewrite !length_map. reflexivity.
      * rewrite map_fst_combine by now rewrite !length_map. exact Hpost.
Qed.

(** ** Where a loop stops *)

Lemma for_enumerate_from_app {A St : Type} (i : nat) (l1 l2 : list A) (s : St)
    (body : St -> nat -> A -> result St) :
  for_enumerate_from i (l1 ++ l2) s body
  = (s' <- for_enumerate_from i l1 s body ;;
     for_enumerate_from (i + length l1) l2 s' body).
Proof.
  revert i s. induction l1 as [|x l1 IH]; intros i s.
  - cbn. now rewrite Nat.add_0_r.
  - cbn [app for_enumerate_from length]. destruct (body s i x) as [s'|e];
      cbn [bind]; [|reflexivity].
    rewrite IH. now rewrite Nat.add_succ_r.
Qed.

Section Stops.

Context {Nb : Number} {A : Type}.
Variable get : result (list value).
Variable proj : A -> value.
Variable op : value -> value -> result value.
Variable f : num -> num -> num.
Variable comb : value -> value -> result value.
Variable g : num -> num -> num.

Hypothesis comb_num : forall a b, comb (VNum a) (VNum b) = Ok (VNum (g a b)).

(** The loop over components that have an entry in the list read: entries
    beyond the components are not looked at. *)
Lemma for_enumerate_fold_le_from (full : list num) :
  get = Ok (map VNum full) ->
  forall (cs : list A) (ys xs pre : list num) (acc : num),
    full = pre ++ xs ->
    map proj cs = map VNum ys ->
    (length ys <= length xs)%nat ->
    (forall x y, In y ys -> op (VNum x) (VNum y) = Ok (VNum (f x y))) ->
    for_enumerate_from (length pre) cs (VNum acc)
      (fun s i c =>
         l <- get ;; x <- py_index l i ;; p <- op x (proj c) ;; comb s p)
    = Ok (VNum (fold_left g (zip_with f xs ys) acc)).
Proof.
  intros Hget. rewrite Hget. cbn [bind].
  induction cs as [|c cs IH]; intros ys xs pre acc Hfull Hp Hlen Hop.
  - destruct ys; [|discriminate]. unfold zip_with.
    now rewrite combine_nil.
  - destruct ys as [|y ys]; [discriminate|].
    destruct xs as [|x xs]; [cbn in Hlen; lia|].
    injection Hp as Hc Hp. cbn [length] in Hlen.
    cbn [for_enumerate_from bind].
    rewrite (py_index_map _ _ x).
    2:{ rewrite Hfull, nth_error_app2 by lia. now rewrite Nat.sub_diag. }
    cbn [bind]. rewrite Hc, Hop by now left. cbn [bind]. rewrite comb_num.
    cbn [bind].
    replace (S (length pre)) with (length (pre ++ [x]))
      by (rewrite length_app; simpl; lia).
    rewrite (IH ys xs (pre ++ [x]) (g acc (f x y))); try assumption.
    + reflexivity.
    + now rewrite <- app_assoc.
    + lia.
    + intros x' y' Hin. apply Hop. now right.
Qed.

Lemma for_enumerate_fold_le (cs : list A) (xs ys : list num) (acc : num) :
  get = Ok (map VNum xs) ->
  map proj cs = map VNum ys ->
  (length ys <= length xs)%nat ->
  (forall x y, In y ys -> op (VNum x) (VNum y) = Ok (VNum (f x y))) ->
  for_enumerate cs (VNum acc)
    (fun s i c =>
       l <- get ;; x <- py_index l i ;; p <- op x (proj c) ;; comb s p)
  = Ok (VNum (fold_left g (zip_with f xs ys) acc)).
Proof.
  intros Hget Hp Hlen Hop.
  now apply (for_enumerate_fold_le_from xs Hget cs ys xs []).
Qed.

(** The loop raises what the first failing pass raises. *)
Lemma for_enumerate_stops (cs1 cs2 : list A) (c : A) (xs ys : list num)
    (acc : num) (e : exn) :
  get = Ok (map VNum xs) ->
  map proj cs1 = map VNum ys ->
  (length ys <= length xs)%nat ->
  (forall x y, In y ys -> op (VNum x) (VNum y) = Ok (VNum (f x y))) ->
  (forall s,
      (l <- get ;; x <- py_index l (length cs1) ;; p <- op x (proj c) ;;
       comb s p) = Raise e) ->
  for_enumerate (cs1 ++ c :: cs2) (VNum acc)
    (fun s i c =>
       l <- get ;; x <- py_index l i ;; p <- op x (proj c) ;; comb s p)
  = Raise e.
Proof.
  intros Hget Hp Hlen Hop Hfail. unfold for_enumerate.
  rewrite for_enumerate_from_app.
  pose proof (for_enumerate_fold_le_from xs Hget cs1 ys xs [] acc eq_refl Hp
                Hlen Hop) as H.
  cbn [length] in H. rewrite H.
  cbn [bind for_enumerate_from Nat.add]. now rewrite Hfail.
Qed.

Lemma pass_IndexError (xs : list num) (n : nat) (c : A) (s : value) :
  get = Ok (map VNum xs) ->
  (length xs <= n)%nat ->
  (l <- get ;; x <- py_index l n ;; p <- op x (proj c) ;; comb s p)
  = Raise IndexError.
Proof.
  intros Hget Hn. rewrite Hget. cbn [bind]. unfold py_index.
  replace (nth_error (map VNum xs) n) with (@None value).
  - reflexivity.
  - symmetry. apply nth_error_None. now rewrite length_map.
Qed.

Lemma pass_TypeError (xs : list num) (n : nat) (c : A) (s : value) :
  get = Ok (map VNum xs) ->
  (n < length xs)%nat ->
  (forall x, op (VNum x) (proj c) = Raise TypeError) ->
  (l <- get ;; x <- py_index l n ;; p <- op x (proj c) ;; comb s p)
  = Raise TypeError.
Proof.
  intros Hget Hn Hop. rewrite Hget. cbn [bind].
  destruct (nth_error xs n) as [x|] eqn:E.
  - rewrite (py_index_map _ _ x E). cbn [bind]. now rewrite Hop.
  - apply nth_error_None in E. lia.
Qed.

End Stops.

Lemma for_enumerate_pairs_stops {Nb : Number} {A : Type}
    (get : result (list value)) (proj : A -> value)
    (op comb : value -> value -> result value) (g : num -> num -> num)
    (cs1 cs2 : list A) (c : A) (xs ys ps : list num) (acc : num) (e : exn) :
  (forall a b, comb (VNum a) (VNum b) = Ok (VNum (g a b))) ->
  get = Ok (map VNum xs) ->
  map proj cs1 = map VNum ys ->
  (length ys <= length xs)%nat ->
  Forall2 (fun xy p => op (VNum (fst xy)) (VNum (snd xy)) = Ok (VNum p))
    (combine xs ys) ps ->
  (forall s,
      (l <- get ;; x <- py_index l (length cs1) ;; p <- op x (proj c) ;;
       comb s p) = Raise e) ->
  for_enumerate (cs1 ++ c :: cs2) (VNum acc)
    (fun s i c =>
       l <- get ;; x <- py_index l i ;; p <- op x (proj c) ;; comb s p)
  = Raise e.
Proof.
  intros Hcomb Hget Hp Hlen Hop Hfail. unfold for_enumerate.
  rewrite for_enumerate_from_app.
  pose proof (for_enumerate_pairs_from get proj op comb g Hcomb xs Hget cs1
                ys xs [] ps acc eq_refl Hp Hlen Hop) as H.
  cbn [length] in H. rewrite H.
  cbn [bind for_enumerate_from Nat.add]. now rewrite Hfail.
Qed.

Lemma pass_raises {Nb : Number} {A : Type} (get : result (list value))
    (proj : A -> value) (op comb : value -> value -> result value)
    (xs : list num) (n : nat) (c : A) (s : value) (e : exn) :
  get = Ok (map VNum xs) ->
  (n < length xs)%nat ->
  (forall x, op (VNum x) (proj c) = Raise e) ->
  (l <- get ;; x <- py_index l n ;; p <- op x (proj c) ;; comb s p)
  = Raise e.
Proof.
  intros Hget Hn Hop. rewrite Hget. cbn [bind].
  destruct (nth_error xs n) as [x|] eqn:E.
  - rewrite (py_index_map _ _ x E). cbn [bind]. now rewrite Hop.
  - apply nth_error_None in E. lia.
Qed.

Lemma map_VNum_length {Nb : Number} {A : Type} (proj : A -> value)
    (cs : list A) (ys : list num) :
  map proj cs = map VNum ys -> length ys = length cs.
Proof.
  intro H. rewrite <- (length_map VNum ys), <- H. apply length_map.
Qed.

(** ** The fraction list against the component list *)

(** The bulk properties index the mass-fraction list by component.  A list
    shorter than the component list makes them raise [IndexError] at the
    first component without an entry; entries beyond the last component are
    never read, so a longer list gives what its first entries give. *)
Theorem fraction_list_length_mismatch {Nb : Number}
    (pow : num -> num -> result num) (fuel : nat) (m : Mixture.t)
    (T : value) (ws : list num) :
  Mixture.MassFractions fuel m = Ok (map VNum ws) ->
  let n := length (Mixture.Components m) in
  ((length ws < n)%nat ->
   (forall rhos,
       map (fun c => Substance.Density c T)
         (firstn (length ws) (Mixture.Components m)) = map VNum rhos ->
       nonzero rhos ->
       Mixture.Density fuel m T = Raise IndexError)
   /\ (forall mus ps,
          map (fun c => Substance.Viscosity c T)
            (firstn (length ws) (Mixture.Components m)) = map VNum mus ->
          powers pow ws mus ps ->
          Mixture.Viscosity pow fuel m T = Raise IndexError)
   /\ (forall cps,
          map (fun c => Substance.SpecificHeat c T)
            (firstn (length ws) (Mixture.Components m)) = map VNum cps ->
          Mixture.SpecificHeat fuel m T = Raise IndexError))
  /\ ((n <= length ws)%nat ->
      (forall rhos,
          map (fun c => Substance.Density c T) (Mixture.Components m)
          = map VNum rhos ->
          nonzero rhos ->
          n_is_zero (n_sum (zip_with n_div (firstn n ws) rhos)) = false ->
          Mixture.Density fuel m T
          = Ok (VNum (n_div (n_lit 1)
                        (n_sum (zip_with n_div (firstn n ws) rhos)))))
      /\ (forall mus ps,
             map (fun c => Substance.Viscosity c T) (Mixture.Components m)
             = map VNum mus ->
             powers pow (firstn n ws) mus ps ->
             Mixture.Viscosity pow fuel m T = Ok (VNum (n_prod ps)))
      /\ (forall cps,
             map (fun c => Substance.SpecificHeat c T) (Mixture.Components m)
             = map VNum cps ->
             Mixture.SpecificHeat fuel m T
             = Ok (VNum (n_sum (zip_with n_mul (firstn n ws) cps))))).
Proof.
  intros Hget n. split.
  - intro Hshort.
    assert (Hsplit : exists c cs2,
               Mixture.Components m
               = firstn (length ws) (Mixture.Components m) ++ c :: cs2).
    { destruct (skipn (length ws) (Mixture.Components m)) as [|c cs2] eqn:E.
      - apply (f_equal (@length _)) in E. rewrite length_skipn in E.
        cbn in E. unfold n in Hshort. lia.
      - exists c, cs2. rewrite <- E. symmetry. apply firstn_skipn. }
    destruct Hsplit as [c [cs2 Hsplit]].
    assert (Hfirst : length (firstn (length ws) (Mixture.Components m))
                     = length ws).
    { rewrite length_firstn. unfold n in Hshort. lia. }
    split; [|split].
    + intros rhos Hr Hnz. unfold Mixture.Density. rewrite Hsplit.
      rewrite (for_enumerate_stops _ (fun c => Substance.Density c T) py_div
                 n_div py_add n_add (fun a b => eq_refl) _ cs2 c ws rhos
                 (n_lit 0) IndexError); try assumption.
      * reflexivity.
      * rewrite (map_VNum_length _ _ _ Hr). lia.
      * now apply py_div_nonzero.
      * intro s.
        apply (pass_IndexError _ (fun c => Substance.Density c T) py_div
                 py_add ws); [assumption|lia].
    + intros mus ps Hr Hps. unfold Mixture.Viscosity. rewrite Hsplit.
      apply (for_enumerate_pairs_stops _ (fun c => Substance.Viscosity c T)
               (fun w mu => py_pow pow mu w) py_mul n_mul _ cs2 c ws mus ps);
        try assumption.
      * reflexivity.
      * rewrite (map_VNum_length _ _ _ Hr). lia.
      * now apply powers_py_pow.
      * intro s.
        apply (pass_IndexError _ (fun c => Substance.Viscosity c T)
                 (fun w mu => py_pow pow mu w) py_mul ws); [assumption|lia].
    + intros cps Hr. unfold Mixture.SpecificHeat. rewrite Hsplit.
      apply (for_enumerate_stops _ (fun c => Substance.SpecificHeat c T)
               py_mul n_mul py_add n_add (fun a b => eq_refl) _ cs2 c ws cps);
        try assumption.
      * rewrite (map_VNum_length _ _ _ Hr). lia.
      * reflexivity.
      * intro s.
        apply (pass_IndexError _ (fun c => Substance.SpecificHeat c T)
                 py_mul py_add ws); [assumption|lia].
  - intro Hlong.
    assert (Hzip : forall (f : num -> num -> num) (ys : list num),
               length ys = n ->
               zip_with f (firstn n ws) ys = zip_with f ws ys).
    { intros f ys Hy. unfold zip_with. rewrite <- Hy.
      now rewrite <- combine_firstn_r. }
    split; [|split].
    + intros rhos Hr Hnz HD. pose proof (map_VNum_length _ _ _ Hr) as Hy.
      rewrite Hzip in * by exact Hy. unfold Mixture.Density.
      rewrite (for_enumerate_fold_le _ (fun c => Substance.Density c T)
                 py_div n_div py_add n_add (fun a b => eq_refl)
                 (Mixture.Components m) ws rhos); try assumption.
      * cbn [bind]. now apply py_div_num.
      * rewrite Hy. exact Hlong.
      * now apply py_div_nonzero.
    + intros mus ps Hr Hps. pose proof (map_VNum_length _ _ _ Hr) as Hy.
      unfold powers, n in Hps. rewrite <- Hy in Hps.
      rewrite <- combine_firstn_r in Hps. unfold Mixture.Viscosity.
      apply (for_enumerate_pairs _ (fun c => Substance.Viscosity c T)
               (fun w mu => py_pow pow mu w) py_mul n_mul
               (fun a b => eq_refl) (Mixture.Components m) ws mus ps);
        try assumption.
      * rewrite Hy. exact Hlong.
      * now apply powers_py_pow.
    + intros cps Hr. pose proof (map_VNum_length _ _ _ Hr) as Hy.
      rewrite Hzip by exact Hy. unfold Mixture.SpecificHeat.
      apply (for_enumerate_fold_le _ (fun c => Substance.SpecificHeat c T)
               py_mul n_mul py_add n_add (fun a b => eq_refl)
               (Mixture.Components m) ws cps); try assumption.
      * rewrite Hy. exact Hlong.
      * reflexivity.
Qed.

Lemma fraction_list_length_mismatch_witness :
  (@Mixture.Density exact 1
     (mixture_of [water; ethanol] (Some (numbers [1%Q])) None
        VNone VNone VNone) T_default = Raise IndexError
   /\ @Mixture.Viscosity exact whole_pow 1
        (mixture_of [water; ethanol] (Some (numbers [1%Q])) None
           VNone VNone VNone) T_default = Raise IndexError
   /\ @Mixture.SpecificHeat exact 1
        (mixture_of [water; ethanol] (Some (numbers [1%Q])) None
           VNone VNone VNone) T_default = Raise IndexError)
  /\ (@Mixture.Viscosity exact whole_pow 1
        (mixture_of [water] (Some (numbers [1; 7]%Q)) None VNone VNone VNone)
        T_default
      = Ok (VNum (n_prod [n_lit 0.001]))
      /\ @Mixture.SpecificHeat exact 1
           (mixture_of [water] (Some (numbers [1; 7]%Q)) None
              VNone VNone VNone) T_default
         = Ok (VNum (n_sum (zip_with n_mul [n_lit 1] [n_lit 4180])))).
Proof.
  split.
  - destruct (proj1 (fraction_list_length_mismatch (Nb := exact) whole_pow
                       1%nat
                       (mixture_of [water; ethanol] (Some (numbers [1%Q]))
                          None VNone VNone VNone)
                       T_default [Q2Qc 1] eq_refl))
      as [HD [HV HC]]; [cbn; lia|].
    split; [|split].
    + apply (HD [Q2Qc 1000]); [reflexivity|].
      apply Forall_cons; [reflexivity|constructor].
    + apply (HV [Q2Qc 0.001] [Q2Qc 0.001]); [reflexivity|].
      repeat constructor.
    + apply (HC [Q2Qc 4180]). reflexivity.
  - destruct (proj2 (fraction_list_length_mismatch (Nb := exact) whole_pow
                       1%nat
                       (mixture_of [water] (Some (numbers [1; 7]%Q))
                          None VNone VNone VNone)
                       T_default [Q2Qc 1; Q2Qc 7] eq_refl))
      as [_ [HV HC]]; [cbn; lia|].
    split.
    + apply (HV [Q2Qc 0.001] [Q2Qc 0.001]); [reflexivity|].
      repeat constructor.
    + apply (HC [Q2Qc 4180]). reflexivity.
Defined.

(** ** A reference value never assigned *)

(** [Substance(name)] leaves the reference values at [None] and the
    accessors return them as they are.  The bulk property of a mixture
    raises [TypeError] at the first component whose value is [None], the
    components before it having numbers and the fraction list an entry for
    it. *)
Theorem unset_reference_value {Nb : Number}
    (pow : num -> num -> result num) (fuel : nat) (m : Mixture.t)
    (T : value) (ws : list num)
    (pre post : list Substance.t) (c : Substance.t) :
  Mixture.MassFractions fuel m = Ok (map VNum ws) ->
  Mixture.Components m = pre ++ c :: post ->
  (length pre < length ws)%nat ->
  (forall rhos,
      map (fun c => Substance.Density c T) pre = map VNum rhos ->
      nonzero rhos ->
      Substance.Density0 c = VNone ->
      Mixture.Density fuel m T = Raise TypeError)
  /\ (forall mus ps,
         map (fun c => Substance.Viscosity c T) pre = map VNum mus ->
         powers pow ws mus ps ->
         Substance.Viscosity0 c = VNone ->
         Mixture.Viscosity pow fuel m T = Raise TypeError)
  /\ (forall cps,
         map (fun c => Substance.SpecificHeat c T) pre = map VNum cps ->
         Substance.SpecificHeat0 c = VNone ->
         Mixture.SpecificHeat fuel m T = Raise TypeError).
Proof.
  intros Hget Hc Hlen. split; [|split].
  - intros rhos Hr Hnz Hnone. unfold Mixture.Density. rewrite Hc.
    rewrite (for_enumerate_stops _ (fun c => Substance.Density c T) py_div
               n_div py_add n_add (fun a b => eq_refl) pre post c ws rhos
               (n_lit 0) TypeError); try assumption.
    + reflexivity.
    + rewrite (map_VNum_length _ _ _ Hr). lia.
    + now apply py_div_nonzero.
    + intro s.
      apply (pass_raises _ (fun c => Substance.Density c T) py_div py_add ws);
        [assumption|lia|].
      intro x. unfold Substance.Density. now rewrite Hnone.
  - intros mus ps Hr Hps Hnone. unfold Mixture.Viscosity. rewrite Hc.
    apply (for_enumerate_pairs_stops _ (fun c => Substance.Viscosity c T)
             (fun w mu => py_pow pow mu w) py_mul n_mul pre post c ws mus ps);
      try assumption.
    + reflexivity.
    + rewrite (map_VNum_length _ _ _ Hr). lia.
    + now apply powers_py_pow.
    + intro s.
      apply (pass_raises _ (fun c => Substance.Viscosity c T)
               (fun w mu => py_pow pow mu w) py_mul ws); [assumption|lia|].
      intro x. unfold Substance.Viscosity. now rewrite Hnone.
  - intros cps Hr Hnone. unfold Mixture.SpecificHeat. rewrite Hc.
    apply (for_enumerate_stops _ (fun c => Substance.SpecificHeat c T)
             py_mul n_mul py_add n_add (fun a b => eq_refl) pre post c ws cps);
      try assumption.
    + rewrite (map_VNum_length _ _ _ Hr). lia.
    + reflexivity.
    + intro s.
      apply (pass_raises _ (fun c => Substance.SpecificHeat c T) py_mul
               py_add ws); [assumption|lia|].
      intro x. unfold Substance.SpecificHeat. now rewrite Hnone.
Qed.

Lemma unset_reference_value_witness :
  @Mixture.Density exact 1
    (mixture_of [water; Substance.init "new"] (Some (numbers [1; 0]%Q))
       None VNone VNone VNone) T_default = Raise TypeError
  /\ @Mixture.Viscosity exact whole_pow 1
       (mixture_of [water; Substance.init "new"] (Some (numbers [1; 0]%Q))
          None VNone VNone VNone) T_default = Raise TypeError
  /\ @Mixture.SpecificHeat exact 1
       (mixture_of [water; Substance.init "new"] (Some (numbers [1; 0]%Q))
          None VNone VNone VNone) T_default = Raise TypeError.
Proof.
  destruct (unset_reference_value (Nb := exact) whole_pow 1%nat
              (mixture_of [water; Substance.init "new"]
                 (Some (numbers [1; 0]%Q)) None VNone VNone VNone)
              T_default (map Q2Qc [1; 0]%Q) [water] []
              (Substance.init "new") eq_refl eq_refl)
    as [HD [HV HC]]; [cbn; lia|].
  split; [|split].
  - apply (HD [Q2Qc 1000]); [reflexivity| |reflexivity].
    apply Forall_cons; [reflexivity|constructor].
  - apply (HV [Q2Qc 0.001] [Q2Qc 0.001]); [reflexivity| |reflexivity].
    repeat constructor.
  - apply (HC [Q2Qc 4180]); reflexivity.
Defined.

(** ** A power that raises *)

(** [Viscosity] raises what the first failing power raises: the powers of
    the components before are numbers, and the power of the component
    itself to its mass fraction raises (zero to a negative power is a
    [ZeroDivisionError], a result out of range an [OverflowError]). *)
Theorem Viscosity_power_raises {Nb : Number}
    (pow : num -> num -> result num) (fuel : nat) (m : Mixture.t)
    (T : value) (ws mus ps : list num) (pre post : list Substance.t)
    (c : Substance.t) (mu w : num) (e : exn) :
  Mixture.MassFractions fuel m = Ok (map VNum ws) ->
  Mixture.Components m = pre ++ c :: post ->
  map (fun c => Substance.Viscosity c T) pre = map VNum mus ->
  powers pow ws mus ps ->
  nth_error ws (length pre) = Some w ->
  Substance.Viscosity c T = VNum mu ->
  pow mu w = Raise e ->
  Mixture.Viscosity pow fuel m T = Raise e.
Proof.
  intros Hget Hc Hr Hps Hw Hmu He. unfold Mixture.Viscosity. rewrite Hc.
  assert (Hlen : (length pre < length ws)%nat).
  { apply nth_error_Some. rewrite Hw. discriminate. }
  apply (for_enumerate_pairs_stops _ (fun c => Substance.Viscosity c T)
           (fun w mu => py_pow pow mu w) py_mul n_mul pre post c ws mus ps);
    try assumption.
  - reflexivity.
  - rewrite (map_VNum_length _ _ _ Hr). lia.
  - now apply powers_py_pow.
  - intro s. rewrite Hget. cbn [bind].
    rewrite (py_index_map _ _ w Hw). cbn [bind]. rewrite Hmu.
    cbn [py_pow]. now rewrite He.
Qed.

Lemma Viscosity_power_raises_witness :
  @Mixture.Viscosity exact whole_pow 1 water_less_rigid T_default
  = Raise ZeroDivisionError.
Proof.
  apply (Viscosity_power_raises (Nb := exact) whole_pow 1%nat
           water_less_rigid T_default (map Q2Qc [2; -1]%Q) [Q2Qc 0.001]
           [Q2Qc (Qpower (Q2Qc 0.001) 2)] [water] [] rigid (Q2Qc 0)
           (Q2Qc (-1)) ZeroDivisionError); try reflexivity.
  repeat constructor.
Defined.

(** ** Where the density divides by zero *)

(** [Density] divides each mass fraction by the density of its component
    and one by the sum: it raises [ZeroDivisionError] at the first
    component of density zero, and when the specific volumes add up to zero
    (mass fractions that are all zero, say). *)
Theorem Density_divides_by_zero {Nb : Number} (fuel : nat) (m : Mixture.t)
    (T : value) (ws : list num) :
  Mixture.MassFractions fuel m = Ok (map VNum ws) ->
  (forall pre c post rhos r,
      Mixture.Components m = pre ++ c :: post ->
      (length pre < length ws)%nat ->
      map (fun c => Substance.Density c T) pre = map VNum rhos ->
      nonzero rhos ->
      Substance.Density c T = VNum r ->
      n_is_zero r = true ->
      Mixture.Density fuel m T = Raise ZeroDivisionError)
  /\ (forall rhos,
         length ws = length rhos ->
         map (fun c => Substance.Density c T) (Mixture.Components m)
         = map VNum rhos ->
         nonzero rhos ->
         n_is_zero (n_sum (zip_with n_div ws rhos)) = true ->
         Mixture.Density fuel m T = Raise ZeroDivisionError).
Proof.
  intro Hget. split.
  - intros pre c post rhos r Hc Hlen Hr Hnz Hrc Hz.
    unfold Mixture.Density. rewrite Hc.
    rewrite (for_enumerate_stops _ (fun c => Substance.Density c T) py_div
               n_div py_add n_add (fun a b => eq_refl) pre post c ws rhos
               (n_lit 0) ZeroDivisionError); try assumption.
    + reflexivity.
    + rewrite (map_VNum_length _ _ _ Hr). lia.
    + now apply py_div_nonzero.
    + intro s.
      apply (pass_raises _ (fun c => Substance.Density c T) py_div py_add ws);
        [assumption|lia|].
      intro x. rewrite Hrc. now apply py_div_by_zero.
  - intros rhos Hlen Hr Hnz Hz. unfold Mixture.Density.
    rewrite (for_enumerate_fold _ (fun c => Substance.Density c T) py_div
               n_div py_add n_add (Mixture.Components m) ws rhos);
      try assumption.
    + cbn [bind]. now apply py_div_by_zero.
    + reflexivity.
    + now apply py_div_nonzero.
Qed.

Lemma Density_divides_by_zero_witness :
  @Mixture.Density binary64 1
    (mixture_of [water; substance "void" 0.001 0 1 1]
       (Some (numbers [0.5; 0.5]%Q)) None VNone VNone VNone) T_default
  = Raise ZeroDivisionError
  /\ @Mixture.Density exact 1
       (mixture_of [water; ethanol] (Some (numbers [0; 0]%Q)) None
          VNone VNone VNone) T_default
     = Raise ZeroDivisionError.
Proof.
  split.
  - apply (proj1 (Density_divides_by_zero (Nb := binary64) 1
                    (mixture_of [water; substance "void" 0.001 0 1 1]
                       (Some (numbers [0.5; 0.5]%Q)) None VNone VNone VNone)
                    T_default (map n_lit [0.5; 0.5]%Q) eq_refl)
             [water] (substance "void" 0.001 0 1 1) [] [n_lit 1000]
             (n_lit 0) eq_refl).
    + cbn. lia.
    + reflexivity.
    + apply Forall_cons; [reflexivity|constructor].
    + reflexivity.
    + reflexivity.
  - apply (proj2 (Density_divides_by_zero (Nb := exact) 1
                    (mixture_of [water; ethanol] (Some (numbers [0; 0]%Q))
                       None VNone VNone VNone)
                    T_default (map n_lit [0; 0]%Q) eq_refl)
             (map n_lit [1000; 789]%Q) eq_refl eq_refl).
    + repeat constructor.
    + reflexivity.
Defined.

(** ** Where a conversion stops *)

(** The loop of a conversion over molar masses of which the first ones are
    numbers and the next one makes the operator raise. *)
Lemma conversion_stops {Nb : Number} (get : result (list value))
    (op : value -> value -> result value) (f : num -> num -> num)
    (xs mms : list num) (v : value) (vs : list value) (e : exn) :
  get = Ok (map VNum xs) ->
  (length mms < length xs)%nat ->
  (forall x y, In y mms -> op (VNum x) (VNum y) = Ok (VNum (f x y))) ->
  (forall x, op (VNum x) v = Raise e) ->
  for_enumerate (map VNum mms ++ v :: vs) []
    (fun out i MMi =>
       l <- get ;; x <- py_index l i ;; num <- op x MMi ;;
       den <- for_enumerate (map VNum mms ++ v :: vs) (VNum (n_lit 0))
                (fun den j MMj =>
                   l <- get ;; x <- py_index l j ;; p <- op x MMj ;;
                   py_add den p) ;;
       q <- py_div num den ;; Ok (out ++ [q]))
  = Raise e.
Proof.
  intros Hget Hlen Hop Hv.
  assert (Hden : for_enumerate (map VNum mms ++ v :: vs) (VNum (n_lit 0))
                   (fun den j MMj =>
                      l <- get ;; x <- py_index l j ;; p <- op x MMj ;;
                      py_add den p) = Raise e).
  { apply (for_enumerate_stops get (fun v : value => v) op f py_add n_add
             (fun a b => eq_refl) (map VNum mms) vs v xs mms (n_lit 0) e).
    - exact Hget.
    - apply map_id.
    - lia.
    - exact Hop.
    - intro s. rewrite length_map.
      apply (pass_raises get (fun v : value => v) op py_add xs);
        [exact Hget|exact Hlen|exact Hv]. }
  rewrite Hden. rewrite Hget.
  destruct xs as [|x xs]; [cbn in Hlen; lia|].
  destruct mms as [|mm mms]; cbn [map app];
    apply for_enumerate_first_raises; cbn [bind py_index nth_error map].
  - now rewrite Hv.
  - rewrite Hop by now left. reflexivity.
Qed.

(** A conversion divides by, or multiplies with, each molar mass in turn.
    It raises [TypeError] at the first component whose molar mass is not a
    number ([Substance(name)] leaves it at [None]), and the conversion to
    mole fractions raises [ZeroDivisionError] at a molar mass of zero; the
    components before have molar masses that are numbers (not zero for the
    division) and the stored list has an entry for the component. *)
Theorem conversion_stops_at_molar_mass {Nb : Number} (fuel : nat)
    (m : Mixture.t) (xs mms : list num) (pre post : list Substance.t)
    (c : Substance.t) :
  named_apart m ->
  Mixture.Components m = pre ++ c :: post ->
  map Substance.MolarMass pre = map VNum mms ->
  (length pre < length xs)%nat ->
  (Mixture.wi m = Some (map VNum xs) ->
   Mixture.zi m = None ->
   nonzero mms ->
   ((forall mm, Substance.MolarMass c <> VNum mm) ->
    Mixture.MolarFractions (S (S fuel)) m = Raise TypeError)
   /\ (forall mm,
          Substance.MolarMass c = VNum mm ->
          n_is_zero mm = true ->
          Mixture.MolarFractions (S (S fuel)) m = Raise ZeroDivisionError))
  /\ (Mixture.zi m = Some (map VNum xs) ->
      Mixture.wi m = None ->
      (forall mm, Substance.MolarMass c <> VNum mm) ->
      Mixture.MassFractions (S (S fuel)) m = Raise TypeError).
Proof.
  intros Hn Hc Hpre Hlen.
  pose proof (map_VNum_length _ _ _ Hpre) as Hl.
  assert (Hvals : OrderedDict.values (Mixture.MolarMasses m)
                  = map VNum mms ++ Substance.MolarMass c
                      :: map Substance.MolarMass post).
  { rewrite (MolarMasses_values m Hn), Hc, map_app. cbn [map].
    now rewrite Hpre. }
  split.
  - intros Hwi Hzi Hnz.
    pose proof (MassFractions_stored fuel m _ Hwi) as Hget.
    split.
    + intro Hnum. cbn [Mixture.MolarFractions]. rewrite Hzi, Hvals.
      apply (conversion_stops _ py_div n_div xs mms); try assumption.
      * lia.
      * now apply py_div_nonzero.
      * intro x. destruct (Substance.MolarMass c) as [|mm| |];
          try reflexivity. now destruct (Hnum mm).
    + intros mm Hmm Hz. cbn [Mixture.MolarFractions]. rewrite Hzi, Hvals.
      apply (conversion_stops _ py_div n_div xs mms); try assumption.
      * lia.
      * now apply py_div_nonzero.
      * intro x. rewrite Hmm. now apply py_div_by_zero.
  - intros Hzi Hwi Hnum.
    pose proof (MolarFractions_stored fuel m _ Hzi) as Hget.
    cbn [Mixture.MassFractions]. rewrite Hwi, Hvals.
    apply (conversion_stops _ py_mul n_mul xs mms); try assumption.
    + lia.
    + reflexivity.
    + intro x. destruct (Substance.MolarMass c) as [|mm| |];
        try reflexivity. now destruct (Hnum mm).
Qed.

Lemma conversion_stops_at_molar_mass_witness :
  @Mixture.MolarFractions binary64 2
    (mixture_of [water; Substance.init "new"] (Some (numbers [0.5; 0.5]%Q))
       None VNone VNone VNone) = Raise TypeError
  /\ @Mixture.MolarFractions exact 2
       (mixture_of [water; substance "massless" 0 1 1 1]
          (Some (numbers [0.5; 0.5]%Q)) None VNone VNone VNone)
     = Raise ZeroDivisionError
  /\ @Mixture.MassFractions binary64 2
       (mixture_of [Substance.init "new"] None (Some (numbers [1%Q]))
          VNone VNone VNone) = Raise TypeError.
Proof.
  split; [|split].
  - refine (proj1 (proj1 (conversion_stops_at_molar_mass (Nb := binary64) 0
             (mixture_of [water; Substance.init "new"]
                (Some (numbers [0.5; 0.5]%Q)) None VNone VNone VNone)
             (map n_lit [0.5; 0.5]%Q) [n_lit 0.018] [water] []
             (Substance.init "new") _ eq_refl eq_refl _) eq_refl eq_refl _) _).
    + split; [reflexivity|]. cbn.
      repeat constructor; cbn; intuition discriminate.
    + cbn. lia.
    + apply Forall_cons; [reflexivity|constructor].
    + discriminate.
  - refine (proj2 (proj1 (conversion_stops_at_molar_mass (Nb := exact) 0
             (mixture_of [water; substance "massless" 0 1 1 1]
                (Some (numbers [0.5; 0.5]%Q)) None VNone VNone VNone)
             (map n_lit [0.5; 0.5]%Q) [n_lit 0.018] [water] []
             (substance "massless" 0 1 1 1) _ eq_refl eq_refl _)
             eq_refl eq_refl _) (n_lit 0) eq_refl eq_refl).
    + split; [reflexivity|]. cbn.
      repeat constructor; cbn; intuition discriminate.
    + cbn. lia.
    + apply Forall_cons; [reflexivity|constructor].
  - refine (proj2 (conversion_stops_at_molar_mass (Nb := binary64) 0
             (mixture_of [Substance.init "new"] None (Some (numbers [1%Q]))
                VNone VNone VNone)
             (map n_lit [1%Q]) [] [] [] (Substance.init "new") _ eq_refl
             eq_refl _) eq_refl eq_refl _).
    + split; [reflexivity|]. cbn. repeat constructor. intros [].
    + cbn. lia.
    + discriminate.
Defined.

(** With every molar mass a number, the conversion divides each term by
    the sum of all terms: when that sum is zero (fractions that are all
    zero, say) and there is a component, it raises [ZeroDivisionError]. *)
Theorem conversion_zero_total {Nb : Number} (fuel : nat) (m : Mixture.t)
    (xs mms : list num) :
  named_apart m ->
  molar_masses m mms ->
  length xs = length mms ->
  mms <> [] ->
  (Mixture.wi m = Some (map VNum xs) ->
   Mixture.zi m = None ->
   nonzero mms ->
   n_is_zero (n_sum (zip_with n_div xs mms)) = true ->
   Mixture.MolarFractions (S (S fuel)) m = Raise ZeroDivisionError)
  /\ (Mixture.zi m = Some (map VNum xs) ->
      Mixture.wi m = None ->
      n_is_zero (n_sum (zip_with n_mul xs mms)) = true ->
      Mixture.MassFractions (S (S fuel)) m = Raise ZeroDivisionError).
Proof.
  intros Hn Hmm Hlen Hne.
  pose proof (MolarMasses_values m Hn) as Hvals.
  unfold molar_masses in Hmm. rewrite Hmm in Hvals.
  split.
  - intros Hwi Hzi Hnz HD.
    pose proof (MassFractions_stored fuel m _ Hwi) as Hget.
    pose proof (py_div_nonzero mms Hnz) as Hop.
    cbn [Mixture.MolarFractions]. rewrite Hzi, Hvals.
    rewrite (for_enumerate_fold _ (fun v : value => v) py_div n_div py_add
               n_add (map VNum mms) xs mms (n_lit 0) (fun a b => eq_refl)
               Hget);
      [|now rewrite map_id|assumption|assumption].
    rewrite Hget.
    destruct mms as [|mm mms]; [congruence|].
    destruct xs as [|x xs]; [discriminate|].
    cbn [map]. apply for_enumerate_first_raises.
    cbn [bind py_index nth_error map]. rewrite Hop by now left.
    cbn [bind]. fold (n_sum (zip_with n_div (x :: xs) (mm :: mms))).
    now rewrite py_div_by_zero.
  - intros Hzi Hwi HD.
    pose proof (MolarFractions_stored fuel m _ Hzi) as Hget.
    cbn [Mixture.MassFractions]. rewrite Hwi, Hvals.
    rewrite (for_enumerate_fold _ (fun v : value => v) py_mul n_mul py_add
               n_add (map VNum mms) xs mms (n_lit 0) (fun a b => eq_refl)
               Hget);
      [|now rewrite map_id|assumption|reflexivity].
    rewrite Hget.
    destruct mms as [|mm mms]; [congruence|].
    destruct xs as [|x xs]; [discriminate|].
    cbn [map]. apply for_enumerate_first_raises.
    cbn [bind py_index nth_error map py_mul].
    fold (n_sum (zip_with n_mul (x :: xs) (mm :: mms))).
    now rewrite py_div_by_zero.
Qed.

Lemma conversion_zero_total_witness :
  @Mixture.MolarFractions exact 2
    (mixture_of [water; ethanol] (Some (numbers [0; 0]%Q)) None
       VNone VNone VNone) = Raise ZeroDivisionError
  /\ @Mixture.MassFractions binary64 2
       (mixture_of [water; ethanol] None (Some (numbers [0; 0]%Q))
          VNone VNone VNone) = Raise ZeroDivisionError.
Proof.
  split.
  - apply (conversion_zero_total (Nb := exact) 0
             (mixture_of [water; ethanol] (Some (numbers [0; 0]%Q)) None
                VNone VNone VNone)
             (map n_lit [0; 0]%Q) (map n_lit [0.018; 0.046]%Q));
      try reflexivity.
    + apply named_apart_water_ethanol.
    + discriminate.
    + repeat constructor.
  - apply (conversion_zero_total (Nb := binary64) 0
             (mixture_of [water; ethanol] None (Some (numbers [0; 0]%Q))
                VNone VNone VNone)
             (map n_lit [0; 0]%Q) (map n_lit [0.018; 0.046]%Q));
      try reflexivity.
    + apply named_apart_water_ethanol.
    + discriminate.
Defined.

(** ** The fractions never exhaust the stack once a basis is stored *)

Lemma py_add_no_RecursionError {Nb : Number} (a b : value) :
  py_add a b <> Raise RecursionError.
Proof. destruct a, b; discriminate. Qed.

Lemma py_index_no_RecursionError {Nb : Number} (l : list value) (i : nat) :
  py_index l i <> Raise RecursionError.
Proof. unfold py_index. destruct (nth_error l i); discriminate. Qed.

Lemma for_enumerate_from_no_RecursionError {A St : Type} (l : list A)
    (body : St -> nat -> A -> result St) :
  (forall s i x, body s i x <> Raise RecursionError) ->
  forall i s, for_enumerate_from i l s body <> Raise RecursionError.
Proof.
  intro Hb. induction l as [|x l IH]; intros i s; cbn [for_enumerate_from].
  - discriminate.
  - apply bind_no_RecursionError; [apply Hb|]. intro s'. apply IH.
Qed.

Lemma for_enumerate_no_RecursionError {A St : Type} (l : list A) (s : St)
    (body : St -> nat -> A -> result St) :
  (forall s i x, body s i x <> Raise RecursionError) ->
  for_enumerate l s body <> Raise RecursionError.
Proof.
  intro Hb. unfold for_enumerate.
  now apply for_enumerate_from_no_RecursionError.
Qed.

(** With [wi] or [zi] stored, [MassFractions] and [MolarFractions] call each
    other at most once: from two nested calls on the result does not depend
    on the recursion limit and is never a [RecursionError], whatever the
    components and the stored list are. *)
Theorem fractions_recursion_bounded {Nb : Number} (fuel : nat)
    (m : Mixture.t) :
  Mixture.wi m <> None \/ Mixture.zi m <> None ->
  (Mixture.MassFractions (S (S fuel)) m = Mixture.MassFractions 2 m
   /\ Mixture.MassFractions 2 m <> Raise RecursionError)
  /\ (Mixture.MolarFractions (S (S fuel)) m = Mixture.MolarFractions 2 m
      /\ Mixture.MolarFractions 2 m <> Raise RecursionError).
Proof.
  intro H.
  destruct (Mixture.wi m) as [w|] eqn:Ew.
  - pose proof (MassFractions_stored fuel m w Ew) as H1.
    pose proof (MassFractions_stored 0 m w Ew) as H0.
    split; split.
    + now rewrite !MassFractions_stored with (w := w).
    + rewrite MassFractions_stored with (w := w); [discriminate|assumption].
    + cbn [Mixture.MolarFractions]. destruct (Mixture.zi m); [reflexivity|].
      now rewrite H1, H0.
    + cbn [Mixture.MolarFractions]. destruct (Mixture.zi m); [discriminate|].
      rewrite H0.
      repeat first
        [ apply bind_no_RecursionError; [|intro]
        | apply for_enumerate_no_RecursionError; intros
        | apply py_index_no_RecursionError
        | apply py_add_no_RecursionError
        | apply py_mul_no_RecursionError
        | apply py_div_no_RecursionError
        | discriminate ].
  - destruct (Mixture.zi m) as [z|] eqn:Ez; [|destruct H; congruence].
    pose proof (MolarFractions_stored fuel m z Ez) as H1.
    pose proof (MolarFractions_stored 0 m z Ez) as H0.
    split; split.
    + cbn [Mixture.MassFractions]. rewrite Ew. now rewrite H1, H0.
    + cbn [Mixture.MassFractions]. rewrite Ew. rewrite H0.
      repeat first
        [ apply bind_no_RecursionError; [|intro]
        | apply for_enumerate_no_RecursionError; intros
        | apply py_index_no_RecursionError
        | apply py_add_no_RecursionError
        | apply py_mul_no_RecursionError
        | apply py_div_no_RecursionError
        | discriminate ].
    + now rewrite !MolarFractions_stored with (z := z).
    + rewrite MolarFractions_stored with (z := z); [discriminate|assumption].
Qed.

Lemma fractions_recursion_bounded_witness :
  @Mixture.MolarFractions binary64 1000 half_half_by_mass
  = @Mixture.MolarFractions binary64 2 half_half_by_mass
  /\ @Mixture.MassFractions exact 1000 three_to_one_by_moles
     <> Raise RecursionError.
Proof.
  split.
  - apply (fractions_recursion_bounded (Nb := binary64) 998
             half_half_by_mass).
    left. discriminate.
  - destruct (fractions_recursion_bounded (Nb := exact) 998
                three_to_one_by_moles) as [[E H] _].
    + right. discriminate.
    + rewrite E. exact H.
Defined.

(** ** Component flows at the edges *)

Lemma comprehension_length {A B : Type} (f : A -> result B) (xs : list A)
    (l : list B) :
  comprehension f xs = Ok l -> length l = length xs.
Proof.
  revert l. induction xs as [|x xs IH]; intros l H; cbn [comprehension] in H.
  - now injection H as <-.
  - destruct (f x) as [y|e]; cbn [bind] in H; [|discriminate].
    destruct (comprehension f xs) as [ys|e]; cbn [bind] in H; [|discriminate].
    injection H as <-. cbn [length]. f_equal. now apply IH.
Qed.

Lemma comprehension_flow_raises {Nb : Number} (flow : result value)
    (xs : list value) (e : exn) :
  xs <> [] ->
  flow = Raise e ->
  comprehension (fun x => f <- flow ;; py_mul x f) xs = Raise e.
Proof.
  intros Hne ->. destruct xs as [|x xs]; [congruence|]. reflexivity.
Qed.

(** The list accessors multiply each fraction of the snapshot by the
    scalar flow, which is read again for every entry.  A stream whose
    fraction list is empty has [[]] for component flows, whether a flow is
    stored or not; otherwise what the scalar flow raises is what the list
    accessor raises; and a list that is returned has one entry for each
    fraction. *)
Theorem component_flows_edges {Nb : Number} (fuel : nat) (s : Stream.t) :
  (Stream.MassFractions s = [] -> Stream.MassFlows fuel s = Ok [])
  /\ (Stream.MolarFractions s = [] ->
      Stream.VolumeFlows fuel s = Ok [] /\ Stream.MolarFlows fuel s = Ok [])
  /\ (forall e,
         Stream.MassFractions s <> [] ->
         Stream.MassFlow fuel s = Raise e ->
         Stream.MassFlows fuel s = Raise e)
  /\ (forall e,
         Stream.MolarFractions s <> [] ->
         (Stream.VolumeFlow fuel s = Raise e ->
          Stream.VolumeFlows fuel s = Raise e)
         /\ (Stream.MolarFlow fuel s = Raise e ->
             Stream.MolarFlows fuel s = Raise e))
  /\ (forall l,
         (Stream.MassFlows fuel s = Ok l ->
          length l = length (Stream.MassFractions s))
         /\ (Stream.VolumeFlows fuel s = Ok l ->
             length l = length (Stream.MolarFractions s))
         /\ (Stream.MolarFlows fuel s = Ok l ->
             length l = length (Stream.MolarFractions s))).
Proof.
  unfold Stream.MassFlows, Stream.VolumeFlows, Stream.MolarFlows.
  split; [|split; [|split; [|split]]].
  - now intros ->.
  - now intros ->.
  - intros e Hne H. now apply comprehension_flow_raises.
  - intros e Hne. split; intro H; now apply comprehension_flow_raises.
  - intro l. split; [|split]; apply comprehension_length.
Qed.

Lemma component_flows_edges_witness :
  @Stream.MassFlows binary64 1000 no_flow = Raise TypeError
  /\ @Stream.MolarFlows binary64 1000
       (stream_of 1000 0.02 [] [] VNone VNone VNone VNone) = Ok []
  /\ length (map (fun w : Qc => @VNum exact (w * Q2Qc 10))
               (map Q2Qc [0.25; 0.75]%Q))
     = length (@Stream.MassFractions exact ten_kg_per_s).
Proof.
  split; [|split].
  - apply (component_flows_edges (Nb := binary64) 1000 no_flow).
    + discriminate.
    + reflexivity.
  - apply (component_flows_edges (Nb := binary64) 1000
             (stream_of 1000 0.02 [] [] VNone VNone VNone VNone)).
    reflexivity.
  - apply (proj1 (proj2 (proj2 (proj2 (proj2
             (component_flows_edges (Nb := exact) 1000 ten_kg_per_s)))) _)).
    reflexivity.
Defined.

(** * Further properties in exact arithmetic *)

Section ExactFurther.

Existing Instance exact.

(** ** Derived fractions add up to one *)

Lemma Qcsum_normalise (xs : list Qc) :
  Qcsum xs <> 0 -> Qcsum (normalise xs) = 1.
Proof.
  intro H. unfold normalise. rewrite n_sum_Qcsum.
  change (Qcsum (map (fun x => x / Qcsum xs) xs) = 1).
  rewrite Qcsum_scaled. field. exact H.
Qed.

(** Whatever the stored fractions add up to, the fractions derived from
    them add up to one and there is one for each component; the sum of the
    terms must not be zero (the conversion divides by it). *)
Theorem derived_fractions_add_up_to_one (fuel : nat) (m : Mixture.t)
    (xs mms : list Qc) :
  named_apart m ->
  molar_masses m mms ->
  length xs = length mms ->
  (Mixture.wi m = Some (map VNum xs) ->
   Mixture.zi m = None ->
   Forall (fun mm => mm <> 0) mms ->
   n_sum (zip_with n_div xs mms) <> 0 ->
   exists zs,
     Mixture.MolarFractions (S (S fuel)) m = Ok (map VNum zs)
     /\ length zs = length (Mixture.Components m)
     /\ n_sum zs = 1)
  /\ (Mixture.zi m = Some (map VNum xs) ->
      Mixture.wi m = None ->
      n_sum (zip_with n_mul xs mms) <> 0 ->
      exists ws,
        Mixture.MassFractions (S (S fuel)) m = Ok (map VNum ws)
        /\ length ws = length (Mixture.Components m)
        /\ n_sum ws = 1).
Proof.
  intros Hn Hmm Hlen.
  pose proof (map_VNum_length _ _ _ Hmm) as Hc.
  split.
  - intros Hwi Hzi Hnz HD.
    exists (normalise (zip_with (@n_div exact) xs mms)). split; [|split].
    + apply MolarFractions_derived; try assumption.
      * now apply nonzero_exact.
      * now apply is_zero_false.
    + unfold normalise. rewrite length_map, zip_with_length by assumption.
      exact Hc.
    + rewrite n_sum_Qcsum. apply Qcsum_normalise.
      now rewrite <- n_sum_Qcsum.
  - intros Hzi Hwi HD.
    exists (normalise (zip_with (@n_mul exact) xs mms)). split; [|split].
    + apply MassFractions_derived; try assumption.
      now apply is_zero_false.
    + unfold normalise. rewrite length_map, zip_with_length by assumption.
      exact Hc.
    + rewrite n_sum_Qcsum. apply Qcsum_normalise.
      now rewrite <- n_sum_Qcsum.
Qed.

Lemma derived_fractions_add_up_to_one_witness :
  exists zs,
    Mixture.MolarFractions 2
      (mixture_of [water; ethanol] (Some (numbers [30; 20]%Q)) None
         VNone VNone VNone) = Ok (map VNum zs)
    /\ length zs = 2%nat
    /\ n_sum zs = 1.
Proof.
  apply (derived_fractions_add_up_to_one 0
           (mixture_of [water; ethanol] (Some (numbers [30; 20]%Q)) None
              VNone VNone VNone)
           (map Q2Qc [30; 20]%Q) (map Q2Qc [0.018; 0.046]%Q)).
  - apply named_apart_water_ethanol.
  - reflexivity.
  - reflexivity.
  - reflexivity.
  - reflexivity.
  - repeat constructor; qc_neq.
  - qc_neq.
Defined.

(** ** Fractions that do not add up to one *)

Lemma normalise_rescaled (D : Qc) (ws : list Qc) :
  D <> 0 -> Qcsum ws <> 0 ->
  normalise (map (fun w => w / D) ws) = normalise ws.
Proof.
  intros HD HS. unfold normalise. rewrite !n_sum_Qcsum, Qcsum_scaled.
  rewrite map_map. apply map_ext. intro w. as_Qc.
  field. now split.
Qed.

(** Mass fractions with any sum but zero, converted to mole fractions and
    back, come back divided by their sum: the round trip normalises, and
    gives the same list back when the sum is one. *)
Theorem round_trip_normalises (fuel : nat) (m : Mixture.t)
    (ws mms : list Qc) :
  named_apart m ->
  molar_masses m mms ->
  Mixture.wi m = Some (map VNum ws) ->
  Mixture.zi m = None ->
  length ws = length mms ->
  Forall (fun mm => mm <> 0) mms ->
  n_sum ws <> 0 ->
  n_sum (zip_with n_div ws mms) <> 0 ->
  exists zs,
    Mixture.MolarFractions (S (S fuel)) m = Ok zs
    /\ Mixture.MassFractions (S (S fuel))
         (Mixture.set_zi (Mixture.set_wi m None) (Some zs))
       = Ok (map VNum (normalise ws)).
Proof.
  intros Hn Hmm Hwi Hzi Hlen Hnz HS HD'.
  rewrite n_sum_Qcsum in HS.
  set (D := Qcsum (zip_with Qcdiv ws mms)).
  assert (HDn : n_sum (zip_with n_div ws mms) = D) by apply n_sum_Qcsum.
  assert (HD : D <> 0) by now rewrite <- HDn.
  exists (map VNum (normalise (zip_with (@n_div exact) ws mms))). split.
  - apply MolarFractions_derived; try assumption.
    + now apply nonzero_exact.
    + now apply is_zero_false.
  - assert (Hback : zip_with (@n_mul exact)
                      (normalise (zip_with (@n_div exact) ws mms)) mms
                    = map (fun w => w / D) ws).
    { unfold normalise. rewrite HDn. now apply back_products. }
    rewrite (MassFractions_derived fuel _
               (normalise (zip_with (@n_div exact) ws mms)) mms).
    + rewrite Hback. now rewrite normalise_rescaled.
    + exact Hn.
    + exact Hmm.
    + reflexivity.
    + reflexivity.
    + unfold normalise. rewrite length_map. now apply zip_with_length.
    + rewrite Hback, n_sum_Qcsum, Qcsum_scaled.
      apply is_zero_false. intro E. apply HS.
      change (Qcsum ws = 0).
      replace (Qcsum ws) with (Qcsum ws / D * D) by (field; exact HD).
      rewrite E. ring.
Qed.

Lemma round_trip_normalises_witness :
  exists zs,
    Mixture.MolarFractions 2
      (mixture_of [water; ethanol] (Some (numbers [30; 20]%Q)) None
         VNone VNone VNone) = Ok zs
    /\ Mixture.MassFractions 2
         (Mixture.set_zi
            (Mixture.set_wi
               (mixture_of [water; ethanol] (Some (numbers [30; 20]%Q)) None
                  VNone VNone VNone) None) (Some zs))
       = Ok (map VNum (normalise (map Q2Qc [30; 20]%Q))).
Proof.
  apply (round_trip_normalises 0
           (mixture_of [water; ethanol] (Some (numbers [30; 20]%Q)) None
              VNone VNone VNone)
           (map Q2Qc [30; 20]%Q) (map Q2Qc [0.018; 0.046]%Q)).
  - apply named_apart_water_ethanol.
  - reflexivity.
  - reflexivity.
  - reflexivity.
  - reflexivity.
  - repeat constructor; qc_neq.
  - qc_neq.
  - qc_neq.
Defined.

(** ** The ideal-gas branches undo each other *)



(** ** The flow bases undo each other *)

(** Actual and normal volumetric flow are inverse to each other at the
    same conditions: the normal flow computed from [Vf], stored as [Vfo] of
    a stream without [Vf], gives [Vf] back as its volumetric flow, and
    conversely. *)
Theorem normal_volume_flow_round_trip (fuel : nat) (s s' : Stream.t)
    (T P To Po : Qc) :
  Stream.Temperature s = VNum T ->
  Stream.Pressure s = VNum P ->
  Stream._To s = VNum To ->
  Stream._Po s = VNum Po ->
  Stream.Temperature s' = VNum T ->
  Stream.Pressure s' = VNum P ->
  Stream._To s' = VNum To ->
  Stream._Po s' = VNum Po ->
  T <> 0 -> P <> 0 -> To <> 0 -> Po <> 0 ->
  (forall vf : Qc,
      Stream.Vf s = VNum vf ->
      Stream.Vfo s = VNone ->
      exists vfo : Qc,
        Stream.NormalVolumeFlow (S (S fuel)) s = Ok (VNum vfo)
        /\ (Stream.Vf s' = VNone ->
            Stream.Vfo s' = VNum vfo ->
            Stream.VolumeFlow (S (S fuel)) s' = Ok (VNum vf)))
  /\ (forall vfo : Qc,
         Stream.Vf s = VNone ->
         Stream.Vfo s = VNum vfo ->
         exists vf : Qc,
           Stream.VolumeFlow (S (S fuel)) s = Ok (VNum vf)
           /\ (Stream.Vf s' = VNum vf ->
               Stream.Vfo s' = VNone ->
               Stream.NormalVolumeFlow (S (S fuel)) s' = Ok (VNum vfo))).
Proof.
  intros HT HP HTo HPo HT' HP' HTo' HPo' HTnz HPnz HTonz HPonz.
  split.
  - intros vf HVf HVfo. exists (vf * (To / Po) * (P / T)). split.
    + cbn [Stream.NormalVolumeFlow Stream.VolumeFlow].
      rewrite HVfo, HVf, HT, HP, HTo, HPo. cbn [bind].
      rewrite !py_div_num by now apply is_zero_false. reflexivity.
    + intros HVf' HVfo'. cbn [Stream.NormalVolumeFlow Stream.VolumeFlow].
      rewrite HVf', HVfo', HT', HP', HTo', HPo'. cbn [bind].
      rewrite !py_div_num by now apply is_zero_false. cbn [py_mul bind].
      do 2 f_equal. as_Qc. field. now repeat split.
  - intros vfo HVf HVfo. exists (vfo * (Po / To) * (T / P)). split.
    + cbn [Stream.NormalVolumeFlow Stream.VolumeFlow].
      rewrite HVf, HVfo, HT, HP, HTo, HPo. cbn [bind].
      rewrite !py_div_num by now apply is_zero_false. reflexivity.
    + intros HVf' HVfo'. cbn [Stream.NormalVolumeFlow Stream.VolumeFlow].
      rewrite HVf', HVfo', HT', HP', HTo', HPo'. cbn [bind].
      rewrite !py_div_num by now apply is_zero_false. cbn [py_mul bind].
      do 2 f_equal. as_Qc. field. now repeat split.
Qed.

Lemma normal_volume_flow_round_trip_witness :
  exists vfo : Qc,
    Stream.NormalVolumeFlow 2
      (stream_of 1000 0.02 [] [] VNone (VNum (n_lit 3)) VNone VNone)
    = Ok (VNum vfo)
    /\ Stream.VolumeFlow 2
         (stream_of 1000 0.02 [] [] VNone VNone (VNum vfo) VNone)
       = Ok (VNum (n_lit 3)).
Proof.
  exists (Q2Qc 3 * (Q2Qc 273.15 / Q2Qc 101325)
          * (Q2Qc 101325 / Q2Qc 298.15)).
  destruct (proj1 (normal_volume_flow_round_trip 0
                     (stream_of 1000 0.02 [] [] VNone (VNum (n_lit 3)) VNone
                        VNone)
                     (stream_of 1000 0.02 [] [] VNone VNone
                        (@VNum exact
                           (Q2Qc 3 * (Q2Qc 273.15 / Q2Qc 101325)
                            * (Q2Qc 101325 / Q2Qc 298.15))) VNone)
                     (Q2Qc 298.15) (Q2Qc 101325) (Q2Qc 273.15) (Q2Qc 101325)
                     eq_refl eq_refl eq_refl eq_refl
                     eq_refl eq_refl eq_refl eq_refl
                     ltac:(qc_neq) ltac:(qc_neq) ltac:(qc_neq) ltac:(qc_neq))
                (Q2Qc 3) eq_refl eq_refl) as (vfo & Hv & Hback).
  split.
  - reflexivity.
  - apply Hback; [reflexivity|].
    injection Hv as <-. reflexivity.
Defined.

(** Mass, volumetric and molar flow are consistent with each other through
    the density and the molar mass of the snapshot: the mass flow computed
    from [Vf], stored as [Mf] of a stream without volumetric flows, gives
    [Vf] back; the volumetric flow computed from [Mf] gives [Mf] back; and
    likewise between [Nf] and [Mf] through the molar mass. *)
Theorem flow_bases_round_trip (fuel : nat) (s s' : Stream.t) (rho MM : Qc) :
  Stream.Density s = VNum rho ->
  Stream.MolarMass s = VNum MM ->
  Stream.Density s' = VNum rho ->
  Stream.MolarMass s' = VNum MM ->
  rho <> 0 ->
  MM <> 0 ->
  (forall vf : Qc,
      Stream.Mf s = VNone -> Stream.Nf s = VNone -> Stream.Vf s = VNum vf ->
      exists mf : Qc,
        Stream.MassFlow (S fuel) s = Ok (VNum mf)
        /\ (Stream.Mf s' = VNum mf ->
            Stream.Vf s' = VNone ->
            Stream.Vfo s' = VNone ->
            Stream.VolumeFlow (S fuel) s' = Ok (VNum vf)))
  /\ (forall mf : Qc,
         Stream.Mf s = VNum mf ->
         Stream.Vf s = VNone ->
         Stream.Vfo s = VNone ->
         exists vf : Qc,
           Stream.VolumeFlow (S fuel) s = Ok (VNum vf)
           /\ (Stream.Mf s' = VNone ->
               Stream.Nf s' = VNone ->
               Stream.Vf s' = VNum vf ->
               Stream.MassFlow (S fuel) s' = Ok (VNum mf)))
  /\ (forall nf : Qc,
         Stream.Mf s = VNone ->
         Stream.Nf s = VNum nf ->
         exists mf : Qc,
           Stream.MassFlow fuel s = Ok (VNum mf)
           /\ (Stream.Mf s' = VNum mf ->
               Stream.Nf s' = VNone ->
               Stream.MolarFlow fuel s' = Ok (VNum nf)))
  /\ (forall mf : Qc,
         Stream.Mf s = VNum mf ->
         Stream.Nf s = VNone ->
         exists nf : Qc,
           Stream.MolarFlow fuel s = Ok (VNum nf)
           /\ (Stream.Mf s' = VNone ->
               Stream.Nf s' = VNum nf ->
               Stream.MassFlow fuel s' = Ok (VNum mf))).
Proof.
  intros Hr HM Hr' HM' Hrnz HMnz.
  split; [|split; [|split]].
  - intros vf HMf HNf HVf. exists (vf * rho). split.
    + unfold Stream.MassFlow. cbn [Stream.VolumeFlow].
      rewrite HMf, HNf, HVf, Hr. reflexivity.
    + intros HMf' HVf' HVfo'. cbn [Stream.VolumeFlow].
      rewrite HVf', HVfo', HMf', Hr'.
      rewrite py_div_num by now apply is_zero_false.
      do 2 f_equal. as_Qc. field. exact Hrnz.
  - intros mf HMf HVf HVfo. exists (mf / rho). split.
    + cbn [Stream.VolumeFlow]. rewrite HVf, HVfo, HMf, Hr.
      rewrite py_div_num by now apply is_zero_false. reflexivity.
    + intros HMf' HNf' HVf'. unfold Stream.MassFlow.
      cbn [Stream.VolumeFlow]. rewrite HMf', HNf', HVf', Hr'.
      cbn [bind py_mul]. do 2 f_equal. as_Qc. field. exact Hrnz.
  - intros nf HMf HNf. exists (nf * MM). split.
    + unfold Stream.MassFlow. rewrite HMf, HNf, HM. reflexivity.
    + intros HMf' HNf'. unfold Stream.MolarFlow, Stream.MassFlow.
      rewrite HNf', HMf', HM'. cbn [bind].
      rewrite py_div_num by now apply is_zero_false.
      do 2 f_equal. as_Qc. field. exact HMnz.
  - intros mf HMf HNf. exists (mf / MM). split.
    + unfold Stream.MolarFlow, Stream.MassFlow. rewrite HNf, HMf, HM.
      cbn [bind]. rewrite py_div_num by now apply is_zero_false.
      reflexivity.
    + intros HMf' HNf'. unfold Stream.MassFlow. rewrite HMf', HNf', HM'.
      cbn [py_mul]. do 2 f_equal. as_Qc. field. exact HMnz.
Qed.

Lemma flow_bases_round_trip_witness :
  exists nf : Qc,
    Stream.MolarFlow 2 ten_kg_per_s = Ok (VNum nf)
    /\ Stream.MassFlow 2
         (stream_of 1000 0.02 [0.25; 0.75]%Q [0.5; 0.5]%Q VNone VNone VNone
            (VNum nf))
       = Ok (VNum (n_lit 10)).
Proof.
  exists (Q2Qc 10 / Q2Qc 0.02).
  destruct (proj2 (proj2 (proj2 (flow_bases_round_trip 2 ten_kg_per_s
                     (stream_of 1000 0.02 [0.25; 0.75]%Q [0.5; 0.5]%Q VNone
                        VNone VNone (@VNum exact (Q2Qc 10 / Q2Qc 0.02)))
                     (Q2Qc 1000) (Q2Qc 0.02)
                     eq_refl eq_refl eq_refl eq_refl
                     ltac:(qc_neq) ltac:(qc_neq))))
                (Q2Qc 10) eq_refl eq_refl) as (nf & Hn & Hback).
  split.
  - reflexivity.
  - apply Hback; [reflexivity|].
    injection Hn as <-. reflexivity.
Defined.

(** ** Fractions are read up to a common factor *)

Lemma zip_with_div_times (k : Qc) (xs mms : list Qc) :
  zip_with Qcdiv (map (fun x => x * k) xs) mms
  = map (fun x => x * k) (zip_with Qcdiv xs mms).
Proof.
  revert mms. induction xs as [|x xs IH]; intros [|mm mms];
    try reflexivity.
  specialize (IH mms). unfold zip_with in *. cbn [map combine fst snd].
  rewrite IH. f_equal. unfold Qcdiv. ring.
Qed.

Lemma zip_with_mul_times (k : Qc) (xs mms : list Qc) :
  zip_with Qcmult (map (fun x => x * k) xs) mms
  = map (fun x => x * k) (zip_with Qcmult xs mms).
Proof.
  revert mms. induction xs as [|x xs IH]; intros [|mm mms];
    try reflexivity.
  specialize (IH mms). unfold zip_with in *. cbn [map combine fst snd].
  rewrite IH. f_equal. ring.
Qed.

Lemma normalise_times (k : Qc) (l : list Qc) :
  k <> 0 -> Qcsum l <> 0 ->
  normalise (map (fun x => x * k) l) = normalise l.
Proof.
  intros Hk HS. unfold normalise. rewrite !n_sum_Qcsum, Qcsum_times.
  rewrite map_map. apply map_ext. intro x. as_Qc. field. now split.
Qed.

(** The conversions read the stored fractions up to a common factor: mass
    fractions given in percent, say, have the mole fractions of the same
    list given in parts of one.  The factor and the sum of the terms must
    not be zero. *)
Theorem fractions_scale_invariant (fuel : nat) (m m' : Mixture.t) (k : Qc)
    (xs mms : list Qc) :
  named_apart m ->
  molar_masses m mms ->
  length xs = length mms ->
  Mixture.Components m' = Mixture.Components m ->
  Mixture.ComponentNames m' = Mixture.ComponentNames m ->
  k <> 0 ->
  (Mixture.wi m = Some (map VNum xs) ->
   Mixture.zi m = None ->
   Mixture.wi m' = Some (map VNum (map (fun x => x * k) xs)) ->
   Mixture.zi m' = None ->
   Forall (fun mm => mm <> 0) mms ->
   n_sum (zip_with n_div xs mms) <> 0 ->
   Mixture.MolarFractions (S (S fuel)) m'
   = Mixture.MolarFractions (S (S fuel)) m)
  /\ (Mixture.zi m = Some (map VNum xs) ->
      Mixture.wi m = None ->
      Mixture.zi m' = Some (map VNum (map (fun x => x * k) xs)) ->
      Mixture.wi m' = None ->
      n_sum (zip_with n_mul xs mms) <> 0 ->
      Mixture.MassFractions (S (S fuel)) m'
      = Mixture.MassFractions (S (S fuel)) m).
Proof.
  intros Hn Hmm Hlen Hc Hnames Hk.
  assert (Hn' : named_apart m').
  { destruct Hn as [H1 H2]. split; rewrite Hnames; [now rewrite Hc|exact H2]. }
  assert (Hmm' : molar_masses m' mms).
  { unfold molar_masses in *. now rewrite Hc. }
  assert (Hlen' : length (map (fun x => x * k) xs) = length mms)
    by now rewrite length_map.
  split.
  - intros Hwi Hzi Hwi' Hzi' Hnz HD.
    pose proof HD as HDq. rewrite n_sum_Qcsum in HDq.
    rewrite (MolarFractions_derived fuel m xs mms); try assumption.
    2:{ now apply nonzero_exact. }
    2:{ now apply is_zero_false. }
    rewrite (MolarFractions_derived fuel m' (map (fun x => x * k) xs) mms);
      try assumption.
    + do 2 f_equal.
      change (normalise (zip_with Qcdiv (map (fun x => x * k) xs) mms)
              = normalise (zip_with Qcdiv xs mms)).
      rewrite zip_with_div_times. now apply normalise_times.
    + now apply nonzero_exact.
    + apply is_zero_false. rewrite n_sum_Qcsum.
      change (Qcsum (zip_with Qcdiv (map (fun x => x * k) xs) mms) <> 0).
      rewrite zip_with_div_times, Qcsum_times. intro E.
      apply Qcmult_integral in E. tauto.
  - intros Hzi Hwi Hzi' Hwi' HD.
    pose proof HD as HDq. rewrite n_sum_Qcsum in HDq.
    rewrite (MassFractions_derived fuel m xs mms); try assumption.
    2:{ now apply is_zero_false. }
    rewrite (MassFractions_derived fuel m' (map (fun x => x * k) xs) mms);
      try assumption.
    + do 2 f_equal.
      change (normalise (zip_with Qcmult (map (fun x => x * k) xs) mms)
              = normalise (zip_with Qcmult xs mms)).
      rewrite zip_with_mul_times. now apply normalise_times.
    + apply is_zero_false. rewrite n_sum_Qcsum.
      change (Qcsum (zip_with Qcmult (map (fun x => x * k) xs) mms) <> 0).
      rewrite zip_with_mul_times, Qcsum_times. intro E.
      apply Qcmult_integral in E. tauto.
Qed.

Lemma fractions_scale_invariant_witness :
  Mixture.MolarFractions 2
    (mixture_of [water; ethanol] (Some (numbers [50; 50]%Q)) None
       VNone VNone VNone)
  = Mixture.MolarFractions 2 half_half_by_mass.
Proof.
  apply (proj1 (fractions_scale_invariant 0 half_half_by_mass
                  (mixture_of [water; ethanol] (Some (numbers [50; 50]%Q))
                     None VNone VNone VNone)
                  (Q2Qc 100) (map Q2Qc [0.5; 0.5]%Q)
                  (map Q2Qc [0.018; 0.046]%Q)
                  (named_apart_water_ethanol _ _ _ _ _)
                  eq_refl eq_refl eq_refl eq_refl ltac:(qc_neq))).
  - reflexivity.
  - reflexivity.
  - cbn. do 3 f_equal; [|f_equal]; f_equal; qc_eq.
  - reflexivity.
  - repeat constructor; qc_neq.
  - qc_neq.
Defined.

(** ** Bulk properties lie between those of the components *)

Lemma Qc_one_over_pos (a : Qc) : 0 < a -> 0 < 1 / a.
Proof.
  intro Ha. apply Qcnot_le_lt. intro H.
  assert (H1 : 1 / a * a <= 0 * a).
  { apply Qcmult_le_compat_r; [exact H|now apply Qclt_le_weak]. }
  replace (1 / a * a) with 1 in H1 by (field; now apply Qclt_nonzero).
  replace (0 * a) with 0 in H1 by ring.
  revert H1. apply Qclt_not_le. reflexivity.
Qed.

Lemma Qcdiv_le_div (w a b : Qc) :
  0 <= w -> 0 < a -> a <= b -> w / b <= w / a.
Proof.
  intros Hw Ha Hab.
  assert (Hb : 0 < b) by now apply (Qclt_le_trans _ a).
  assert (Hba : 0 < b * a).
  { replace 0 with (0 * a) by ring. now apply Qcmult_lt_compat_r. }
  apply (Qcmult_lt_0_le_reg_r _ _ (b * a) Hba).
  replace (w / b * (b * a)) with (a * w)
    by (field; now apply Qclt_nonzero).
  replace (w / a * (b * a)) with (b * w)
    by (field; now apply Qclt_nonzero).
  now apply Qcmult_le_compat_r.
Qed.

(** A weighted sum lies between the least and the greatest term times the
    sum of the weights. *)
Lemma weighted_sum_between (lo hi : Qc) (ws cs : list Qc) :
  length ws = length cs ->
  Forall (fun w => 0 <= w) ws ->
  Forall (fun c => lo <= c /\ c <= hi) cs ->
  lo * Qcsum ws <= Qcsum (zip_with Qcmult ws cs)
  /\ Qcsum (zip_with Qcmult ws cs) <= hi * Qcsum ws.
Proof.
  revert cs. induction ws as [|w ws IH]; intros [|c cs] Hlen Hw Hc;
    try discriminate.
  - unfold zip_with. cbn. replace (lo * 0) with 0 by ring.
    replace (hi * 0) with 0 by ring. split; apply Qcle_refl.
  - injection Hlen as Hlen. inversion Hw as [|? ? Hw0 Hws]; subst.
    inversion Hc as [|? ? [Hlo Hhi] Hcs]; subst.
    destruct (IH cs Hlen Hws Hcs) as [IH1 IH2].
    unfold zip_with in *. cbn [combine map Qcsum fold_right fst snd] in *.
    fold (Qcsum (map (fun p => fst p * snd p) (combine ws cs))) in *.
    fold (Qcsum ws) in *.
    split.
    + replace (lo * (w + Qcsum ws)) with (lo * w + lo * Qcsum ws) by ring.
      apply Qcplus_le_compat; [|exact IH1].
      rewrite (Qcmult_comm w c). now apply Qcmult_le_compat_r.
    + replace (hi * (w + Qcsum ws)) with (hi * w + hi * Qcsum ws) by ring.
      apply Qcplus_le_compat; [|exact IH2].
      rewrite (Qcmult_comm w c). now apply Qcmult_le_compat_r.
Qed.

(** The sum of the specific volumes [w / rho] lies between the sum of the
    weights over the greatest and over the least density. *)
Lemma specific_volume_between (lo hi : Qc) (ws rs : list Qc) :
  length ws = length rs ->
  Forall (fun w => 0 <= w) ws ->
  0 < lo ->
  Forall (fun r => lo <= r /\ r <= hi) rs ->
  Qcsum ws / hi <= Qcsum (zip_with Qcdiv ws rs)
  /\ Qcsum (zip_with Qcdiv ws rs) <= Qcsum ws / lo.
Proof.
  intros Hlen Hw Hlo0. revert rs Hlen.
  induction ws as [|w ws IH]; intros [|r rs] Hlen Hr; try discriminate.
  - unfold zip_with. cbn. replace (0 / hi) with 0 by (unfold Qcdiv; ring).
    replace (0 / lo) with 0 by (unfold Qcdiv; ring).
    split; apply Qcle_refl.
  - injection Hlen as Hlen. inversion Hw as [|? ? Hw0 Hws]; subst.
    inversion Hr as [|? ? [Hlo Hhi] Hrs]; subst.
    destruct (IH Hws rs Hlen Hrs) as [IH1 IH2].
    unfold zip_with in *. cbn [combine map Qcsum fold_right fst snd] in *.
    fold (Qcsum (map (fun p => fst p / snd p) (combine ws rs))) in *.
    fold (Qcsum ws) in *.
    assert (Hr0 : 0 < r) by now apply (Qclt_le_trans _ lo).
    split.
    + replace ((w + Qcsum ws) / hi) with (w / hi + Qcsum ws / hi)
        by (unfold Qcdiv; ring).
      apply Qcplus_le_compat; [|exact IH1]. now apply Qcdiv_le_div.
    + replace ((w + Qcsum ws) / lo) with (w / lo + Qcsum ws / lo)
        by (unfold Qcdiv; ring).
      apply Qcplus_le_compat; [|exact IH2]. now apply Qcdiv_le_div.
Qed.

(** With mass fractions that are not negative and add up to one, the
    density of the mixture lies between the least and the greatest density
    of its components (which are positive), and its specific heat between
    the least and the greatest specific heat: both are weighted means. *)
Theorem bulk_properties_between_components (fuel : nat) (m : Mixture.t)
    (T : value) (ws : list Qc) (lo hi : Qc) :
  Mixture.MassFractions fuel m = Ok (map VNum ws) ->
  length ws = length (Mixture.Components m) ->
  Forall (fun w => 0 <= w) ws ->
  n_sum ws = 1 ->
  (forall rhos,
      map (fun c => Substance.Density c T) (Mixture.Components m)
      = map VNum rhos ->
      0 < lo ->
      Forall (fun r => lo <= r /\ r <= hi) rhos ->
      exists rho : Qc,
        Mixture.Density fuel m T = Ok (VNum rho) /\ lo <= rho /\ rho <= hi)
  /\ (forall cps,
         map (fun c => Substance.SpecificHeat c T) (Mixture.Components m)
         = map VNum cps ->
         Forall (fun c => lo <= c /\ c <= hi) cps ->
         exists cp : Qc,
           Mixture.SpecificHeat fuel m T = Ok (VNum cp)
           /\ lo <= cp /\ cp <= hi).
Proof.
  intros Hget Hlen Hw Hsum. rewrite n_sum_Qcsum in Hsum.
  split.
  - intros rhos Hrho Hlo0 Hr.
    assert (Lrho : length ws = length rhos).
    { rewrite Hlen. symmetry. exact (map_VNum_length _ _ _ Hrho). }
    destruct (specific_volume_between lo hi ws rhos Lrho Hw Hlo0 Hr)
      as [H1 H2].
    rewrite Hsum in H1, H2.
    set (D := Qcsum (zip_with Qcdiv ws rhos)) in *.
    assert (Hhi0 : 0 < hi).
    { destruct rhos as [|r rhos].
      - destruct ws; [|discriminate]. exfalso. revert Hsum. cbn. qc_neq.
      - inversion Hr as [|? ? [Ha Hb] _]; subst.
        apply (Qclt_le_trans _ lo); [exact Hlo0|].
        now apply (Qcle_trans _ r). }
    assert (HD0 : 0 < D).
    { apply (Qclt_le_trans _ (1 / hi)); [now apply Qc_one_over_pos|exact H1]. }
    assert (HDnz : D <> 0) by now apply Qclt_nonzero.
    assert (Hpos : Forall (fun r => r <> 0) rhos).
    { revert Hr. apply Forall_impl. intros r [Ha _].
      apply Qclt_nonzero. now apply (Qclt_le_trans _ lo). }
    exists (1 / D). split; [|split].
    + rewrite (Density_rule fuel m T ws rhos); try assumption.
      * do 2 f_equal. as_Qc. now rewrite n_sum_Qcsum.
      * now apply nonzero_exact.
      * apply is_zero_false. now rewrite n_sum_Qcsum.
    + apply (Qcmult_lt_0_le_reg_r _ _ D HD0).
      replace (1 / D * D) with 1 by (field; exact HDnz).
      replace 1 with (1 / lo * lo) by (field; now apply Qclt_nonzero).
      rewrite (Qcmult_comm lo D).
      apply Qcmult_le_compat_r; [exact H2|now apply Qclt_le_weak].
    + apply (Qcmult_lt_0_le_reg_r _ _ D HD0).
      replace (1 / D * D) with 1 by (field; exact HDnz).
      replace 1 with (1 / hi * hi) by (field; now apply Qclt_nonzero).
      rewrite (Qcmult_comm hi D).
      apply Qcmult_le_compat_r; [exact H1|now apply Qclt_le_weak].
  - intros cps Hcp Hc.
    assert (Lcp : length ws = length cps).
    { rewrite Hlen. symmetry. exact (map_VNum_length _ _ _ Hcp). }
    destruct (weighted_sum_between lo hi ws cps Lcp Hw Hc) as [H1 H2].
    rewrite Hsum in H1, H2.
    replace (lo * 1) with lo in H1 by ring.
    replace (hi * 1) with hi in H2 by ring.
    exists (Qcsum (zip_with Qcmult ws cps)). split; [|split; assumption].
    rewrite (SpecificHeat_rule fuel m T ws cps); try assumption.
    do 2 f_equal. apply n_sum_Qcsum.
Qed.

Lemma bulk_properties_between_components_witness :
  (exists rho : Qc,
      Mixture.Density 1 half_half_by_mass T_default = Ok (VNum rho)
      /\ Q2Qc 789 <= rho /\ rho <= Q2Qc 1000)
  /\ (exists cp : Qc,
         Mixture.SpecificHeat 1 half_half_by_mass T_default = Ok (VNum cp)
         /\ Q2Qc 2440 <= cp /\ cp <= Q2Qc 4180).
Proof.
  split.
  - apply (proj1 (bulk_properties_between_components 1 half_half_by_mass
                    T_default (map Q2Qc [0.5; 0.5]%Q) (Q2Qc 789) (Q2Qc 1000)
                    eq_refl eq_refl
                    ltac:(repeat constructor; discriminate)
                    ltac:(qc_eq))
             (map Q2Qc [1000; 789]%Q) eq_refl eq_refl).
    repeat constructor; discriminate.
  - apply (proj2 (bulk_properties_between_components 1 half_half_by_mass
                    T_default (map Q2Qc [0.5; 0.5]%Q) (Q2Qc 2440) (Q2Qc 4180)
                    eq_refl eq_refl
                    ltac:(repeat constructor; discriminate)
                    ltac:(qc_eq))
             (map Q2Qc [4180; 2440]%Q) eq_refl).
    repeat constructor; discriminate.
Defined.

End ExactFurther.
